(** * Frame orchestration and orbit camera of asteroids_d3d12

    A shallow embedding of [src/camera.cpp] (the [OrbitCamera] mutators) and
    of [src/WinWrapper.cpp] (the window procedure, the start of [main] with
    its argument loop, the main loop and [ToggleFullscreen]), the properties
    of the design document checked against it, and further properties of
    the code.

    Numbers are modelled as the C++ code has them: [float] is IEEE-754
    binary32, [double] is binary64, both carried by the Standard Library's
    [spec_float] with the operations of [SpecFloat] (round to nearest, ties
    to even, every operation rounded to its own format, no fused
    multiply-add).  [UINT], [DWORD] and [UINT64] are [Z] with the wrap-around
    written out.

    The globals of [WinWrapper.cpp] are a record threaded through a state
    and error monad.  What leaves the process or reaches a collaborator (the
    two backends, [Sleep], the two statistics files, the interaction
    context) is recorded, in order, in the list [calls].  What the platform
    hands in (messages, counter readings, hit tests, interaction outputs) is
    an input of the function that consumes it; so are the conversions
    [atof] and [atoi] of the C library in the argument loop, and the answers
    of the window in [ToggleFullscreen].  The window title, the FPS
    text, the visibility of the two sprites, the console output and the
    profiling hooks are left out; so are [mEye], [mView] and
    [mViewProjection], which [UpdateData] recomputes from the fields kept.

    Three steps of [WinWrapper.cpp] are left out as well.  A pointer-down converts the pointer position to
    render units before its hit test, by two integer divisions by the width
    and the height of the client rectangle, undefined when the rectangle is
    empty: the hit test is taken as the platform's answer, and of a
    pointer-down the properties say what holds when it is handled to its
    end.  [main] reserves [int(closeAfterSeconds) + 4] entries of the time
    series before the loop when the close-after duration is positive.  The
    numbers streamed to the two statistics files are recorded as the values
    handed to [operator<<], not as the text it writes (six significant
    digits by default).

    The file has the embedding first, then what the properties speak about,
    then the proofs. *)

From Stdlib Require Import ZArith List Bool Lia String.
From Stdlib Require Import Floats.SpecFloat.
Import ListNotations.

Local Open Scope Z_scope.

(* ================================================================== *)
(** * Floating point *)
(* ================================================================== *)

(** Operations shared by both formats: the comparisons of C++ on floating
    point values ([<], [<=], [>], [>=], [!=]); every ordered comparison with
    a NaN is false. *)
Module Fp.

Definition ltb (x y : spec_float) : bool := SFltb x y.
Definition leb (x y : spec_float) : bool := SFleb x y.
Definition gtb (x y : spec_float) : bool := SFltb y x.
Definition geb (x y : spec_float) : bool := SFleb y x.
Definition neqb (x y : spec_float) : bool := negb (SFeqb x y).

(** [std::max(a, b)] is [(a < b) ? b : a] and [std::min(a, b)] is
    [(b < a) ? b : a] (<algorithm>). *)
Definition max (a b : spec_float) : spec_float := if ltb a b then b else a.
Definition min (a b : spec_float) : spec_float := if ltb b a then b else a.

(** Truncation toward zero of a finite value, as a conversion to an
    integer type starts. *)
Definition trunc (x : spec_float) : option Z :=
  match x with
  | S754_zero _ => Some 0
  | S754_finite s m e =>
      let mag := match e with
                 | Z0 => Zpos m
                 | Zpos p => Zpos m * 2 ^ Zpos p
                 | Zneg p => Zpos m / 2 ^ Zpos p
                 end in
      Some (cond_Zopp s mag)
  | _ => None
  end.

(** Conversion to a 32-bit unsigned integer ([UINT], [DWORD]): defined
    when the truncated value is representable, undefined otherwise. *)
Definition to_u32 (x : spec_float) : option Z :=
  match trunc x with
  | Some z => if (0 <=? z) && (z <? 2 ^ 32) then Some z else None
  | None => None
  end.

(** A decimal literal [n / d], correctly rounded to the format. *)
Definition lit (prec emax : Z) (n d : positive) : spec_float :=
  SFdiv prec emax (S754_finite false n 0) (S754_finite false d 0).

Definition is_nan (x : spec_float) : bool :=
  match x with S754_nan => true | _ => false end.

End Fp.

(** binary32 *)
Module F32.
Definition prec : Z := 24.
Definition emax : Z := 128.
Definition add := SFadd prec emax.
Definition sub := SFsub prec emax.
Definition mul := SFmul prec emax.
Definition div := SFdiv prec emax.
Definition opp := SFopp.
Definition of_Z (z : Z) : spec_float := binary_normalize prec emax z 0 false.
Definition lit := Fp.lit prec emax.
(** [(float) x] for a double [x]. *)
Definition of_double (x : spec_float) : spec_float :=
  match x with
  | S754_finite s m e => binary_round prec emax s m e
  | _ => x
  end.
Definition valid := valid_binary prec emax.
End F32.

(** binary64 *)
Module F64.
Definition prec : Z := 53.
Definition emax : Z := 1024.
Definition add := SFadd prec emax.
Definition sub := SFsub prec emax.
Definition mul := SFmul prec emax.
Definition div := SFdiv prec emax.
Definition of_Z (z : Z) : spec_float := binary_normalize prec emax z 0 false.
Definition lit := Fp.lit prec emax.
(** The promotion of a float to double; it is exact. *)
Definition of_float (x : spec_float) : spec_float :=
  match x with
  | S754_finite s m e => binary_round prec emax s m e
  | _ => x
  end.
End F64.

Definition float := spec_float.
Definition double := spec_float.

(** The exact rational value [num / den] of a finite number, for stating
    what a constant is worth. *)
Definition exact_value (x : spec_float) : option (Z * Z) :=
  match x with
  | S754_zero _ => Some (0, 1)
  | S754_finite s m e =>
      match e with
      | Zneg p => Some (cond_Zopp s (Zpos m), 2 ^ Zpos p)
      | _ => Some (cond_Zopp s (Zpos m * 2 ^ e), 1)
      end
  | _ => None
  end.

(** Two fractions denote the same rational. *)
Definition same_fraction (a b : Z * Z) : Prop :=
  fst a * snd b = fst b * snd a.

(* ================================================================== *)
(** * camera.cpp *)
(* ================================================================== *)

(** Constants of DirectXMath used by the camera: [XM_PI = 3.141592654f]
    and [XM_PIDIV2 = 1.570796327f]. *)
Definition XM_PI : float := F32.lit 3141592654 1000000000.
Definition XM_PIDIV2 : float := F32.lit 1570796327 1000000000.

(** The arguments handed to [XMMatrixPerspectiveFovRH]; the matrix itself
    is DirectXMath's function of them. *)
Record PerspectiveFovRH := mkPerspective {
  FovAngleY : float;
  AspectRatio : float;
  NearZ : float;
  FarZ : float
}.

(** The fields of [OrbitCamera] that the mutators compute with.  [mCenter]
    and [mUp] are read by [UpdateData] only; [mEye], [mView] and
    [mViewProjection] are recomputed by [UpdateData] at the end of every
    mutator. *)
Record OrbitCamera := mkCamera {
  mRadius : float;
  mMinRadius : float;
  mMaxRadius : float;
  mLongAngle : float;
  mLatAngle : float;
  mProjection : option PerspectiveFovRH
}.

Module Camera.

(** [OrbitCamera::OrbitCamera]: the defaults. *)
Definition init : OrbitCamera :=
  mkCamera (F32.of_Z 1) (F32.of_Z 1) (F32.of_Z 1) (F32.of_Z 0) (F32.of_Z 0)
           None.

(** [OrbitCamera::View]. *)
Definition View (c : OrbitCamera)
    (radius minRadius maxRadius longAngle latAngle : float) : OrbitCamera :=
  mkCamera radius minRadius maxRadius longAngle latAngle (mProjection c).

(** The vertical field of view chosen by [OrbitCamera::Projection]:
    [aspect <= 1.0 ? fov : fov / aspect].  The comparison is made in
    double, the division in float. *)
Definition fovY (fov aspect : float) : float :=
  if Fp.leb (F64.of_float aspect) (F64.of_Z 1) then fov
  else F32.div fov aspect.

(** [OrbitCamera::Projection]. *)
Definition Projection (c : OrbitCamera) (fov aspect : float) : OrbitCamera :=
  mkCamera (mRadius c) (mMinRadius c) (mMaxRadius c)
           (mLongAngle c) (mLatAngle c)
           (Some (mkPerspective (fovY fov aspect) aspect
                                (F32.of_Z 10000) (F32.lit 1 10))).

(** [OrbitCamera::OrbitX]. *)
Definition OrbitX (c : OrbitCamera) (angle : float) : OrbitCamera :=
  mkCamera (mRadius c) (mMinRadius c) (mMaxRadius c)
           (F32.add (mLongAngle c) angle) (mLatAngle c) (mProjection c).

(** [float limit = XM_PI * 0.01f]. *)
Definition limit : float := F32.mul XM_PI (F32.lit 1 100).

(** [OrbitCamera::OrbitY]. *)
Definition OrbitY (c : OrbitCamera) (angle : float) : OrbitCamera :=
  mkCamera (mRadius c) (mMinRadius c) (mMaxRadius c) (mLongAngle c)
           (Fp.max limit
              (Fp.min (F32.sub XM_PI limit) (F32.add (mLatAngle c) angle)))
           (mProjection c).

(** [OrbitCamera::ZoomRadius]. *)
Definition ZoomRadius (c : OrbitCamera) (delta : float) : OrbitCamera :=
  mkCamera (Fp.max (mMinRadius c)
              (Fp.min (mMaxRadius c) (F32.add (mRadius c) delta)))
           (mMinRadius c) (mMaxRadius c) (mLongAngle c) (mLatAngle c)
           (mProjection c).

(** [OrbitCamera::ZoomRadiusScale]. *)
Definition ZoomRadiusScale (c : OrbitCamera) (delta : float) : OrbitCamera :=
  mkCamera (Fp.max (mMinRadius c)
              (Fp.min (mMaxRadius c) (F32.mul (mRadius c) delta)))
           (mMinRadius c) (mMaxRadius c) (mLongAngle c) (mLatAngle c)
           (mProjection c).

(** The [delta] of a manipulation output of the interaction context. *)
Record ManipulationDelta := mkDelta {
  translationX : float;
  translationY : float;
  scale : float
}.

(** [OrbitCamera::InteractionOutputCallback], case
    [INTERACTION_ID_MANIPULATION]. *)
Definition InteractionOutputCallback (c : OrbitCamera)
    (d : ManipulationDelta) : OrbitCamera :=
  let c1 := OrbitX c (F32.mul (translationX d) (F32.lit 7 10000)) in
  let c2 := OrbitY c1 (F32.mul (F32.opp (translationY d)) (F32.lit 7 10000)) in
  ZoomRadiusScale c2 (F32.div (F32.of_Z 1) (scale d)).

End Camera.

(* ================================================================== *)
(** * WinWrapper.cpp: global state *)
(* ================================================================== *)

(** The fields of the global [Settings] read or written by the window
    procedure and the main loop. *)
Record Settings := mkSettings {
  d3d12 : bool;
  windowWidth : Z;
  windowHeight : Z;
  renderWidth : Z;
  renderHeight : Z;
  renderScale : double;
  animate : bool;
  vsync : bool;
  multithreadedRendering : bool;
  executeIndirect : bool;
  submitRendering : bool;
  lockFrameRate : bool;
  lockedFrameRate : Z;
  closeAfterSeconds : double;
  statsCsvFileName : string;
  statsSummaryCsvFileName : string;
  warp : bool
}.

(** Field updates of [gSettings]. *)
Definition set_d3d12 (v : bool) (s : Settings) : Settings :=
    mkSettings v (windowWidth s) (windowHeight s) (renderWidth s)
      (renderHeight s) (renderScale s) (animate s) (vsync s)
      (multithreadedRendering s) (executeIndirect s) (submitRendering s)
      (lockFrameRate s) (lockedFrameRate s) (closeAfterSeconds s)
      (statsCsvFileName s) (statsSummaryCsvFileName s) (warp s).
Definition set_window (w h : Z) (s : Settings) : Settings :=
    mkSettings (d3d12 s) w h (renderWidth s) (renderHeight s)
      (renderScale s) (animate s) (vsync s) (multithreadedRendering s)
      (executeIndirect s) (submitRendering s) (lockFrameRate s)
      (lockedFrameRate s) (closeAfterSeconds s) (statsCsvFileName s)
      (statsSummaryCsvFileName s) (warp s).
Definition set_render (w h : Z) (s : Settings) : Settings :=
    mkSettings (d3d12 s) (windowWidth s) (windowHeight s) w h
      (renderScale s) (animate s) (vsync s) (multithreadedRendering s)
      (executeIndirect s) (submitRendering s) (lockFrameRate s)
      (lockedFrameRate s) (closeAfterSeconds s) (statsCsvFileName s)
      (statsSummaryCsvFileName s) (warp s).
Definition set_animate (v : bool) (s : Settings) : Settings :=
    mkSettings (d3d12 s) (windowWidth s) (windowHeight s) (renderWidth s)
      (renderHeight s) (renderScale s) v (vsync s)
      (multithreadedRendering s) (executeIndirect s) (submitRendering s)
      (lockFrameRate s) (lockedFrameRate s) (closeAfterSeconds s)
      (statsCsvFileName s) (statsSummaryCsvFileName s) (warp s).
Definition set_vsync (v : bool) (s : Settings) : Settings :=
    mkSettings (d3d12 s) (windowWidth s) (windowHeight s) (renderWidth s)
      (renderHeight s) (renderScale s) (animate s) v
      (multithreadedRendering s) (executeIndirect s) (submitRendering s)
      (lockFrameRate s) (lockedFrameRate s) (closeAfterSeconds s)
      (statsCsvFileName s) (statsSummaryCsvFileName s) (warp s).
Definition set_multithreadedRendering (v : bool) (s : Settings) : Settings :=
    mkSettings (d3d12 s) (windowWidth s) (windowHeight s) (renderWidth s)
      (renderHeight s) (renderScale s) (animate s) (vsync s) v
      (executeIndirect s) (submitRendering s) (lockFrameRate s)
      (lockedFrameRate s) (closeAfterSeconds s) (statsCsvFileName s)
      (statsSummaryCsvFileName s) (warp s).
Definition set_executeIndirect (v : bool) (s : Settings) : Settings :=
    mkSettings (d3d12 s) (windowWidth s) (windowHeight s) (renderWidth s)
      (renderHeight s) (renderScale s) (animate s) (vsync s)
      (multithreadedRendering s) v (submitRendering s) (lockFrameRate s)
      (lockedFrameRate s) (closeAfterSeconds s) (statsCsvFileName s)
      (statsSummaryCsvFileName s) (warp s).
Definition set_submitRendering (v : bool) (s : Settings) : Settings :=
    mkSettings (d3d12 s) (windowWidth s) (windowHeight s) (renderWidth s)
      (renderHeight s) (renderScale s) (animate s) (vsync s)
      (multithreadedRendering s) (executeIndirect s) v (lockFrameRate s)
      (lockedFrameRate s) (closeAfterSeconds s) (statsCsvFileName s)
      (statsSummaryCsvFileName s) (warp s).
Definition set_lockFrameRate (v : bool) (s : Settings) : Settings :=
    mkSettings (d3d12 s) (windowWidth s) (windowHeight s) (renderWidth s)
      (renderHeight s) (renderScale s) (animate s) (vsync s)
      (multithreadedRendering s) (executeIndirect s) (submitRendering s) v
      (lockedFrameRate s) (closeAfterSeconds s) (statsCsvFileName s)
      (statsSummaryCsvFileName s) (warp s).
Definition set_statsCsvFileName (v : string) (s : Settings) : Settings :=
    mkSettings (d3d12 s) (windowWidth s) (windowHeight s) (renderWidth s)
      (renderHeight s) (renderScale s) (animate s) (vsync s)
      (multithreadedRendering s) (executeIndirect s) (submitRendering s)
      (lockFrameRate s) (lockedFrameRate s) (closeAfterSeconds s) v
      (statsSummaryCsvFileName s) (warp s).
Definition set_statsSummaryCsvFileName (v : string) (s : Settings) : Settings :=
    mkSettings (d3d12 s) (windowWidth s) (windowHeight s) (renderWidth s)
      (renderHeight s) (renderScale s) (animate s) (vsync s)
      (multithreadedRendering s) (executeIndirect s) (submitRendering s)
      (lockFrameRate s) (lockedFrameRate s) (closeAfterSeconds s)
      (statsCsvFileName s) v (warp s).

(** The two rendering backends. *)
Inductive Backend := D3D11 | D3D12.

(** What is known of a workload's swap chain: it was never created, it was
    created or resized to a resolution by [ResizeSwapChain], or it was
    released by [ReleaseSwapChain]. *)
Inductive SwapChain :=
| NotCreated
| Live (width height : Z)
| Released.

(** Calls that leave the process or reach an external collaborator, in the
    order they are made. *)
Inductive Event :=
| E_ResizeSwapChain (b : Backend) (width height : Z)
| E_ReleaseSwapChain (b : Backend)
| E_WaitForReadyToRender
| E_Render (b : Backend) (frameTime : float)
| E_Sleep (ms : Z)
| E_PostQuitMessage (code : Z)
| E_SendClose
| E_ToggleFullscreen
| E_AddPointer (id : Z)
| E_ProcessPointerFrames (id : Z)
| E_RemovePointer (id : Z)
| E_ProcessInertia
| E_DefWindowProc
| E_Cleanup
| E_SummaryFile (name : string) (minFPS maxFPS averageFPS : double)
| E_SeriesFile (name : string) (samples : list (double * double * double)).

(** The globals of the anonymous namespace.  A workload pointer is [None]
    when it is [nullptr]. *)
Record World := mkWorld {
  gSettings : Settings;
  gCamera : OrbitCamera;
  gWorkloadD3D11 : option SwapChain;
  gWorkloadD3D12 : option SwapChain;
  calls : list Event
}.

Definition gWorkload (b : Backend) (w : World) : option SwapChain :=
  match b with
  | D3D11 => gWorkloadD3D11 w
  | D3D12 => gWorkloadD3D12 w
  end.

(** The backend selected by the flag [gSettings.d3d12]. *)
Definition backend_of (flag : bool) : Backend := if flag then D3D12 else D3D11.
Definition active (w : World) : Backend := backend_of (d3d12 (gSettings w)).

(** ** A state and error monad for the code that touches the globals *)

(** What C++ leaves undefined: a member call through a null workload
    pointer, and a floating-point to integer conversion whose value does
    not fit. *)
Inductive Fault :=
| NullWorkload (b : Backend)
| UndefinedConversion.

Inductive Res (A : Type) :=
| Ok (a : A) (w : World)
| Stuck (f : Fault).
Arguments Ok {A} a w.
Arguments Stuck {A} f.

Definition M (A : Type) : Type := World -> Res A.

Definition ret {A} (a : A) : M A := fun w => Ok a w.
Definition bind {A B} (m : M A) (k : A -> M B) : M B :=
  fun w => match m w with
           | Ok a w' => k a w'
           | Stuck f => Stuck f
           end.
Definition stuck {A} (f : Fault) : M A := fun _ => Stuck f.

Notation "x <- m ;; k" := (bind m (fun x => k))
  (at level 61, m at next level, right associativity).
Notation "m ;;; k" := (bind m (fun _ => k))
  (at level 61, right associativity).

Definition get : M World := fun w => Ok w w.
Definition settings : M Settings := fun w => Ok (gSettings w) w.
Definition modify_settings (f : Settings -> Settings) : M unit :=
  fun w => Ok tt (mkWorld (f (gSettings w)) (gCamera w)
                          (gWorkloadD3D11 w) (gWorkloadD3D12 w) (calls w)).
Definition modify_camera (f : OrbitCamera -> OrbitCamera) : M unit :=
  fun w => Ok tt (mkWorld (gSettings w) (f (gCamera w))
                          (gWorkloadD3D11 w) (gWorkloadD3D12 w) (calls w)).
Definition emit (e : Event) : M unit :=
  fun w => Ok tt (mkWorld (gSettings w) (gCamera w)
                          (gWorkloadD3D11 w) (gWorkloadD3D12 w)
                          (calls w ++ [e])).

(** Dereferencing a workload pointer. *)
Definition deref (b : Backend) : M SwapChain :=
  fun w => match gWorkload b w with
           | Some sc => Ok sc w
           | None => Stuck (NullWorkload b)
           end.

Definition set_swapchain (b : Backend) (sc : SwapChain) : M unit :=
  fun w => match b with
           | D3D11 => Ok tt (mkWorld (gSettings w) (gCamera w)
                               (Some sc) (gWorkloadD3D12 w) (calls w))
           | D3D12 => Ok tt (mkWorld (gSettings w) (gCamera w)
                               (gWorkloadD3D11 w) (Some sc) (calls w))
           end.

(** The calls of the backend workload interface, each through the global
    pointer of the backend. *)
Definition ResizeSwapChain (b : Backend) (width height : Z) : M unit :=
  _ <- deref b ;;
  set_swapchain b (Live width height) ;;;
  emit (E_ResizeSwapChain b width height).

Definition ReleaseSwapChain (b : Backend) : M unit :=
  _ <- deref b ;;
  set_swapchain b Released ;;;
  emit (E_ReleaseSwapChain b).

Definition WaitForReadyToRender : M unit :=
  _ <- deref D3D12 ;;
  emit E_WaitForReadyToRender.

Definition Render (b : Backend) (frameTime : float) : M unit :=
  _ <- deref b ;;
  emit (E_Render b frameTime).

(** A conversion that may be undefined. *)
Definition defined {A} (o : option A) : M A :=
  match o with
  | Some a => ret a
  | None => stuck UndefinedConversion
  end.

(* ================================================================== *)
(** * WinWrapper.cpp: the window procedure *)
(* ================================================================== *)

Definition LOWORD (x : Z) : Z := Z.land x 65535.
Definition HIWORD (x : Z) : Z := Z.land (Z.shiftr x 16) 65535.

(** [GET_WHEEL_DELTA_WPARAM]: the high word as a signed 16-bit value. *)
Definition GET_WHEEL_DELTA_WPARAM (wParam : Z) : Z :=
  let h := HIWORD wParam in if h <? 32768 then h else h - 65536.

Definition VK_RETURN : Z := 13.
Definition VK_ESCAPE : Z := 27.
Definition VK_SPACE : Z := 32.
Definition key_1 : Z := 49.
Definition key_2 : Z := 50.
Definition key_I : Z := 73.
Definition key_M : Z := 77.
Definition key_S : Z := 83.
Definition key_V : Z := 86.

(** The three controls of the GUI. *)
Inductive GuiControl := FPSControl | D3D11Control | D3D12Control.

(** An output of the interaction context handed to the camera's callback. *)
Inductive InteractionOutput :=
| INTERACTION_ID_MANIPULATION (delta : Camera.ManipulationDelta)
| INTERACTION_ID_other.

(** What the platform answers while a pointer message is handled: whether
    [GetPointerInfo] succeeds, the control found by [gGUI.HitTest] (read on
    pointer-down only), and the outputs the interaction context delivers
    during [ProcessPointerFrames]. *)
Record PointerInput := mkPointer {
  pointerId : Z;
  GetPointerInfo : bool;
  HitTest : option GuiControl;
  frameOutputs : list InteractionOutput
}.

Inductive Msg :=
| WM_DESTROY
| WM_SIZE (lParam : Z)
| WM_KEYDOWN (wParam lParam : Z)
| WM_SYSKEYDOWN (wParam lParam : Z)
| WM_MOUSEWHEEL (wParam : Z)
| WM_POINTERDOWN (p : PointerInput)
| WM_POINTERUPDATE (p : PointerInput)
| WM_POINTERUP (p : PointerInput)
| WM_QUIT (wParam : Z)
| WM_other.

(** [OrbitCamera::StaticInteractionOutputCallback]. *)
Definition StaticInteractionOutputCallback (o : InteractionOutput) : M unit :=
  match o with
  | INTERACTION_ID_MANIPULATION d =>
      modify_camera (fun c => Camera.InteractionOutputCallback c d)
  | INTERACTION_ID_other => ret tt
  end.

Fixpoint deliver (os : list InteractionOutput) : M unit :=
  match os with
  | [] => ret tt
  | o :: os' => StaticInteractionOutputCallback o ;;; deliver os'
  end.

(** The field of view passed on every resize:
    [XM_PIDIV2 * 0.8f * 3 / 2]. *)
Definition resize_fov : float :=
  F32.div (F32.mul (F32.mul XM_PIDIV2 (F32.lit 8 10)) (F32.of_Z 3))
          (F32.of_Z 2).

(** [case WM_SIZE]. *)
Definition on_WM_SIZE (lParam : Z) : M unit :=
  let ww := LOWORD lParam in
  let wh := HIWORD lParam in
  if (ww =? 0) || (wh =? 0) then ret tt
  else
    modify_settings (set_window ww wh) ;;;
    s <- settings ;;
    rw <- defined (Fp.to_u32 (F64.mul (F64.of_Z (windowWidth s)) (renderScale s))) ;;
    rh <- defined (Fp.to_u32 (F64.mul (F64.of_Z (windowHeight s)) (renderScale s))) ;;
    modify_settings (set_render rw rh) ;;;
    let aspect := F32.div (F32.of_Z rw) (F32.of_Z rh) in
    modify_camera (fun c => Camera.Projection c resize_fov aspect) ;;;
    s <- settings ;;
    ResizeSwapChain (backend_of (d3d12 s)) (renderWidth s) (renderHeight s).

(** [gSettings.d3d12 = (gWorkloadD3D11 == nullptr)]: keyboard '1' and a
    click on the D3D12 control. *)
Definition select_d3d11 : M unit :=
  w <- get ;;
  modify_settings (set_d3d12 (match gWorkloadD3D11 w with None => true | Some _ => false end)).

(** [gSettings.d3d12 = (gWorkloadD3D12 != nullptr)]: keyboard '2', a click
    on the D3D11 control, and the start of [main]. *)
Definition select_d3d12 : M unit :=
  w <- get ;;
  modify_settings (set_d3d12 (match gWorkloadD3D12 w with None => false | Some _ => true end)).

(** [case WM_KEYDOWN].  On Escape the window is sent [WM_CLOSE]; the
    [WM_DESTROY] and [WM_QUIT] that follow are messages of their own. *)
Definition on_WM_KEYDOWN (wParam lParam : Z) : M unit :=
  if Z.testbit lParam 30 then ret tt
  else if wParam =? VK_SPACE then
    modify_settings (fun s => set_animate (negb (animate s)) s)
  else if wParam =? key_V then
    modify_settings (fun s => set_vsync (negb (vsync s)) s)
  else if wParam =? key_M then
    modify_settings (fun s => set_multithreadedRendering (negb (multithreadedRendering s)) s)
  else if wParam =? key_I then
    modify_settings (fun s => set_executeIndirect (negb (executeIndirect s)) s)
  else if wParam =? key_S then
    modify_settings (fun s => set_submitRendering (negb (submitRendering s)) s)
  else if wParam =? key_1 then select_d3d11
  else if wParam =? key_2 then select_d3d12
  else if wParam =? VK_ESCAPE then emit E_SendClose
  else ret tt.

(** [case WM_SYSKEYDOWN].  The [WM_SIZE] that a change of the window style
    brings about is a message of its own. *)
Definition on_WM_SYSKEYDOWN (wParam lParam : Z) : M unit :=
  if Z.testbit lParam 30 then ret tt
  else if wParam =? VK_RETURN then emit E_ToggleFullscreen
  else ret tt.

(** [case WM_MOUSEWHEEL]: [gCamera.ZoomRadius(-0.07f * delta)]. *)
Definition on_WM_MOUSEWHEEL (wParam : Z) : M unit :=
  let delta := GET_WHEEL_DELTA_WPARAM wParam in
  modify_camera (fun c =>
    Camera.ZoomRadius c (F32.mul (F32.opp (F32.lit 7 100)) (F32.of_Z delta))).

(** The three pointer cases; [down] and [up] tell which message it is.
    The position handed to [gGUI.HitTest] (the pixel location scaled by the
    render size over the size of the client rectangle) is not computed:
    [HitTest p] is the control found there. *)
Definition on_pointer (down up : bool) (p : PointerInput) : M unit :=
  if GetPointerInfo p then
    (if down then
       match HitTest p with
       | Some FPSControl =>
           modify_settings (fun s => set_lockFrameRate (negb (lockFrameRate s)) s)
       | Some D3D11Control => select_d3d12
       | Some D3D12Control => select_d3d11
       | None => emit (E_AddPointer (pointerId p))
       end
     else ret tt) ;;;
    emit (E_ProcessPointerFrames (pointerId p)) ;;;
    deliver (frameOutputs p) ;;;
    (if up then emit (E_RemovePointer (pointerId p)) else ret tt)
  else ret tt.

(** [WindowProc].  [WM_QUIT] is never dispatched by the loop; it falls in
    the default case like every other message. *)
Definition WindowProc (m : Msg) : M unit :=
  match m with
  | WM_DESTROY => emit (E_PostQuitMessage 0)
  | WM_SIZE lParam => on_WM_SIZE lParam
  | WM_KEYDOWN wParam lParam => on_WM_KEYDOWN wParam lParam
  | WM_SYSKEYDOWN wParam lParam => on_WM_SYSKEYDOWN wParam lParam
  | WM_MOUSEWHEEL wParam => on_WM_MOUSEWHEEL wParam
  | WM_POINTERDOWN p => on_pointer true false p
  | WM_POINTERUPDATE p => on_pointer false false p
  | WM_POINTERUP p => on_pointer false true p
  | WM_QUIT _ => emit E_DefWindowProc
  | WM_other => emit E_DefWindowProc
  end.

(* ================================================================== *)
(** * WinWrapper.cpp: main *)
(* ================================================================== *)

(** [ResetCameraView].  [SIM_ORBIT_RADIUS] and [SIM_DISC_RADIUS] are
    constants of the simulation's header. *)
Definition ResetCameraView (SIM_ORBIT_RADIUS SIM_DISC_RADIUS : float)
    (c : OrbitCamera) : OrbitCamera :=
  let radius := F32.add (F32.add SIM_ORBIT_RADIUS SIM_DISC_RADIUS) (F32.of_Z 10) in
  let minRadius := F32.sub SIM_ORBIT_RADIUS (F32.mul (F32.of_Z 3) SIM_DISC_RADIUS) in
  let maxRadius := F32.add SIM_ORBIT_RADIUS (F32.mul (F32.of_Z 3) SIM_DISC_RADIUS) in
  Camera.View c radius minRadius maxRadius (F32.lit 450 100) (F32.lit 145 100).

(** What [main] is given once the command line has been read: the settings,
    which backends are available, whether the WARP adapter can be
    enumerated (asked only with [-warp] and D3D12 available), the two
    simulation constants, and the messages that reach the window procedure
    while the window is created and shown, before the loop starts. *)
Record Startup := mkStartup {
  settings0 : Settings;
  d3d11Available : bool;
  d3d12Available : bool;
  warpAdapter : bool;
  SIM_ORBIT_RADIUS : float;
  SIM_DISC_RADIUS : float;
  creationMsgs : list Msg
}.

Fixpoint dispatch (ms : list Msg) : M unit :=
  match ms with
  | [] => ret tt
  | m :: ms' => WindowProc m ;;; dispatch ms'
  end.

Definition default_name (given fallback : string) : string :=
  if String.eqb given EmptyString then fallback else given.

(** [main] from the availability test up to the loop: [inl code] when it
    returns early, otherwise the globals at the first tick. *)
Definition startup (p : Startup) : Z + Res unit :=
  if negb (d3d11Available p) && negb (d3d12Available p) then inl (-1)
  else if d3d12Available p && warp (settings0 p) && negb (warpAdapter p)
  then inl (-1)
  else
    let w0 :=
      mkWorld (settings0 p)
        (ResetCameraView (SIM_ORBIT_RADIUS p) (SIM_DISC_RADIUS p) Camera.init)
        (if d3d11Available p then Some NotCreated else None)
        (if d3d12Available p then Some NotCreated else None)
        [] in
    inr ((select_d3d12 ;;;
          dispatch (creationMsgs p) ;;;
          modify_settings (fun s =>
            set_statsCsvFileName
              (default_name (statsCsvFileName s) "asteroid_summary_stats.csv") s) ;;;
          modify_settings (fun s =>
            set_statsSummaryCsvFileName
              (default_name (statsSummaryCsvFileName s) "asteroid_stats.csv") s))
           w0).

(** The locals of [main] that live across iterations of the loop. *)
Record Loop := mkLoop {
  perfCounterFreq : Z;
  lastPerfCount : Z;
  elapsedTime : double;
  timeInterval : double;
  frameTime : double;
  sumFPS : double;
  currentFPS : double;
  minFPS : double;
  maxFPS : double;
  numFrames : Z;
  fpsHistoryVector : list (double * double * double)
}.

(** The locals before the first iteration; the two counter values are read
    from the platform. *)
Definition loop_init (freq count0 : Z) : Loop :=
  mkLoop freq count0 (F64.of_Z 0) (F64.of_Z 0) (F64.of_Z 0) (F64.of_Z 0)
         (F64.of_Z 0) (F64.of_Z 99999999) (F64.of_Z 0) 0 [].

(** What the platform hands to one iteration: the messages [PeekMessage]
    returns until the queue is empty, the outputs of the interaction context
    during [ProcessInertia], and the two readings of the performance
    counter (the second is taken only under frame-rate lock). *)
Record TickInput := mkTick {
  msgs : list Msg;
  inertia : list InteractionOutput;
  count : Z;
  afterRenderCount : Z
}.

Definition u64 (z : Z) : Z := z mod 2 ^ 64.

(** [(int) x] of a 64-bit value: the low 32 bits, signed. *)
Definition to_int (z : Z) : Z :=
  let r := z mod 2 ^ 32 in if r <? 2 ^ 31 then r else r - 2 ^ 32.

(** The [PeekMessage] loop: [Some code] when [WM_QUIT] is met. *)
Fixpoint drain (ms : list Msg) : M (option Z) :=
  match ms with
  | [] => ret None
  | WM_QUIT wParam :: _ => emit E_Cleanup ;;; ret (Some (to_int wParam))
  | m :: ms' => WindowProc m ;;; drain ms'
  end.

(** "If we swap to a new API we need to recreate swap chains". *)
Definition switch_backend (d3d12LastFrame : bool) : M unit :=
  s <- settings ;;
  if Bool.eqb d3d12LastFrame (d3d12 s) then ret tt
  else if d3d12 s then
    ReleaseSwapChain D3D11 ;;;
    ResizeSwapChain D3D12 (renderWidth s) (renderHeight s)
  else
    ReleaseSwapChain D3D12 ;;;
    ResizeSwapChain D3D11 (renderWidth s) (renderHeight s).

(** [(double)(count - lastPerfCount) / perfCounterFreq]. *)
Definition counter_seconds (freq from to : Z) : double :=
  F64.div (F64.of_Z (u64 (to - from))) (F64.of_Z freq).

(** [double alpha = 0.2f]. *)
Definition alpha : double := F64.of_float (F32.lit 2 10).

(** [alpha * rawFrameTime + (1.0f - alpha) * frameTime]. *)
Definition smooth (rawFrameTime frameTime : double) : double :=
  F64.add (F64.mul alpha rawFrameTime)
          (F64.mul (F64.sub (F64.of_float (F32.of_Z 1)) alpha) frameTime).

(** The value of [currentFPS] after the GUI update. *)
Definition update_fps (lock : bool) (frameTime currentFPS : double) : double :=
  if lock then currentFPS
  else if Fp.neqb frameTime (F64.of_Z 0)
       then F64.div (F64.of_float (F32.of_Z 1)) frameTime
       else currentFPS.

Definition ms_1000f : double := F64.of_float (F32.of_Z 1000).

(** The block under [if (gSettings.closeAfterSeconds > 0.0)] of the GUI
    update, on the locals already updated for time and FPS. *)
Definition collect_stats (closeAfter rawFrameTime : double) (l : Loop) : Loop :=
  if Fp.gtb closeAfter (F64.of_Z 0) then
    let n := u64 (numFrames l + 1) in
    let cur := currentFPS l in
    let warm := 100 <? n in
    let sum := if warm then F64.add (sumFPS l) cur else sumFPS l in
    let mn := if warm && Fp.ltb cur (minFPS l) then cur else minFPS l in
    let mx := if warm && Fp.gtb cur (maxFPS l) then cur else maxFPS l in
    let ti := F64.add (timeInterval l) (F64.mul rawFrameTime ms_1000f) in
    if Fp.geb ti (F64.of_Z 1000) then
      mkLoop (perfCounterFreq l) (lastPerfCount l) (elapsedTime l)
             (F64.of_Z 0) (frameTime l) sum cur mn mx n
             (fpsHistoryVector l ++
                [(elapsedTime l, F64.mul (frameTime l) ms_1000f,
                  F64.mul rawFrameTime ms_1000f)])
    else
      mkLoop (perfCounterFreq l) (lastPerfCount l) (elapsedTime l)
             ti (frameTime l) sum cur mn mx n (fpsHistoryVector l)
  else l.

(** What the pacing block decides. *)
Inductive Pacing :=
| NoSleep
| SleepFor (ms : Z)
| SleepUndefined.

(** [deltaMs] of the pacing block. *)
Definition deltaMs (lockedFrameRate : Z) (renderTime : double) : double :=
  let targetRenderTime := F64.div (F64.of_Z 1) (F64.of_Z lockedFrameRate) in
  F64.mul (F64.sub targetRenderTime renderTime) (F64.of_Z 1000).

Definition pacing (lockedFrameRate : Z) (renderTime : double) : Pacing :=
  let d := deltaMs lockedFrameRate renderTime in
  if Fp.gtb d (F64.of_Z 1) then
    match Fp.to_u32 d with
    | Some ms => SleepFor ms
    | None => SleepUndefined
    end
  else NoSleep.

(** The block under [if (gSettings.lockFrameRate)] after the render call. *)
Definition pace (l : Loop) (i : TickInput) : M unit :=
  s <- settings ;;
  if lockFrameRate s then
    let renderTime :=
      counter_seconds (perfCounterFreq l) (count i) (afterRenderCount i) in
    match pacing (lockedFrameRate s) renderTime with
    | NoSleep => ret tt
    | SleepFor ms => emit (E_Sleep ms)
    | SleepUndefined => stuck UndefinedConversion
    end
  else ret tt.

(** [sumFPS / (numFrames - 100)], the subtraction in [std::uint64_t]. *)
Definition averageFPS (l : Loop) : double :=
  F64.div (sumFPS l) (F64.of_Z (u64 (numFrames l - 100))).

(** [gSettings.closeAfterSeconds > 0.0 && elapsedTime >
    gSettings.closeAfterSeconds]. *)
Definition closing (s : Settings) (l : Loop) : bool :=
  Fp.gtb (closeAfterSeconds s) (F64.of_Z 0)
  && Fp.gtb (elapsedTime l) (closeAfterSeconds s).

(** The block under "All done?": [Some 0] when [main] returns.  The two
    file events carry the values streamed, not their text. *)
Definition finish (l : Loop) : M (option Z) :=
  s <- settings ;;
  if closing s l
  then
    emit (E_SummaryFile (statsSummaryCsvFileName s)
            (minFPS l) (maxFPS l) (averageFPS l)) ;;;
    emit (E_SeriesFile (statsCsvFileName s) (fpsHistoryVector l)) ;;;
    emit E_SendClose ;;;
    ret (Some 0)
  else ret None.

(** The locals after "Get time delta" and the smoothing, [rawFrameTime]
    being [counter_seconds] from the last reading to this one. *)
Definition measure (l : Loop) (count : Z) : Loop :=
  let rawFrameTime := counter_seconds (perfCounterFreq l) (lastPerfCount l) count in
  mkLoop (perfCounterFreq l) count
         (F64.add (elapsedTime l) rawFrameTime)
         (timeInterval l) (smooth rawFrameTime (frameTime l))
         (sumFPS l) (currentFPS l) (minFPS l) (maxFPS l) (numFrames l)
         (fpsHistoryVector l).

Definition set_currentFPS (v : double) (l : Loop) : Loop :=
  mkLoop (perfCounterFreq l) (lastPerfCount l) (elapsedTime l)
         (timeInterval l) (frameTime l) (sumFPS l) v (minFPS l) (maxFPS l)
         (numFrames l) (fpsHistoryVector l).

(** The locals at the render call of an iteration: time measured, frame
    time smoothed, FPS and statistics updated. *)
Definition advance (s : Settings) (l : Loop) (count : Z) : Loop :=
  let rawFrameTime := counter_seconds (perfCounterFreq l) (lastPerfCount l) count in
  let l1 := measure l count in
  let l2 := set_currentFPS
              (update_fps (lockFrameRate s) (frameTime l1) (currentFPS l1)) l1 in
  collect_stats (closeAfterSeconds s) rawFrameTime l2.

(** The part of an iteration after the message loop. *)
Definition frame (d3d12LastFrame : bool) (l : Loop) (i : TickInput)
  : M (Loop * option Z) :=
  switch_backend d3d12LastFrame ;;;
  emit E_ProcessInertia ;;;
  deliver (inertia i) ;;;
  s <- settings ;;
  (if d3d12 s then WaitForReadyToRender else ret tt) ;;;
  let l3 := advance s l (count i) in
  Render (backend_of (d3d12 s)) (F32.of_double (frameTime l3)) ;;;
  pace l3 i ;;;
  r <- finish l3 ;;
  ret (l3, r).

(** One iteration of [for (;;)]. *)
Definition tick (l : Loop) (i : TickInput) : M (Loop * option Z) :=
  s <- settings ;;
  let d3d12LastFrame := d3d12 s in
  q <- drain (msgs i) ;;
  match q with
  | Some code => ret (l, Some code)
  | None => frame d3d12LastFrame l i
  end.

(** How far [main] got on the iterations it was given. *)
Inductive Outcome :=
| Running (l : Loop) (w : World)
| Returned (code : Z) (w : World)
| Undefined (f : Fault).

(** The loop, on the inputs of its successive iterations. *)
Fixpoint run (l : Loop) (ticks : list TickInput) (w : World) : Outcome :=
  match ticks with
  | [] => Running l w
  | i :: rest =>
      match tick l i w with
      | Ok (l', None) w' => run l' rest w'
      | Ok (_, Some code) w' => Returned code w'
      | Stuck f => Undefined f
      end
  end.

(* ================================================================== *)
(** * What the properties speak about *)
(* ================================================================== *)

(** A normal binary32 number: a mantissa of 24 bits, above the exponent of
    the subnormals. *)
Definition normal32 (x : float) : bool :=
  match x with
  | S754_finite _ m e => (Z.pos (digits2_pos m) =? 24) && (-149 <? e)
  | _ => false
  end.

(** The active-backend flag selects a workload that was constructed. *)
Definition flag_ok (w : World) : Prop :=
  (d3d12 (gSettings w) = true -> gWorkloadD3D12 w <> None) /\
  (d3d12 (gSettings w) = false -> gWorkloadD3D11 w <> None).

Definition is_quit (m : Msg) : bool :=
  match m with WM_QUIT _ => true | _ => false end.

(** No [WM_QUIT] among the messages of an iteration. *)
Definition quit_free (ms : list Msg) : bool :=
  forallb (fun m => negb (is_quit m)) ms.

Definition is_sleep (e : Event) : bool :=
  match e with E_Sleep _ => true | _ => false end.
Definition is_file (e : Event) : bool :=
  match e with E_SummaryFile _ _ _ _ | E_SeriesFile _ _ => true | _ => false end.

(** The calls that create, release or draw to a swap chain. *)
Definition touches_swap_chain (e : Event) : bool :=
  match e with
  | E_ResizeSwapChain _ _ _ | E_ReleaseSwapChain _ | E_Render _ _ => true
  | _ => false
  end.

(** The calls the window procedure can make. *)
Definition quiet (e : Event) : bool :=
  match e with
  | E_ResizeSwapChain _ _ _ | E_PostQuitMessage _ | E_SendClose
  | E_ToggleFullscreen | E_AddPointer _ | E_ProcessPointerFrames _
  | E_RemovePointer _ | E_DefWindowProc => true
  | _ => false
  end.

(** Reading a sequence of calls for the state of the two swap chains: for
    each backend (D3D11 first), whether its swap chain has been released and
    not re-created since.  The reading fails, with [None], at a render call
    on a backend in that state. *)
Definition released (b : Backend) (r : bool * bool) : bool :=
  match b with D3D11 => fst r | D3D12 => snd r end.

Definition mark (b : Backend) (v : bool) (r : bool * bool) : bool * bool :=
  match b with D3D11 => (v, snd r) | D3D12 => (fst r, v) end.

Definition observe (st : option (bool * bool)) (e : Event)
  : option (bool * bool) :=
  match st with
  | None => None
  | Some r =>
      match e with
      | E_ReleaseSwapChain b => Some (mark b true r)
      | E_ResizeSwapChain b _ _ => Some (mark b false r)
      | E_Render b _ => if released b r then None else Some r
      | _ => Some r
      end
  end.

Definition replay (es : list Event) : option (bool * bool) :=
  fold_left observe es (Some (false, false)).

(** The state in which an iteration starts: the flag selects a constructed
    workload, no render call so far went to a released swap chain, and the
    swap chain of the selected backend is not a released one. *)
Definition tick_ready (w : World) : Prop :=
  flag_ok w /\
  exists r, replay (calls w) = Some r /\ released (active w) r = false.

(** What the window procedure and the loop leave alone from one point of a
    run to a later one: which workloads exist, the close-after duration, the
    locked rate and the two file names. *)
Record stable (w w' : World) : Prop := mkStable {
  st_null : forall b, gWorkload b w' = None <-> gWorkload b w = None;
  st_close : closeAfterSeconds (gSettings w') = closeAfterSeconds (gSettings w);
  st_rate : lockedFrameRate (gSettings w') = lockedFrameRate (gSettings w);
  st_csv : statsCsvFileName (gSettings w') = statsCsvFileName (gSettings w);
  st_summary : statsSummaryCsvFileName (gSettings w')
               = statsSummaryCsvFileName (gSettings w)
}.

(** The calls made between two states are all of the window procedure's
    kind. *)
Definition quiet_ext (w w' : World) : Prop :=
  exists evs, calls w' = calls w ++ evs /\ Forall (fun e => quiet e = true) evs.

(** [m] run from [w] ends in a state and value satisfying [Q], or stops on
    an undefined conversion; it never calls through a null pointer. *)
Definition wp {A} (m : M A) (Q : A -> World -> Prop) (w : World) : Prop :=
  match m w with
  | Ok a w' => Q a w'
  | Stuck f => f = UndefinedConversion
  end.

(** The camera after one output of the interaction context. *)
Definition apply_output (c : OrbitCamera) (o : InteractionOutput) : OrbitCamera :=
  match o with
  | INTERACTION_ID_MANIPULATION d => Camera.InteractionOutputCallback c d
  | INTERACTION_ID_other => c
  end.

Definition with_camera (c : OrbitCamera) (w : World) : World :=
  mkWorld (gSettings w) c (gWorkloadD3D11 w) (gWorkloadD3D12 w) (calls w).

(** The smoothing as the design document words it: [0.2 r + 0.8 s], in
    double. *)
Definition spec_smooth (r s : double) : double :=
  F64.add (F64.mul (F64.lit 2 10) r) (F64.mul (F64.lit 8 10) s).

(** The arithmetic mean of a list of samples, in double. *)
Definition total (xs : list double) : double :=
  fold_left F64.add xs (F64.of_Z 0).
Definition mean (xs : list double) : double :=
  F64.div (total xs) (F64.of_Z (Z.of_nat (List.length xs))).

(** The raw time, in milliseconds, accumulated over a list of frames. *)
Definition sum_ms (raws : list double) : double :=
  fold_left (fun acc r => F64.add acc (F64.mul r ms_1000f)) raws (F64.of_Z 0).

(** The calls of one iteration after the message loop, block by block, as
    functions of the settings and the locals. *)
Definition switch_calls (flag : bool) (s : Settings) : list Event :=
  if Bool.eqb flag (d3d12 s) then []
  else [E_ReleaseSwapChain (backend_of flag);
        E_ResizeSwapChain (backend_of (d3d12 s)) (renderWidth s) (renderHeight s)].

Definition wait_calls (s : Settings) : list Event :=
  if d3d12 s then [E_WaitForReadyToRender] else [].

Definition pace_calls (s : Settings) (l : Loop) (i : TickInput) : list Event :=
  if lockFrameRate s then
    match pacing (lockedFrameRate s)
            (counter_seconds (perfCounterFreq l) (count i) (afterRenderCount i)) with
    | SleepFor ms => [E_Sleep ms]
    | _ => []
    end
  else [].

Definition finish_calls (s : Settings) (l : Loop) : list Event :=
  if closing s l then
    [E_SummaryFile (statsSummaryCsvFileName s) (minFPS l) (maxFPS l) (averageFPS l);
     E_SeriesFile (statsCsvFileName s) (fpsHistoryVector l);
     E_SendClose]
  else [].

Definition render_call (s : Settings) (l : Loop) : Event :=
  E_Render (backend_of (d3d12 s)) (F32.of_double (frameTime l)).

Definition frame_calls (flag : bool) (s : Settings) (l : Loop) (i : TickInput)
  : list Event :=
  let l3 := advance s l (count i) in
  switch_calls flag s ++ [E_ProcessInertia] ++ wait_calls s ++
  [render_call s l3] ++ pace_calls s l3 i ++ finish_calls s l3.

(** What one iteration with no [WM_QUIT] does, from the state [w1] the
    message loop leaves: the locals, the value returned, and the calls. *)
Record frame_post (flag : bool) (l : Loop) (i : TickInput) (w1 : World)
    (l' : Loop) (r : option Z) (w' : World) : Prop := mkFramePost {
  fp_locals : l' = advance (gSettings w1) l (count i);
  fp_result : r = if closing (gSettings w1) l' then Some 0 else None;
  fp_settings : gSettings w' = gSettings w1;
  fp_calls : calls w' = calls w1 ++ frame_calls flag (gSettings w1) l i;
  fp_stable : stable w1 w';
  fp_switched :
    Bool.eqb flag (d3d12 (gSettings w1)) = false ->
    gWorkload (backend_of flag) w' = Some Released /\
    gWorkload (active w1) w'
      = Some (Live (renderWidth (gSettings w1)) (renderHeight (gSettings w1)));
  fp_kept :
    Bool.eqb flag (d3d12 (gSettings w1)) = true ->
    gWorkloadD3D11 w' = gWorkloadD3D11 w1 /\
    gWorkloadD3D12 w' = gWorkloadD3D12 w1;
  fp_paced :
    lockFrameRate (gSettings w1) = true ->
    pacing (lockedFrameRate (gSettings w1))
      (counter_seconds (perfCounterFreq l') (count i) (afterRenderCount i))
    <> SleepUndefined
}.

(** What one iteration does, seen from the state it starts in: with no
    [WM_QUIT] the message loop leaves a state [w1] after quiet calls only,
    and the rest of the iteration is described by [frame_post]; with a
    [WM_QUIT] the loop returns with the locals untouched. *)
Definition tick_post (l : Loop) (i : TickInput) (w : World)
    (l' : Loop) (r : option Z) (w' : World) : Prop :=
  if quit_free (msgs i) then
    exists w1,
      drain (msgs i) w = Ok None w1 /\
      flag_ok w1 /\ stable w w1 /\ quiet_ext w w1 /\
      frame_post (d3d12 (gSettings w)) l i w1 l' r w'
  else
    l' = l /\ (exists code, r = Some code) /\ flag_ok w' /\ stable w w'.

(* ================================================================== *)
(** * Scenarios *)
(* ================================================================== *)

(** The camera of the design document's zoom scenario: radius 50 between
    10 and 100, at the start angles of [ResetCameraView]. *)
Definition scenario_camera : OrbitCamera :=
  mkCamera (F32.of_Z 50) (F32.of_Z 10) (F32.of_Z 100)
           (F32.lit 450 100) (F32.lit 145 100) None.

(** The world a scenario starts in: both backends constructed, D3D12
    selected with a swap chain of 800 by 600, statistics to be closed after
    one second. *)
Definition scenario_settings : Settings :=
  mkSettings true 800 600 800 600 (F64.of_Z 1) true false true false true
             false 60 (F64.of_Z 1) "stats.csv" "summary.csv" false.

Definition scenario_world : World :=
  mkWorld scenario_settings scenario_camera
          (Some NotCreated) (Some (Live 800 600))
          [E_ResizeSwapChain D3D12 800 600].

(** A world like [scenario_world] with the frame-rate lock engaged at 60
    frames per second. *)
Definition locked_world : World :=
  mkWorld (set_lockFrameRate true scenario_settings) scenario_camera
          (Some NotCreated) (Some (Live 800 600))
          [E_ResizeSwapChain D3D12 800 600].

(* ================================================================== *)
(** * Proof automation *)
(* ================================================================== *)

(** The floating-point operations and the larger blocks stay folded under
    [cbn]. *)
Arguments F32.add : simpl never.
Arguments F32.sub : simpl never.
Arguments F32.mul : simpl never.
Arguments F32.div : simpl never.
Arguments F32.of_Z : simpl never.
Arguments F32.lit : simpl never.
Arguments F32.of_double : simpl never.
Arguments F64.add : simpl never.
Arguments F64.sub : simpl never.
Arguments F64.mul : simpl never.
Arguments F64.div : simpl never.
Arguments F64.of_Z : simpl never.
Arguments F64.lit : simpl never.
Arguments F64.of_float : simpl never.
Arguments Fp.to_u32 : simpl never.
Arguments Fp.ltb : simpl never.
Arguments Fp.leb : simpl never.
Arguments Fp.gtb : simpl never.
Arguments Fp.geb : simpl never.
Arguments Fp.neqb : simpl never.
Arguments resize_fov : simpl never.
Arguments Camera.Projection : simpl never.
Arguments Camera.ZoomRadius : simpl never.
Arguments Camera.InteractionOutputCallback : simpl never.
Arguments advance : simpl never.
Arguments pacing : simpl never.
Arguments averageFPS : simpl never.
Arguments counter_seconds : simpl never.

(** Unfolding the monad and reducing the projections of the globals. *)
Ltac unfold_M :=
  unfold wp, bind, ret, get, settings, modify_settings, modify_camera, emit,
    deref, set_swapchain, stuck, defined in *.

Ltac world_cbn :=
  cbn [gSettings gCamera gWorkloadD3D11 gWorkloadD3D12 calls gWorkload
       d3d12 windowWidth windowHeight renderWidth renderHeight renderScale
       animate vsync multithreadedRendering executeIndirect submitRendering
       lockFrameRate lockedFrameRate closeAfterSeconds statsCsvFileName
       statsSummaryCsvFileName warp
       set_d3d12 set_window set_render set_animate set_vsync
       set_multithreadedRendering set_executeIndirect set_submitRendering
       set_lockFrameRate set_statsCsvFileName set_statsSummaryCsvFileName
       backend_of active with_camera fst snd] in *.

Ltac msimp := repeat (progress (unfold_M; world_cbn)).

Ltac stable_tac :=
  constructor;
  [ intros [ | ]; world_cbn; split; intros; congruence
  | reflexivity | reflexivity | reflexivity | reflexivity ].

Ltac quiet_tac :=
  first
    [ exists []; split; [world_cbn; rewrite app_nil_r; reflexivity | constructor]
    | eexists; split; [world_cbn; reflexivity | repeat constructor] ].

Ltac loop_cbn :=
  cbn [perfCounterFreq lastPerfCount elapsedTime timeInterval frameTime
       sumFPS currentFPS minFPS maxFPS numFrames fpsHistoryVector].


(** [scenario_world] with a render scale of one half. *)
Definition half_scale_world : World :=
  mkWorld (mkSettings true 1080 720 0 0 (F64.lit 5 10) true false true false
             true false 60 (F64.of_Z 0) "stats.csv" "summary.csv" false)
          scenario_camera (Some NotCreated) (Some NotCreated) [].

(** [zoomByScale(0.5)], [n] times. *)
Definition zoom_half (n : nat) (c : OrbitCamera) : OrbitCamera :=
  Nat.iter n (fun c' => Camera.ZoomRadiusScale c' (F32.lit 5 10)) c.

(* ================================================================== *)
(** * WinWrapper.cpp: the start of main *)
(* ================================================================== *)

(** [SetupDPI]: the horizontal DPI of the nearest monitor when
    [GetDpiForMonitor] succeeds, 96 otherwise. *)
Definition SetupDPI (GetDpiForMonitor : option Z) : Z :=
  match GetDpiForMonitor with
  | Some dpiX => dpiX
  | None => 96
  end.

Definition u32 (z : Z) : Z := z mod 2 ^ 32.

(** [x *= dpi / 96] on an [int] field (the window size is assigned
    [(int)ww] in [WM_SIZE]), [dpi] being a [UINT]: the quotient is the
    integer one, the product is taken in [unsigned] and converted back. *)
Definition scale_by_dpi (dpi x : Z) : Z := to_int (u32 (u32 x * (dpi / 96))).

Definition set_renderScale (v : double) (s : Settings) : Settings :=
    mkSettings (d3d12 s) (windowWidth s) (windowHeight s) (renderWidth s)
      (renderHeight s) v (animate s) (vsync s) (multithreadedRendering s)
      (executeIndirect s) (submitRendering s) (lockFrameRate s)
      (lockedFrameRate s) (closeAfterSeconds s) (statsCsvFileName s)
      (statsSummaryCsvFileName s) (warp s).
Definition set_lockedFrameRate (v : Z) (s : Settings) : Settings :=
    mkSettings (d3d12 s) (windowWidth s) (windowHeight s) (renderWidth s)
      (renderHeight s) (renderScale s) (animate s) (vsync s)
      (multithreadedRendering s) (executeIndirect s) (submitRendering s)
      (lockFrameRate s) v (closeAfterSeconds s) (statsCsvFileName s)
      (statsSummaryCsvFileName s) (warp s).
Definition set_closeAfterSeconds (v : double) (s : Settings) : Settings :=
    mkSettings (d3d12 s) (windowWidth s) (windowHeight s) (renderWidth s)
      (renderHeight s) (renderScale s) (animate s) (vsync s)
      (multithreadedRendering s) (executeIndirect s) (submitRendering s)
      (lockFrameRate s) (lockedFrameRate s) v (statsCsvFileName s)
      (statsSummaryCsvFileName s) (warp s).
Definition set_warp (v : bool) (s : Settings) : Settings :=
    mkSettings (d3d12 s) (windowWidth s) (windowHeight s) (renderWidth s)
      (renderHeight s) (renderScale s) (animate s) (vsync s)
      (multithreadedRendering s) (executeIndirect s) (submitRendering s)
      (lockFrameRate s) (lockedFrameRate s) (closeAfterSeconds s)
      (statsCsvFileName s) (statsSummaryCsvFileName s) v.

(** The three statements of [main] that follow [SetupDPI]:
    [renderScale = 96.0 / double(dpi)] and the two [*= dpi / 96]. *)
Definition dpi_settings (dpi : Z) (s : Settings) : Settings :=
  set_window (scale_by_dpi dpi (windowWidth s))
             (scale_by_dpi dpi (windowHeight s))
             (set_renderScale (F64.div (F64.of_Z 96) (F64.of_Z dpi)) s).

(** [_stricmp(a, b) == 0]: equality once the letters [A] to [Z] are mapped
    to lower case. *)
Definition tolower (c : Ascii.ascii) : Ascii.ascii :=
  let n := Ascii.nat_of_ascii c in
  if ((65 <=? n) && (n <=? 90))%nat then Ascii.ascii_of_nat (n + 32) else c.

Fixpoint lowercase (s : string) : string :=
  match s with
  | EmptyString => EmptyString
  | String c s' => String (tolower c) (lowercase s')
  end.

Definition stricmp_eq (a b : string) : bool :=
  String.eqb (lowercase a) (lowercase b).

(** What the argument loop of [main] writes: the settings, the flag
    [gSettings.windowed], and the two availability flags. *)
Record CommandLine := mkCommandLine {
  cl_settings : Settings;
  cl_windowed : bool;
  cl_d3d11Available : bool;
  cl_d3d12Available : bool
}.

Definition with_settings (f : Settings -> Settings) (c : CommandLine)
  : CommandLine :=
  mkCommandLine (f (cl_settings c)) (cl_windowed c)
                (cl_d3d11Available c) (cl_d3d12Available c).

(** The option names of the argument loop, and those that read values. *)
Definition option_names : list string :=
  ["-close_after"; "-nod3d11"; "-warp"; "-nod3d12"; "-indirect";
   "-fullscreen"; "-window"; "-render_scale"; "-locked_fps";
   "-stats_csv_file_name"; "-stats_summary_csv_file_name"]%string.

Definition is_option (a : string) : bool :=
  existsb (stricmp_eq a) option_names.

(** The number of values an option reads. *)
Definition arity (a : string) : nat :=
  if stricmp_eq a "-window" then 2
  else if existsb (stricmp_eq a)
            ["-close_after"; "-render_scale"; "-locked_fps";
             "-stats_csv_file_name"; "-stats_summary_csv_file_name"]%string
       then 1
       else 0.

(** A command line the argument loop reads to its end: a sequence of
    options, each followed by the values it reads. *)
Fixpoint well_formed (args : list string) : bool :=
  match args with
  | [] => true
  | a :: rest =>
      if is_option a then
        match arity a, rest with
        | O, _ => well_formed rest
        | S O, _ :: rest' => well_formed rest'
        | S (S _), _ :: _ :: rest' => well_formed rest'
        | _, _ => false
        end
      else false
  end.

(** The options of a command line, in order: the name in lower case and
    the values read. *)
Fixpoint options_of (args : list string) : list (string * list string) :=
  match args with
  | [] => []
  | a :: rest =>
      match arity a, rest with
      | O, _ => (lowercase a, []) :: options_of rest
      | S O, v :: rest' => (lowercase a, [v]) :: options_of rest'
      | S (S _), v1 :: v2 :: rest' =>
          (lowercase a, [v1; v2]) :: options_of rest'
      | _, _ => []
      end
  end.

(** The option [name] is given. *)
Definition given (name : string) (opts : list (string * list string)) : bool :=
  existsb (fun o => String.eqb (fst o) name) opts.

(** The values of the last occurrence of the option [name]. *)
Fixpoint last_values (name : string) (opts : list (string * list string))
  : option (list string) :=
  match opts with
  | [] => None
  | o :: opts' =>
      match last_values name opts' with
      | Some vs => Some vs
      | None => if String.eqb (fst o) name then Some (snd o) else None
      end
  end.

(** The first value of the last occurrence of [name], converted by [conv];
    [old] when the option is not given. *)
Definition last_value {A} (conv : string -> A) (name : string)
    (opts : list (string * list string)) (old : A) : A :=
  match last_values name opts with
  | Some vs => conv (nth 0 vs EmptyString)
  | None => old
  end.

(** The second value likewise. *)
Definition last_second {A} (conv : string -> A) (name : string)
    (opts : list (string * list string)) (old : A) : A :=
  match last_values name opts with
  | Some vs => conv (nth 1 vs EmptyString)
  | None => old
  end.

Section ArgumentLoop.

(** The two conversions of the C library. *)
Variable atof : string -> double.
Variable atoi : string -> Z.

(** The [for] loop over [argv[1 ..]]: [None] when an argument is reported
    as unrecognized and [main] returns -1.  [a + 1 < argc] says that one
    argument follows, [a + 2 < argc] that two do; the branches taken under
    these tests read them, so their empty cases are never reached. *)
Fixpoint parse_args (args : list string) (c : CommandLine)
  : option CommandLine :=
  match args with
  | [] => Some c
  | a :: rest =>
      if stricmp_eq a "-close_after" && (1 <=? List.length rest)%nat then
        match rest with
        | v :: rest' =>
            parse_args rest' (with_settings (set_closeAfterSeconds (atof v)) c)
        | [] => None
        end
      else if stricmp_eq a "-nod3d11" then
        parse_args rest
          (mkCommandLine (cl_settings c) (cl_windowed c) false
                         (cl_d3d12Available c))
      else if stricmp_eq a "-warp" then
        parse_args rest (with_settings (set_warp true) c)
      else if stricmp_eq a "-nod3d12" then
        parse_args rest
          (mkCommandLine (cl_settings c) (cl_windowed c)
                         (cl_d3d11Available c) false)
      else if stricmp_eq a "-indirect" then
        parse_args rest (with_settings (set_executeIndirect true) c)
      else if stricmp_eq a "-fullscreen" then
        parse_args rest
          (mkCommandLine (cl_settings c) false
                         (cl_d3d11Available c) (cl_d3d12Available c))
      else if stricmp_eq a "-window" && (2 <=? List.length rest)%nat then
        match rest with
        | width :: height :: rest' =>
            parse_args rest'
              (with_settings (set_window (atoi width) (atoi height)) c)
        | _ => None
        end
      else if stricmp_eq a "-render_scale" && (1 <=? List.length rest)%nat then
        match rest with
        | v :: rest' =>
            parse_args rest' (with_settings (set_renderScale (atof v)) c)
        | [] => None
        end
      else if stricmp_eq a "-locked_fps" && (1 <=? List.length rest)%nat then
        match rest with
        | v :: rest' =>
            parse_args rest' (with_settings (set_lockedFrameRate (atoi v)) c)
        | [] => None
        end
      else if stricmp_eq a "-stats_csv_file_name"
              && (1 <=? List.length rest)%nat then
        match rest with
        | v :: rest' =>
            parse_args rest' (with_settings (set_statsCsvFileName v) c)
        | [] => None
        end
      else if stricmp_eq a "-stats_summary_csv_file_name"
              && (1 <=? List.length rest)%nat then
        match rest with
        | v :: rest' =>
            parse_args rest' (with_settings (set_statsSummaryCsvFileName v) c)
        | [] => None
        end
      else None
  end.

(** The branch of the argument loop taken for the option [name], given in
    lower case, with the values [vs] it read. *)
Definition apply_option (name : string) (vs : list string) (c : CommandLine)
  : CommandLine :=
  let v1 := nth 0 vs EmptyString in
  let v2 := nth 1 vs EmptyString in
  if String.eqb name "-close_after" then
    with_settings (set_closeAfterSeconds (atof v1)) c
  else if String.eqb name "-nod3d11" then
    mkCommandLine (cl_settings c) (cl_windowed c) false (cl_d3d12Available c)
  else if String.eqb name "-warp" then with_settings (set_warp true) c
  else if String.eqb name "-nod3d12" then
    mkCommandLine (cl_settings c) (cl_windowed c) (cl_d3d11Available c) false
  else if String.eqb name "-indirect" then
    with_settings (set_executeIndirect true) c
  else if String.eqb name "-fullscreen" then
    mkCommandLine (cl_settings c) false
                  (cl_d3d11Available c) (cl_d3d12Available c)
  else if String.eqb name "-window" then
    with_settings (set_window (atoi v1) (atoi v2)) c
  else if String.eqb name "-render_scale" then
    with_settings (set_renderScale (atof v1)) c
  else if String.eqb name "-locked_fps" then
    with_settings (set_lockedFrameRate (atoi v1)) c
  else if String.eqb name "-stats_csv_file_name" then
    with_settings (set_statsCsvFileName v1) c
  else if String.eqb name "-stats_summary_csv_file_name" then
    with_settings (set_statsSummaryCsvFileName v1) c
  else c.

Definition apply_options (opts : list (string * list string))
    (c : CommandLine) : CommandLine :=
  fold_left (fun c' o => apply_option (fst o) (snd o) c') opts c.

(** What a command line read to its end leaves behind, option by option:
    a flag option acts when it is given, however often and wherever; of a
    valued option the last occurrence counts; the rest of the settings is
    as before. *)
Definition options_result (opts : list (string * list string))
    (c c' : CommandLine) : Prop :=
  let s := cl_settings c in
  let s' := cl_settings c' in
  cl_d3d11Available c' = cl_d3d11Available c && negb (given "-nod3d11" opts) /\
  cl_d3d12Available c' = cl_d3d12Available c && negb (given "-nod3d12" opts) /\
  cl_windowed c' = cl_windowed c && negb (given "-fullscreen" opts) /\
  warp s' = warp s || given "-warp" opts /\
  executeIndirect s' = executeIndirect s || given "-indirect" opts /\
  closeAfterSeconds s'
  = last_value atof "-close_after" opts (closeAfterSeconds s) /\
  renderScale s' = last_value atof "-render_scale" opts (renderScale s) /\
  lockedFrameRate s'
  = last_value atoi "-locked_fps" opts (lockedFrameRate s) /\
  windowWidth s' = last_value atoi "-window" opts (windowWidth s) /\
  windowHeight s' = last_second atoi "-window" opts (windowHeight s) /\
  statsCsvFileName s'
  = last_value (fun v => v) "-stats_csv_file_name" opts (statsCsvFileName s) /\
  statsSummaryCsvFileName s'
  = last_value (fun v => v) "-stats_summary_csv_file_name" opts
      (statsSummaryCsvFileName s) /\
  d3d12 s' = d3d12 s /\
  renderWidth s' = renderWidth s /\
  renderHeight s' = renderHeight s /\
  animate s' = animate s /\
  vsync s' = vsync s /\
  multithreadedRendering s' = multithreadedRendering s /\
  submitRendering s' = submitRendering s /\
  lockFrameRate s' = lockFrameRate s.

(** What the platform answers before the window exists. *)
Record Platform := mkPlatform {
  CheckDll_d3d11 : bool;
  CheckDll_d3d12 : bool;
  GetDpiForMonitor : option Z;
  EnumWarpAdapter : bool;
  simOrbitRadius : float;
  simDiscRadius : float;
  windowCreation : list Msg
}.

(** [main] up to the argument loop's end, from the initial values
    [settings.h] gives to [gSettings]. *)
Definition command_line (pf : Platform) (s0 : Settings) (windowed0 : bool)
    (argv : list string) : option CommandLine :=
  parse_args (tl argv)
    (mkCommandLine (dpi_settings (SetupDPI (GetDpiForMonitor pf)) s0)
                   windowed0 (CheckDll_d3d11 pf) (CheckDll_d3d12 pf)).

(** [main] up to the first iteration of the loop.  The call of
    [ToggleFullscreen] under [-fullscreen] is not recorded; the messages it
    brings about are among those of the window's creation. *)
Definition main_start (pf : Platform) (s0 : Settings) (windowed0 : bool)
    (argv : list string) : Z + Res unit :=
  match command_line pf s0 windowed0 argv with
  | None => inl (-1)
  | Some c =>
      startup (mkStartup (cl_settings c) (cl_d3d11Available c)
                 (cl_d3d12Available c) (EnumWarpAdapter pf)
                 (simOrbitRadius pf) (simDiscRadius pf) (windowCreation pf))
  end.

End ArgumentLoop.

(* ================================================================== *)
(** * WinWrapper.cpp: ToggleFullscreen *)
(* ================================================================== *)

(** Window styles of [winuser.h]. *)
Definition WS_CLIPSIBLINGS : Z := 0x04000000.
Definition WS_CLIPCHILDREN : Z := 0x02000000.
Definition WS_VISIBLE : Z := 0x10000000.
Definition WS_OVERLAPPEDWINDOW : Z := 0x00CF0000.

Definition basicStyle : Z :=
  Z.lor (Z.lor WS_CLIPSIBLINGS WS_CLIPCHILDREN) WS_VISIBLE.
Definition windowedStyle : Z := Z.lor basicStyle WS_OVERLAPPEDWINDOW.
Definition fullscreenStyle : Z := basicStyle.

(** The structures of [windef.h] and [winuser.h] that [ToggleFullscreen]
    passes around. *)
Module Win32.
Record POINT := mkPOINT {
  x : Z;
  y : Z
}.
Record RECT := mkRECT {
  left : Z;
  top : Z;
  right : Z;
  bottom : Z
}.
Record WINDOWPLACEMENT := mkPlacement {
  length : Z;
  flags : Z;
  showCmd : Z;
  ptMinPosition : POINT;
  ptMaxPosition : POINT;
  rcNormalPosition : RECT
}.
End Win32.

(** The calls [ToggleFullscreen] makes on the window. *)
Inductive WindowCall :=
| SetWindowLong_STYLE (style : Z)
| SetWindowPos_rect (x y cx cy : Z)
| SetWindowPlacement (placement : Win32.WINDOWPLACEMENT)
| SetWindowPos_FRAMECHANGED.

(** What the platform answers during one call of [ToggleFullscreen]: the
    style read by [GetWindowLongPtr], whether [GetWindowPlacement] succeeds
    and what it leaves in the buffer it is given, and the monitor rectangle
    when [GetMonitorInfo] succeeds. *)
Record WindowQuery := mkWindowQuery {
  GetWindowLongPtr_STYLE : Z;
  GetWindowPlacement : bool;
  placementWritten : Win32.WINDOWPLACEMENT;
  GetMonitorInfo : option Win32.RECT
}.

(** [ToggleFullscreen]: the static [prevPlacement] after the call and the
    calls made.  [GetWindowPlacement] writes into [prevPlacement] itself;
    [GetMonitorInfo] is asked only when it succeeded.  The width and the
    height of the monitor rectangle are differences of [LONG]s, taken here
    without wrap-around. *)
Definition ToggleFullscreen (prevPlacement : Win32.WINDOWPLACEMENT)
    (q : WindowQuery) : Win32.WINDOWPLACEMENT * list WindowCall :=
  let dwStyle := u32 (GetWindowLongPtr_STYLE q) in
  if Z.land dwStyle windowedStyle =? windowedStyle then
    if GetWindowPlacement q then
      match GetMonitorInfo q with
      | Some mi =>
          (placementWritten q,
           [SetWindowLong_STYLE fullscreenStyle;
            SetWindowPos_rect (Win32.left mi) (Win32.top mi)
              (Win32.right mi - Win32.left mi)
              (Win32.bottom mi - Win32.top mi)])
      | None => (placementWritten q, [])
      end
    else (placementWritten q, [])
  else
    (prevPlacement,
     [SetWindowLong_STYLE windowedStyle;
      SetWindowPlacement prevPlacement;
      SetWindowPos_FRAMECHANGED]).

(* ================================================================== *)
(** * What the further properties speak about *)
(* ================================================================== *)

(** The camera is in range: the bounds of the radius are ordered, the
    radius lies between them, and the latitude lies between the two limits
    of [OrbitY]. *)
Definition in_range (c : OrbitCamera) : Prop :=
  Fp.leb (mMinRadius c) (mMaxRadius c) = true /\
  Fp.leb (mMinRadius c) (mRadius c) = true /\
  Fp.leb (mRadius c) (mMaxRadius c) = true /\
  Fp.leb Camera.limit (mLatAngle c) = true /\
  Fp.leb (mLatAngle c) (F32.sub XM_PI Camera.limit) = true.

Definition same_bounds (c c' : OrbitCamera) : Prop :=
  mMinRadius c' = mMinRadius c /\ mMaxRadius c' = mMaxRadius c.

(** [m] keeps a property of the camera. *)
Definition keeps {A} (P : OrbitCamera -> Prop) (m : M A) : Prop :=
  forall w, P (gCamera w) ->
    match m w with
    | Ok _ w' => P (gCamera w')
    | Stuck _ => True
    end.

(** In range, with the bounds of a camera [c0]. *)
Definition ranged (c0 c : OrbitCamera) : Prop :=
  in_range c /\ same_bounds c0 c.

Create HintDb keeps.

(** [0.0 <= x] read off the representation: a zero, or a finite number or
    an infinity with the sign bit clear. *)
Definition nonneg (x : spec_float) : bool :=
  match x with
  | S754_zero _ => true
  | S754_infinity s | S754_finite s _ _ => negb s
  | S754_nan => false
  end.

(** A call that hands a frame time to a backend hands one with
    [0.0f <= frameTime]. *)
Definition render_nonneg (e : Event) : bool :=
  match e with
  | E_Render _ frameTime => Fp.leb (F32.of_Z 0) frameTime
  | _ => true
  end.

(** The keys that toggle one setting each: Space, V, M, I and S. *)
Definition toggle_key (k : Z) : bool :=
  (k =? VK_SPACE) || (k =? key_V) || (k =? key_M) || (k =? key_I)
  || (k =? key_S).

(** The messages that choose a backend: a first press of '1' or '2', and a
    pointer-down on one of the two backend sprites. *)
Definition selects_backend (m : Msg) : bool :=
  match m with
  | WM_KEYDOWN wParam lParam =>
      negb (Z.testbit lParam 30) && ((wParam =? key_1) || (wParam =? key_2))
  | WM_POINTERDOWN p =>
      GetPointerInfo p
      && match HitTest p with
         | Some D3D11Control | Some D3D12Control => true
         | _ => false
         end
  | _ => false
  end.

Definition is_size (m : Msg) : bool :=
  match m with WM_SIZE _ => true | _ => false end.

(** The messages that reach a mutator of the camera's position. *)
Definition moves_camera (m : Msg) : bool :=
  match m with
  | WM_MOUSEWHEEL _ | WM_POINTERDOWN _ | WM_POINTERUPDATE _
  | WM_POINTERUP _ => true
  | _ => false
  end.

(** The other backend. *)
Definition other (b : Backend) : Backend :=
  match b with D3D11 => D3D12 | D3D12 => D3D11 end.

(** The three calls every rendered frame makes: inertia, the wait of the
    D3D12 backend, and the render call. *)
Definition is_frame_call (e : Event) : bool :=
  match e with
  | E_ProcessInertia | E_WaitForReadyToRender | E_Render _ _ => true
  | _ => false
  end.

(** The initial value [{ sizeof(prevPlacement) }] of the static
    [prevPlacement], and the placement of a restored window of 800 by 600
    at (100, 100). *)
Definition initialPlacement : Win32.WINDOWPLACEMENT :=
  Win32.mkPlacement 44 0 0 (Win32.mkPOINT 0 0) (Win32.mkPOINT 0 0)
                    (Win32.mkRECT 0 0 0 0).
Definition normalPlacement : Win32.WINDOWPLACEMENT :=
  Win32.mkPlacement 44 0 1 (Win32.mkPOINT (-1) (-1))
                    (Win32.mkPOINT (-1) (-1)) (Win32.mkRECT 100 100 900 700).

(* ================================================================== *)
(** * Facts about the comparisons *)
(* ================================================================== *)

Section Comparisons.

Lemma SFcompare_refl (x : spec_float) :
  Fp.is_nan x = false -> SFcompare x x = Some Eq.
Proof.
  destruct x as [s | s | | s m e]; simpl; intros H; try discriminate;
    try (destruct s; reflexivity).
  rewrite Z.compare_refl.
  change (Pos.compare_cont Eq m m) with (Pos.compare m m).
  rewrite Pos.compare_refl. destruct s; reflexivity.
Qed.

Lemma SFcompare_antisym (x y : spec_float) :
  SFcompare y x = option_map CompOpp (SFcompare x y).
Proof.
  destruct x as [sx | sx | | sx mx ex], y as [sy | sy | | sy my ey]; simpl;
    try reflexivity;
    try (destruct sx; reflexivity);
    try (destruct sy; reflexivity);
    try (destruct sx, sy; reflexivity).
  change (Pos.compare_cont Eq my mx) with (Pos.compare my mx).
  change (Pos.compare_cont Eq mx my) with (Pos.compare mx my).
  rewrite (Z.compare_antisym ex ey), (Pos.compare_antisym mx my).
  destruct sx, sy; simpl; try reflexivity;
    destruct (ex ?= ey); simpl; reflexivity.
Qed.

Lemma ltb_leb (x y : spec_float) : Fp.ltb x y = true -> Fp.leb x y = true.
Proof.
  unfold Fp.ltb, Fp.leb, SFltb, SFleb.
  destruct (SFcompare x y) as [[ | | ] | ]; intros H;
    try discriminate; reflexivity.
Qed.

Lemma leb_not_nan (x y : spec_float) :
  Fp.leb x y = true -> Fp.is_nan x = false /\ Fp.is_nan y = false.
Proof.
  unfold Fp.leb, SFleb.
  destruct x, y; simpl; intros H; try discriminate; auto.
Qed.

Lemma leb_refl (x : spec_float) : Fp.is_nan x = false -> Fp.leb x x = true.
Proof.
  intros H. unfold Fp.leb, SFleb. rewrite (SFcompare_refl x H). reflexivity.
Qed.

(** [a > b] and [a <= b] exclude each other. *)
Lemma gtb_not_leb (x y : spec_float) : Fp.gtb x y = true -> Fp.leb x y = false.
Proof.
  unfold Fp.gtb, Fp.leb, SFltb, SFleb.
  rewrite (SFcompare_antisym y x).
  destruct (SFcompare y x) as [[ | | ] | ]; simpl; intros H;
    try discriminate; reflexivity.
Qed.

Lemma ltb_not_geb (x y : spec_float) : Fp.ltb x y = true -> Fp.geb x y = false.
Proof. intros H. apply gtb_not_leb. exact H. Qed.


(** [std::max(lo, std::min(hi, x))] lands between [lo] and [hi] whatever
    [x] is, a NaN and the infinities included. *)
Lemma clamp_between (lo hi x : spec_float) :
  Fp.leb lo hi = true ->
  Fp.leb lo (Fp.max lo (Fp.min hi x)) = true /\
  Fp.leb (Fp.max lo (Fp.min hi x)) hi = true.
Proof.
  intros Hle.
  destruct (leb_not_nan lo hi Hle) as [Hlo Hhi].
  unfold Fp.max, Fp.min.
  destruct (Fp.ltb x hi) eqn:Hx.
  - destruct (Fp.ltb lo x) eqn:Hl.
    + split; apply ltb_leb; assumption.
    + split; [apply leb_refl; assumption | assumption].
  - destruct (Fp.ltb lo hi) eqn:Hl.
    + split; [assumption | apply leb_refl; assumption].
    + split; [apply leb_refl; assumption | assumption].
Qed.

(** The result of the clamp is one of the bounds or the value itself. *)
Lemma clamp_cases (lo hi x : spec_float) :
  Fp.max lo (Fp.min hi x) = lo \/
  Fp.max lo (Fp.min hi x) = hi \/
  (Fp.max lo (Fp.min hi x) = x /\ Fp.ltb lo x = true /\ Fp.ltb x hi = true).
Proof.
  unfold Fp.max, Fp.min.
  destruct (Fp.ltb x hi) eqn:Hx.
  - destruct (Fp.ltb lo x) eqn:Hl; auto.
  - destruct (Fp.ltb lo hi); auto.
Qed.

End Comparisons.

(* ================================================================== *)
(** * The promotion of float to double *)
(* ================================================================== *)
Section Promotion.

Lemma digits2_pos_iter_xO (m p : positive) :
  digits2_pos (Pos.iter xO m p) = (digits2_pos m + p)%positive.
Proof.
  induction p as [ | p IH] using Pos.peano_ind.
  - cbn [Pos.iter digits2_pos]. lia.
  - rewrite Pos.iter_succ. cbn [digits2_pos]. rewrite IH. lia.
Qed.

Lemma iter_xO_mul (m p : positive) :
  Pos.iter xO m p = (m * 2 ^ p)%positive.
Proof.
  induction p as [ | p IH] using Pos.peano_ind.
  - cbn [Pos.iter]. rewrite Pos.pow_1_r. lia.
  - rewrite Pos.iter_succ, IH, Pos.pow_succ_r. lia.
Qed.

(** A finite binary32 number keeps its sign and its value when promoted:
    the mantissa is shifted left to 53 bits. *)
Lemma of_float_finite (s : bool) (m : positive) (e : Z) :
  F32.valid (S754_finite s m e) = true ->
  exists p : positive,
    Z.pos (digits2_pos m) + Z.pos p = 53 /\
    F64.of_float (S754_finite s m e)
    = S754_finite s (Pos.iter xO m p) (e - Z.pos p).
Proof.
  unfold F32.valid, valid_binary, bounded, canonical_mantissa, fexp, emin,
    F32.prec, F32.emax.
  intros H. apply andb_prop in H. destruct H as [H1 H2].
  apply Z.eqb_eq in H1. apply Z.leb_le in H2.
  set (d := digits2_pos m) in *.
  assert (Hd : Z.pos d <= 24) by lia.
  assert (He : -149 <= e) by lia.
  destruct (53 - Z.pos d) as [ | p | p] eqn:Ep; try lia.
  exists p. split; [lia | ].
  unfold F64.of_float, binary_round, shl_align, fexp, emin, F64.prec, F64.emax.
  fold d.
  replace (Z.max (Z.pos d + e - 53) (3 - 1024 - 53) - e) with (Z.neg p) by lia.
  unfold binary_round_aux, shr_fexp, fexp, emin, Zdigits2, shr_record_of_loc.
  rewrite digits2_pos_iter_xO. fold d.
  replace (Z.max (Z.pos (d + p) + Z.max (Z.pos d + e - 53) (3 - 1024 - 53) - 53)
             (3 - 1024 - 53) - Z.max (Z.pos d + e - 53) (3 - 1024 - 53))
    with 0 by lia.
  cbn [shr shr_m loc_of_shr_record round_nearest_even Zdigits2].
  rewrite digits2_pos_iter_xO. fold d.
  replace (Z.max (Z.pos (d + p) + Z.max (Z.pos d + e - 53) (3 - 1024 - 53) - 53)
             (3 - 1024 - 53) - Z.max (Z.pos d + e - 53) (3 - 1024 - 53))
    with 0 by lia.
  cbn [shr shr_m].
  replace (Z.max (Z.pos d + e - 53) (3 - 1024 - 53)) with (e - Z.pos p) by lia.
  replace (e - Z.pos p <=? 1024 - 53) with true
    by (symmetry; apply Z.leb_le; lia).
  reflexivity.
Qed.

Lemma compare_cont_shift (m q p : positive) :
  Pos.compare_cont Eq (Pos.iter xO m p) (Pos.iter xO q p)
  = Pos.compare_cont Eq m q.
Proof.
  rewrite !iter_xO_mul. exact (Pos.mul_compare_mono_r (2 ^ p) m q).
Qed.

Lemma Zcompare_shift (e ey : Z) (p : positive) :
  (e - Z.pos p ?= ey - Z.pos p) = (e ?= ey).
Proof.
  destruct (Z.compare_spec e ey);
    [apply Z.compare_eq_iff | apply Z.compare_lt_iff | apply Z.compare_gt_iff];
    lia.
Qed.

(** Comparing a float with a normal float gives the same answer after the
    promotion of both to double as before it. *)
Lemma compare_promoted (x y : float) :
  F32.valid x = true -> F32.valid y = true -> normal32 y = true ->
  SFcompare (F64.of_float x) (F64.of_float y) = SFcompare x y.
Proof.
  intros Hx Hy Hn.
  destruct y as [sy | sy | | sy q ey]; try discriminate Hn.
  destruct (of_float_finite sy q ey Hy) as [py [Hpy Ey]]. rewrite Ey.
  cbn [normal32] in Hn. apply andb_prop in Hn. destruct Hn as [Hq Hey].
  apply Z.eqb_eq in Hq. apply Z.ltb_lt in Hey.
  assert (Epy : py = 29%positive) by lia. subst py.
  destruct x as [s | s | | s m e]; try reflexivity.
  destruct (of_float_finite s m e Hx) as [p [Hp Ex]]. rewrite Ex.
  unfold F32.valid, valid_binary, bounded, canonical_mantissa, fexp, emin,
    F32.prec, F32.emax in Hx.
  apply andb_prop in Hx. destruct Hx as [H1 H2].
  apply Z.eqb_eq in H1. apply Z.leb_le in H2.
  cbv beta iota delta [SFcompare].
  destruct (Z.eq_dec (Z.pos (digits2_pos m)) 24) as [Hd | Hd].
  - assert (Ep : p = 29%positive) by lia. subst p.
    rewrite (Zcompare_shift e ey 29), (compare_cont_shift m q 29). reflexivity.
  - assert (He : e = -149) by lia. subst e.
    assert (Hc : (-149 - Z.pos p ?= ey - 29) = Lt)
      by (apply Z.compare_lt_iff; lia).
    assert (Hc' : (-149 ?= ey) = Lt) by (apply Z.compare_lt_iff; lia).
    rewrite Hc, Hc'. reflexivity.
Qed.

Lemma one_promoted : F64.of_Z 1 = F64.of_float (F32.of_Z 1).
Proof. vm_compute. reflexivity. Qed.

(** [aspect <= 1.0], made in double, is [aspect <= 1.0f]. *)
Lemma leb_one_promoted (x : float) :
  F32.valid x = true ->
  Fp.leb (F64.of_float x) (F64.of_Z 1) = Fp.leb x (F32.of_Z 1).
Proof.
  intros Hv. unfold Fp.leb, SFleb. rewrite one_promoted.
  rewrite (compare_promoted x (F32.of_Z 1) Hv); reflexivity.
Qed.

End Promotion.

(* ================================================================== *)
(** * The orbit camera *)
(* ================================================================== *)

Section CameraFacts.

Lemma limit_value : Camera.limit = S754_finite false 8433149 (-28).
Proof. vm_compute. reflexivity. Qed.

Lemma upper_value : F32.sub XM_PI Camera.limit = S754_finite false 13045027 (-22).
Proof. vm_compute. reflexivity. Qed.

Lemma XM_PI_value : XM_PI = S754_finite false 13176795 (-22).
Proof. vm_compute. reflexivity. Qed.

Lemma above_limit_positive (x : float) :
  Fp.ltb Camera.limit x = true -> Fp.ltb (F32.of_Z 0) x = true.
Proof.
  rewrite limit_value. unfold Fp.ltb, SFltb.
  destruct x as [s | s | | s m e]; cbv beta iota delta [SFcompare];
    try discriminate.
  - destruct s; [discriminate | reflexivity].
  - destruct s; [discriminate | reflexivity].
Qed.

Lemma compare_cont_lt_trans (m a b : positive) :
  Pos.compare_cont Eq m a = Lt -> (a < b)%positive ->
  Pos.compare_cont Eq m b = Lt.
Proof. intros H1 H2. exact (Pos.lt_trans m a b H1 H2). Qed.

Lemma below_upper_below_pi (x : float) :
  Fp.ltb x (F32.sub XM_PI Camera.limit) = true -> Fp.ltb x XM_PI = true.
Proof.
  rewrite upper_value, XM_PI_value. unfold Fp.ltb, SFltb.
  destruct x as [s | s | | s m e]; cbv beta iota delta [SFcompare];
    try discriminate; try reflexivity.
  - destruct s; [reflexivity | discriminate].
  - destruct s; [reflexivity | ].
    destruct (e ?= -22); try discriminate; try reflexivity.
    destruct (Pos.compare_cont Eq m 13045027) eqn:E; try discriminate.
    intros _.
    rewrite (compare_cont_lt_trans m 13045027 13176795 E eq_refl).
    reflexivity.
Qed.

(** One call of [OrbitY] leaves the latitude between the two limits and
    away from both poles. *)
Lemma OrbitY_clamped (c : OrbitCamera) (angle : float) :
  let lat := mLatAngle (Camera.OrbitY c angle) in
  Fp.leb Camera.limit lat = true /\
  Fp.leb lat (F32.sub XM_PI Camera.limit) = true /\
  Fp.ltb (F32.of_Z 0) lat = true /\
  Fp.ltb lat XM_PI = true.
Proof.
  unfold Camera.OrbitY; cbn [mLatAngle].
  set (x := F32.add (mLatAngle c) angle).
  assert (Hle : Fp.leb Camera.limit (F32.sub XM_PI Camera.limit) = true)
    by (vm_compute; reflexivity).
  destruct (clamp_between _ _ x Hle) as [H1 H2].
  repeat split; try assumption.
  - destruct (clamp_cases Camera.limit (F32.sub XM_PI Camera.limit) x)
      as [E | [E | [E [Hlo _]]]]; rewrite E.
    + vm_compute; reflexivity.
    + vm_compute; reflexivity.
    + apply above_limit_positive; assumption.
  - destruct (clamp_cases Camera.limit (F32.sub XM_PI Camera.limit) x)
      as [E | [E | [E [_ Hhi]]]]; rewrite E.
    + vm_compute; reflexivity.
    + vm_compute; reflexivity.
    + apply below_upper_below_pi; assumption.
Qed.

End CameraFacts.

(** C1, as the code has it.  [OrbitCamera::Projection] hands
    [XMMatrixPerspectiveFovRH] the aspect ratio it was given, the planes
    10000 and 0.1, and a vertical field of view that is the given [fov]
    when [aspect <= 1] and [fov / aspect] when [aspect > 1]: the division
    is applied on wide windows, not on tall ones.  ([aspect] is any
    binary32 number; the code compares it with 1 after promotion to
    double, which changes nothing.) *)
Theorem Projection_vertical_fov (c : OrbitCamera) (fov aspect : float) :
  F32.valid aspect = true ->
  exists fy : float,
    mProjection (Camera.Projection c fov aspect)
      = Some (mkPerspective fy aspect (F32.of_Z 10000) (F32.lit 1 10)) /\
    (Fp.leb aspect (F32.of_Z 1) = true -> fy = fov) /\
    (Fp.gtb aspect (F32.of_Z 1) = true -> fy = F32.div fov aspect).
Proof.
  intros Hv. exists (Camera.fovY fov aspect).
  split; [unfold Camera.Projection; cbn [mProjection]; reflexivity | ].
  unfold Camera.fovY. rewrite (leb_one_promoted aspect Hv). split; intros H.
  - rewrite H. reflexivity.
  - rewrite (gtb_not_leb _ _ H). reflexivity.
Qed.

(** On a window twice as wide as high a field of view of 1 becomes 1/2. *)
Lemma Projection_vertical_fov_witness :
  F32.valid (F32.of_Z 2) = true /\
  exists fy : float,
    mProjection (Camera.Projection scenario_camera (F32.of_Z 1) (F32.of_Z 2))
      = Some (mkPerspective fy (F32.of_Z 2) (F32.of_Z 10000) (F32.lit 1 10)) /\
    fy = F32.lit 1 2.
Proof.
  assert (Hv : F32.valid (F32.of_Z 2) = true) by (vm_compute; reflexivity).
  split; [exact Hv | ].
  destruct (Projection_vertical_fov scenario_camera (F32.of_Z 1) (F32.of_Z 2) Hv)
    as [fy [H1 [_ H3]]].
  exists fy. split; [exact H1 | ].
  rewrite H3; vm_compute; reflexivity.
Defined.

(** C1, as the claim states it, fails: with [aspect = 2 > 1] the vertical
    field of view is not the given one, and with [aspect = 1/2 <= 1] it is
    not the given one divided by the aspect. *)
Lemma Projection_claimed_policy_fails :
  Fp.gtb (F32.of_Z 2) (F32.of_Z 1) = true /\
  option_map FovAngleY
    (mProjection (Camera.Projection scenario_camera (F32.of_Z 1) (F32.of_Z 2)))
    <> Some (F32.of_Z 1) /\
  Fp.leb (F32.lit 1 2) (F32.of_Z 1) = true /\
  option_map FovAngleY
    (mProjection (Camera.Projection scenario_camera (F32.of_Z 1) (F32.lit 1 2)))
    <> Some (F32.div (F32.of_Z 1) (F32.lit 1 2)).
Proof.
  split; [vm_compute; reflexivity | ].
  split; [vm_compute; discriminate | ].
  split; [vm_compute; reflexivity | ].
  vm_compute; discriminate.
Qed.

(** C2.  Whatever [delta] is (any sign, any magnitude, infinite or not a
    number), after [ZoomRadius] (additive) and after [ZoomRadiusScale]
    (multiplicative) the radius lies between [mMinRadius] and [mMaxRadius],
    provided [mMinRadius <= mMaxRadius]; the two bounds are left as they
    were. *)
Theorem zoom_radius_clamped (c : OrbitCamera) (delta : float) :
  Fp.leb (mMinRadius c) (mMaxRadius c) = true ->
  (Fp.leb (mMinRadius c) (mRadius (Camera.ZoomRadius c delta)) = true /\
   Fp.leb (mRadius (Camera.ZoomRadius c delta)) (mMaxRadius c) = true) /\
  (Fp.leb (mMinRadius c) (mRadius (Camera.ZoomRadiusScale c delta)) = true /\
   Fp.leb (mRadius (Camera.ZoomRadiusScale c delta)) (mMaxRadius c) = true) /\
  (mMinRadius (Camera.ZoomRadius c delta) = mMinRadius c /\
   mMaxRadius (Camera.ZoomRadius c delta) = mMaxRadius c /\
   mMinRadius (Camera.ZoomRadiusScale c delta) = mMinRadius c /\
   mMaxRadius (Camera.ZoomRadiusScale c delta) = mMaxRadius c).
Proof.
  intros Hle.
  unfold Camera.ZoomRadius, Camera.ZoomRadiusScale;
    cbn [mRadius mMinRadius mMaxRadius].
  split; [apply clamp_between; assumption | ].
  split; [apply clamp_between; assumption | ].
  repeat split.
Qed.

Lemma zoom_radius_clamped_witness :
  Fp.leb (mMinRadius scenario_camera) (mMaxRadius scenario_camera) = true /\
  Fp.leb (mMinRadius scenario_camera)
         (mRadius (Camera.ZoomRadius scenario_camera (F32.of_Z (-1000)))) = true /\
  Fp.leb (mRadius (Camera.ZoomRadiusScale scenario_camera (F32.of_Z 1000)))
         (mMaxRadius scenario_camera) = true.
Proof.
  assert (Hle : Fp.leb (mMinRadius scenario_camera)
                        (mMaxRadius scenario_camera) = true)
    by (vm_compute; reflexivity).
  split; [exact Hle | ].
  destruct (zoom_radius_clamped scenario_camera (F32.of_Z (-1000)) Hle)
    as [[H1 _] _].
  destruct (zoom_radius_clamped scenario_camera (F32.of_Z 1000) Hle)
    as [_ [[_ H2] _]].
  split; assumption.
Defined.

(** C3, as the code has it.  After [OrbitY], and after any further calls
    of it, the latitude lies in the closed interval from [limit] to
    [XM_PI - limit], where [limit = XM_PI * 0.01f]; both ends are attained
    by the clamp.  The latitude is therefore strictly between the poles 0
    and [XM_PI]. *)
Theorem orbit_latitude_clamped (c : OrbitCamera) (angle : float)
    (more : list float) :
  let lat := mLatAngle (fold_left Camera.OrbitY more (Camera.OrbitY c angle)) in
  Fp.leb Camera.limit lat = true /\
  Fp.leb lat (F32.sub XM_PI Camera.limit) = true /\
  Fp.ltb (F32.of_Z 0) lat = true /\
  Fp.ltb lat XM_PI = true.
Proof.
  revert c angle. induction more as [ | a more IH]; intros c angle.
  - apply OrbitY_clamped.
  - simpl fold_left. apply (IH (Camera.OrbitY c angle) a).
Qed.

(** C3, as the claim states it, fails: a large step toward the pole puts
    the latitude on the limit itself, not strictly inside. *)
Lemma orbit_latitude_reaches_limit :
  mLatAngle (Camera.OrbitY scenario_camera (F32.of_Z (-10))) = Camera.limit /\
  ~ (Fp.ltb Camera.limit
       (mLatAngle (Camera.OrbitY scenario_camera (F32.of_Z (-10)))) = true /\
     Fp.ltb (mLatAngle (Camera.OrbitY scenario_camera (F32.of_Z (-10))))
       (F32.sub XM_PI Camera.limit) = true).
Proof.
  split; [vm_compute; reflexivity | ].
  intros [H _]. vm_compute in H. discriminate.
Qed.

(* ================================================================== *)
(** * The monad and the window procedure *)
(* ================================================================== *)


Section MonadFacts.

Lemma wp_ret {A} (a : A) (Q : A -> World -> Prop) (w : World) :
  Q a w -> wp (ret a) Q w.
Proof. intros H. exact H. Qed.

Lemma wp_bind {A B} (m : M A) (k : A -> M B) (Q : B -> World -> Prop)
    (w : World) :
  wp m (fun a w' => wp (k a) Q w') w -> wp (bind m k) Q w.
Proof.
  unfold wp, bind. destruct (m w) as [a w' | f]; intros H; exact H.
Qed.

Lemma wp_mono {A} (m : M A) (Q Q' : A -> World -> Prop) (w : World) :
  (forall a w', Q a w' -> Q' a w') -> wp m Q w -> wp m Q' w.
Proof.
  unfold wp. intros HQ. destruct (m w) as [a w' | f]; auto.
Qed.

Lemma stable_refl (w : World) : stable w w.
Proof. constructor; intros; reflexivity. Qed.

Lemma stable_trans (w1 w2 w3 : World) :
  stable w1 w2 -> stable w2 w3 -> stable w1 w3.
Proof.
  intros [n1 c1 r1 v1 s1] [n2 c2 r2 v2 s2]. constructor.
  - intros b. rewrite n2. apply n1.
  - congruence.
  - congruence.
  - congruence.
  - congruence.
Qed.

Lemma quiet_ext_refl (w : World) : quiet_ext w w.
Proof. exists []. rewrite app_nil_r. split; [reflexivity | constructor]. Qed.

Lemma quiet_ext_trans (w1 w2 w3 : World) :
  quiet_ext w1 w2 -> quiet_ext w2 w3 -> quiet_ext w1 w3.
Proof.
  intros [e1 [E1 F1]] [e2 [E2 F2]]. exists (e1 ++ e2). split.
  - rewrite E2, E1, app_assoc. reflexivity.
  - apply Forall_app. split; assumption.
Qed.


(** The interaction outputs only move the camera. *)
Lemma deliver_eq (os : list InteractionOutput) (w : World) :
  deliver os w
  = Ok tt (with_camera (fold_left apply_output os (gCamera w)) w).
Proof.
  revert w. induction os as [ | o os IH]; intros w.
  - destruct w; reflexivity.
  - cbn [deliver fold_left]. unfold bind.
    destruct o as [d | ]; cbn [StaticInteractionOutputCallback].
    + unfold modify_camera. rewrite IH. reflexivity.
    + unfold ret. rewrite IH. reflexivity.
Qed.

End MonadFacts.

Section WindowProcFacts.

Lemma on_WM_SIZE_wp (lParam : Z) (w : World) :
  flag_ok w ->
  wp (on_WM_SIZE lParam)
     (fun _ w' => flag_ok w' /\ stable w w' /\ quiet_ext w w') w.
Proof.
  intros Hf. unfold on_WM_SIZE.
  destruct ((LOWORD lParam =? 0) || (HIWORD lParam =? 0)).
  - apply wp_ret. auto using stable_refl, quiet_ext_refl.
  - unfold ResizeSwapChain. msimp.
    destruct (Fp.to_u32 _) as [rw | ]; [ | reflexivity]. msimp.
    destruct (Fp.to_u32 _) as [rh | ]; [ | reflexivity]. msimp.
    destruct Hf as [H12 H11]. unfold flag_ok, active.
    destruct (d3d12 (gSettings w)) eqn:E; msimp.
    + destruct (gWorkloadD3D12 w) as [sc | ] eqn:E12;
        [ | exfalso; apply H12; reflexivity ].
      msimp. split; [ | split].
      * split; intros; congruence.
      * stable_tac.
      * quiet_tac.
    + destruct (gWorkloadD3D11 w) as [sc | ] eqn:E11;
        [ | exfalso; apply H11; reflexivity ].
      msimp. split; [ | split].
      * split; intros; congruence.
      * stable_tac.
      * quiet_tac.
Qed.

Lemma select_d3d11_wp (w : World) :
  flag_ok w ->
  wp select_d3d11
     (fun _ w' => flag_ok w' /\ stable w w' /\ quiet_ext w w') w.
Proof.
  intros [H12 H11]. unfold select_d3d11, flag_ok. msimp.
  split; [ | split]; [ | stable_tac | quiet_tac].
  destruct (gWorkloadD3D11 w) eqn:E11; split; intros; try congruence.
  destruct (d3d12 (gSettings w)); [apply H12; reflexivity | ].
  exfalso. apply H11; reflexivity.
Qed.

Lemma select_d3d12_wp (w : World) :
  flag_ok w ->
  wp select_d3d12
     (fun _ w' => flag_ok w' /\ stable w w' /\ quiet_ext w w') w.
Proof.
  intros [H12 H11]. unfold select_d3d12, flag_ok. msimp.
  split; [ | split]; [ | stable_tac | quiet_tac].
  destruct (gWorkloadD3D12 w) eqn:E12; split; intros; try congruence.
  destruct (d3d12 (gSettings w)); [exfalso; apply H12; reflexivity | ].
  apply H11; reflexivity.
Qed.

(** A handler that touches neither the flag nor the workloads. *)
Lemma modify_settings_wp (f : Settings -> Settings) (w : World) :
  flag_ok w ->
  (forall s, d3d12 (f s) = d3d12 s) ->
  (forall s, closeAfterSeconds (f s) = closeAfterSeconds s) ->
  (forall s, lockedFrameRate (f s) = lockedFrameRate s) ->
  (forall s, statsCsvFileName (f s) = statsCsvFileName s) ->
  (forall s, statsSummaryCsvFileName (f s) = statsSummaryCsvFileName s) ->
  wp (modify_settings f)
     (fun _ w' => flag_ok w' /\ stable w w' /\ quiet_ext w w') w.
Proof.
  intros Hf H1 H2 H3 H4 H5. unfold flag_ok in *. msimp.
  rewrite H1. split; [exact Hf | split].
  - constructor; world_cbn; auto. intros [ | ]; reflexivity.
  - quiet_tac.
Qed.

Lemma modify_camera_wp (f : OrbitCamera -> OrbitCamera) (w : World) :
  flag_ok w ->
  wp (modify_camera f)
     (fun _ w' => flag_ok w' /\ stable w w' /\ quiet_ext w w') w.
Proof.
  intros Hf. unfold flag_ok in *. msimp.
  split; [exact Hf | split]; [stable_tac | quiet_tac].
Qed.

Lemma emit_quiet_wp (e : Event) (w : World) :
  flag_ok w -> quiet e = true ->
  wp (emit e)
     (fun _ w' => flag_ok w' /\ stable w w' /\ quiet_ext w w') w.
Proof.
  intros Hf Hq. unfold flag_ok in *. msimp.
  split; [exact Hf | split]; [stable_tac | ].
  exists [e]. split; [reflexivity | ]. constructor; [exact Hq | constructor].
Qed.

Lemma deliver_wp (os : list InteractionOutput) (w : World) :
  flag_ok w ->
  wp (deliver os)
     (fun _ w' => flag_ok w' /\ stable w w' /\ quiet_ext w w') w.
Proof.
  intros Hf. unfold wp. rewrite deliver_eq. unfold flag_ok in *. world_cbn.
  split; [exact Hf | split]; [stable_tac | quiet_tac].
Qed.

(** Sequencing two steps that keep the three facts. *)
Lemma seq_wp {A B} (m : M A) (k : A -> M B) (w : World) :
  wp m (fun _ w' => flag_ok w' /\ stable w w' /\ quiet_ext w w') w ->
  (forall a w', flag_ok w' ->
     wp (k a) (fun _ w'' => flag_ok w'' /\ stable w' w'' /\ quiet_ext w' w'') w') ->
  wp (bind m k) (fun _ w' => flag_ok w' /\ stable w w' /\ quiet_ext w w') w.
Proof.
  intros Hm Hk. apply wp_bind. revert Hm. apply wp_mono.
  intros a w' [Hf [Hs Hq]]. generalize (Hk a w' Hf). apply wp_mono.
  intros b w'' [Hf' [Hs' Hq']].
  split; [exact Hf' | split].
  - eapply stable_trans; eassumption.
  - eapply quiet_ext_trans; eassumption.
Qed.

Lemma ret_wp {A} (a : A) (w : World) :
  flag_ok w ->
  wp (ret a) (fun _ w' => flag_ok w' /\ stable w w' /\ quiet_ext w w') w.
Proof.
  intros Hf. apply wp_ret. auto using stable_refl, quiet_ext_refl.
Qed.

Lemma on_pointer_wp (down up : bool) (p : PointerInput) (w : World) :
  flag_ok w ->
  wp (on_pointer down up p)
     (fun _ w' => flag_ok w' /\ stable w w' /\ quiet_ext w w') w.
Proof.
  intros Hf. unfold on_pointer.
  destruct (GetPointerInfo p); [ | apply ret_wp; exact Hf].
  apply seq_wp.
  - destruct down; [ | apply ret_wp; exact Hf].
    destruct (HitTest p) as [[ | | ] | ].
    + apply modify_settings_wp; auto.
    + apply select_d3d12_wp; exact Hf.
    + apply select_d3d11_wp; exact Hf.
    + apply emit_quiet_wp; auto.
  - intros _ w1 Hf1. apply seq_wp; [apply emit_quiet_wp; auto | ].
    intros _ w2 Hf2. apply seq_wp; [apply deliver_wp; exact Hf2 | ].
    intros _ w3 Hf3. destruct up.
    + apply emit_quiet_wp; auto.
    + apply ret_wp; exact Hf3.
Qed.

Lemma on_WM_KEYDOWN_wp (wParam lParam : Z) (w : World) :
  flag_ok w ->
  wp (on_WM_KEYDOWN wParam lParam)
     (fun _ w' => flag_ok w' /\ stable w w' /\ quiet_ext w w') w.
Proof.
  intros Hf. unfold on_WM_KEYDOWN.
  repeat match goal with
         | |- context [if ?c then _ else _] => destruct c
         end;
    try (apply ret_wp; exact Hf);
    try (apply modify_settings_wp; auto; fail);
    try (apply select_d3d11_wp; exact Hf);
    try (apply select_d3d12_wp; exact Hf);
    try (apply emit_quiet_wp; auto).
Qed.

(** Every message leaves the flag on a constructed workload, leaves the
    stable part of the state alone, and makes quiet calls only. *)
Lemma WindowProc_wp (m : Msg) (w : World) :
  flag_ok w ->
  wp (WindowProc m)
     (fun _ w' => flag_ok w' /\ stable w w' /\ quiet_ext w w') w.
Proof.
  intros Hf. destruct m; cbn [WindowProc].
  - apply emit_quiet_wp; auto.
  - apply on_WM_SIZE_wp; exact Hf.
  - apply on_WM_KEYDOWN_wp; exact Hf.
  - unfold on_WM_SYSKEYDOWN.
    destruct (Z.testbit lParam 30); [apply ret_wp; exact Hf | ].
    destruct (wParam =? VK_RETURN);
      [apply emit_quiet_wp; auto | apply ret_wp; exact Hf].
  - apply modify_camera_wp; exact Hf.
  - apply on_pointer_wp; exact Hf.
  - apply on_pointer_wp; exact Hf.
  - apply on_pointer_wp; exact Hf.
  - apply emit_quiet_wp; auto.
  - apply emit_quiet_wp; auto.
Qed.

End WindowProcFacts.

(* ================================================================== *)
(** * One iteration of the loop *)
(* ================================================================== *)

Section TickFacts.

(** The message loop: with no [WM_QUIT] it falls through after quiet
    calls only; with one it returns. *)
Lemma drain_wp (ms : list Msg) (w : World) :
  flag_ok w ->
  wp (drain ms)
     (fun q w' =>
        flag_ok w' /\ stable w w' /\
        match q with
        | None => quiet_ext w w' /\ quit_free ms = true
        | Some _ => quit_free ms = false
        end) w.
Proof.
  revert w. induction ms as [ | m ms IH]; intros w Hf.
  - apply wp_ret. auto using stable_refl, quiet_ext_refl.
  - assert (Hstep :
      wp (WindowProc m ;;; drain ms)
         (fun q w' =>
            flag_ok w' /\ stable w w' /\
            match q with
            | None => quiet_ext w w' /\ quit_free ms = true
            | Some _ => quit_free ms = false
            end) w).
    { apply wp_bind. generalize (WindowProc_wp m w Hf). apply wp_mono.
      intros _ w1 [Hf1 [Hs1 Hq1]]. generalize (IH w1 Hf1). apply wp_mono.
      intros q w2 [Hf2 [Hs2 Hq2]].
      split; [exact Hf2 | split].
      - eapply stable_trans; eassumption.
      - destruct q; [exact Hq2 | ].
        destruct Hq2 as [Hq2 Hfree]. split; [ | exact Hfree].
        eapply quiet_ext_trans; eassumption. }
    destruct m; cbn [drain quit_free forallb is_quit negb andb];
      try exact Hstep.
    unfold flag_ok in *. msimp.
    split; [exact Hf | split]; [stable_tac | reflexivity].
Qed.

Lemma frame_wp (flag : bool) (l : Loop) (i : TickInput) (w : World) :
  flag_ok w ->
  gWorkload (backend_of flag) w <> None ->
  wp (frame flag l i)
     (fun lr w' => frame_post flag l i w (fst lr) (snd lr) w') w.
Proof.
  destruct w as [s cam w11 w12 cs]. unfold flag_ok. world_cbn.
  intros [H12 H11] Hflag.
  unfold frame, switch_backend, ReleaseSwapChain, ResizeSwapChain,
    WaitForReadyToRender, Render, pace, finish.
  destruct flag, (d3d12 s) eqn:E, w11 as [sc11 | ], w12 as [sc12 | ];
    cbn [Bool.eqb] in *; msimp;
    try (exfalso; apply Hflag; reflexivity);
    try (exfalso; apply H12; reflexivity);
    try (exfalso; apply H11; reflexivity);
    repeat (progress (msimp; cbn [Bool.eqb]; rewrite ?E, ?deliver_eq)).
  all: destruct (lockFrameRate s) eqn:EL;
    [ destruct (pacing (lockedFrameRate s) _) eqn:EP | ]; msimp;
    try reflexivity;
    destruct (closing s (advance s l (count i))) eqn:EC; msimp;
    (constructor; world_cbn;
     [ reflexivity
     | rewrite EC; reflexivity
     | reflexivity
     | unfold frame_calls, switch_calls, wait_calls, pace_calls,
         finish_calls, render_call;
       rewrite ?E, ?EL, ?EP, ?EC; cbn [Bool.eqb backend_of app];
       repeat rewrite <- app_assoc; reflexivity
     | stable_tac
     | unfold active; world_cbn; rewrite ?E; world_cbn; cbn [Bool.eqb];
       intros; try discriminate; split; reflexivity
     | unfold active; world_cbn; rewrite ?E; world_cbn; cbn [Bool.eqb];
       intros; try discriminate; split; reflexivity
     | rewrite ?EP; intros; congruence ]).
Qed.

End TickFacts.

Section RunFacts.

Lemma flag_ok_stable (w w' : World) :
  flag_ok w -> stable w w' ->
  d3d12 (gSettings w') = d3d12 (gSettings w) -> flag_ok w'.
Proof.
  intros [H12 H11] Hs E. unfold flag_ok. rewrite E. split; intros H.
  - intros N. apply (st_null _ _ Hs D3D12) in N. exact (H12 H N).
  - intros N. apply (st_null _ _ Hs D3D11) in N. exact (H11 H N).
Qed.

Lemma flag_ok_workload (w : World) :
  flag_ok w -> gWorkload (backend_of (d3d12 (gSettings w))) w <> None.
Proof.
  intros [H12 H11]. destruct (d3d12 (gSettings w)); cbn [backend_of gWorkload].
  - apply H12; reflexivity.
  - apply H11; reflexivity.
Qed.

Lemma tick_wp (l : Loop) (i : TickInput) (w : World) :
  flag_ok w ->
  wp (tick l i) (fun lr w' => tick_post l i w (fst lr) (snd lr) w') w.
Proof.
  intros Hf. unfold tick, wp, bind, settings.
  pose proof (drain_wp (msgs i) w Hf) as Hd. unfold wp in Hd.
  destruct (drain (msgs i) w) as [[code | ] w1 | f] eqn:ED;
    [ | | exact Hd ].
  - destruct Hd as [Hf1 [Hs1 Hq]]. unfold ret, tick_post. cbn [fst snd].
    rewrite Hq.
    split; [reflexivity | split]; [exists code; reflexivity | auto].
  - destruct Hd as [Hf1 [Hs1 [Hq Hfree]]].
    assert (Hold : gWorkload (backend_of (d3d12 (gSettings w))) w1 <> None).
    { intros N. apply (st_null _ _ Hs1) in N.
      exact (flag_ok_workload w Hf N). }
    pose proof (frame_wp (d3d12 (gSettings w)) l i w1 Hf1 Hold) as Hfr.
    unfold wp in Hfr.
    destruct (frame (d3d12 (gSettings w)) l i w1) as [[l' r] w' | f];
      [ | exact Hfr ].
    cbn [fst snd] in *. unfold tick_post. rewrite Hfree.
    exists w1. auto.
Qed.

(** After an iteration that completed its frame the flag still selects a
    constructed workload. *)
Lemma tick_post_flag_ok (l : Loop) (i : TickInput) (w : World)
    (l' : Loop) (r : option Z) (w' : World) :
  tick_post l i w l' r w' -> flag_ok w'.
Proof.
  unfold tick_post. destruct (quit_free (msgs i)).
  - intros [w1 [_ [Hf1 [_ [_ Hp]]]]].
    apply (flag_ok_stable w1 w' Hf1 (fp_stable _ _ _ _ _ _ _ Hp)).
    rewrite (fp_settings _ _ _ _ _ _ _ Hp). reflexivity.
  - intros [_ [_ [Hf' _]]]. exact Hf'.
Qed.

Lemma run_flag_ok (ticks : list TickInput) (l : Loop) (w : World) :
  flag_ok w ->
  match run l ticks w with
  | Running _ w' | Returned _ w' => flag_ok w'
  | Undefined f => f = UndefinedConversion
  end.
Proof.
  revert l w. induction ticks as [ | i ticks IH]; intros l w Hf.
  - exact Hf.
  - cbn [run]. generalize (tick_wp l i w Hf). unfold wp.
    destruct (tick l i w) as [[l' r] w' | f]; [ | intros H; exact H].
    cbn [fst snd]. intros Hp.
    pose proof (tick_post_flag_ok _ _ _ _ _ _ Hp) as Hf'.
    destruct r as [code | ]; [exact Hf' | apply IH; exact Hf'].
Qed.

Lemma dispatch_wp (ms : list Msg) (w : World) :
  flag_ok w ->
  wp (dispatch ms)
     (fun _ w' => flag_ok w' /\ stable w w' /\ quiet_ext w w') w.
Proof.
  revert w. induction ms as [ | m ms IH]; intros w Hf.
  - apply ret_wp; exact Hf.
  - cbn [dispatch]. apply seq_wp.
    + apply WindowProc_wp; exact Hf.
    + intros _ w1 Hf1. apply IH; exact Hf1.
Qed.

(** The start of [main]: -1 when no backend can be used, otherwise a state
    whose flag selects a constructed workload, reached by quiet calls. *)
Lemma startup_spec (p : Startup) :
  match startup p with
  | inl code => code = -1
  | inr (Stuck f) => f = UndefinedConversion
  | inr (Ok _ w0) =>
      flag_ok w0 /\ Forall (fun e => quiet e = true) (calls w0)
  end.
Proof.
  unfold startup.
  destruct (negb (d3d11Available p) && negb (d3d12Available p)) eqn:E1;
    [reflexivity | ].
  destruct (d3d12Available p && warp (settings0 p) && negb (warpAdapter p));
    [reflexivity | ].
  set (w0 := mkWorld _ _ _ _ _).
  assert (Hsel : wp select_d3d12 (fun _ w' => flag_ok w' /\ calls w' = []) w0).
  { unfold select_d3d12, flag_ok, w0. msimp. split; [ | reflexivity].
    destruct (d3d11Available p), (d3d12Available p);
      try discriminate; split; intros; congruence. }
  assert (H : wp (select_d3d12 ;;;
                  dispatch (creationMsgs p) ;;;
                  modify_settings (fun s =>
                    set_statsCsvFileName
                      (default_name (statsCsvFileName s)
                         "asteroid_summary_stats.csv") s) ;;;
                  modify_settings (fun s =>
                    set_statsSummaryCsvFileName
                      (default_name (statsSummaryCsvFileName s)
                         "asteroid_stats.csv") s))
                 (fun _ w' => flag_ok w' /\
                              Forall (fun e => quiet e = true) (calls w')) w0).
  { apply wp_bind. revert Hsel. apply wp_mono. intros _ w1 [Hf1 Hc1].
    apply wp_bind. generalize (dispatch_wp (creationMsgs p) w1 Hf1).
    apply wp_mono. intros _ w2 [Hf2 [_ [evs [Hc2 Hq]]]].
    unfold flag_ok in *. msimp. split; [exact Hf2 | ].
    rewrite Hc2, Hc1. exact Hq. }
  exact H.
Qed.

Lemma startup_flag_ok (p : Startup) :
  match startup p with
  | inl code => code = -1
  | inr (Stuck f) => f = UndefinedConversion
  | inr (Ok _ w0) => flag_ok w0
  end.
Proof.
  pose proof (startup_spec p) as H.
  destruct (startup p) as [code | [a w0 | f]]; try exact H.
  exact (proj1 H).
Qed.

End RunFacts.

(** C9.  Every message handled by the window procedure leaves the
    active-backend flag on a workload that was constructed: D3D12 only
    when [gWorkloadD3D12] is not null, D3D11 only when [gWorkloadD3D11] is
    not null; so does the start of [main], which returns -1 when neither
    backend is available.  Consequently no iteration of the loop calls
    through a null workload pointer, neither in the backend switch nor in
    the render dispatch: a run stops early only on [WM_QUIT], on the
    close-after duration, or on an undefined number conversion. *)
Theorem active_backend_constructed :
  (forall (m : Msg) (w : World),
      flag_ok w ->
      match WindowProc m w with
      | Ok _ w' => flag_ok w'
      | Stuck f => f = UndefinedConversion
      end) /\
  (forall (p : Startup) (freq count0 : Z) (ticks : list TickInput),
      match startup p with
      | inl code => code = -1
      | inr (Stuck f) => f = UndefinedConversion
      | inr (Ok _ w0) =>
          flag_ok w0 /\
          match run (loop_init freq count0) ticks w0 with
          | Running _ w | Returned _ w => flag_ok w
          | Undefined f => f = UndefinedConversion
          end
      end).
Proof.
  split.
  - intros m w Hf. generalize (WindowProc_wp m w Hf). unfold wp.
    destruct (WindowProc m w) as [a w' | f]; [ | intros H; exact H].
    intros [H _]. exact H.
  - intros p freq count0 ticks. generalize (startup_flag_ok p).
    destruct (startup p) as [code | [a w0 | f]]; intros H; try exact H.
    split; [exact H | ]. apply run_flag_ok. exact H.
Qed.

(** Key '1' pressed while D3D12 is active and both workloads exist: the
    flag moves to D3D11, whose workload exists. *)
Lemma active_backend_constructed_witness :
  flag_ok scenario_world /\
  match WindowProc (WM_KEYDOWN key_1 0) scenario_world with
  | Ok _ w' => flag_ok w'
  | Stuck f => f = UndefinedConversion
  end.
Proof.
  assert (H : flag_ok scenario_world).
  { split; intros _; discriminate. }
  split; [exact H | ].
  exact (proj1 active_backend_constructed (WM_KEYDOWN key_1 0) scenario_world H).
Defined.

(** C10.  A [WM_SIZE] whose width or height is zero returns at once: the
    settings (window and render resolution included), the camera with its
    projection, both workloads with their swap chains, and the record of
    calls are exactly what they were. *)
Theorem resize_to_minimized_ignored (lParam : Z) (w : World) :
  LOWORD lParam = 0 \/ HIWORD lParam = 0 ->
  WindowProc (WM_SIZE lParam) w = Ok tt w.
Proof.
  intros H. cbn [WindowProc]. unfold on_WM_SIZE.
  destruct H as [H | H]; rewrite H; cbn [Z.eqb orb].
  - reflexivity.
  - rewrite orb_true_r. reflexivity.
Qed.

(** Width 0 with height 600, as a minimized window reports. *)
Lemma resize_to_minimized_ignored_witness :
  (LOWORD 39321600 = 0 \/ HIWORD 39321600 = 0) /\
  WindowProc (WM_SIZE 39321600) scenario_world = Ok tt scenario_world.
Proof.
  assert (H : LOWORD 39321600 = 0 \/ HIWORD 39321600 = 0)
    by (left; reflexivity).
  split; [exact H | ].
  exact (resize_to_minimized_ignored 39321600 scenario_world H).
Defined.

(* ================================================================== *)
(** * The backend switch *)
(* ================================================================== *)

Section SwitchFacts.

Lemma replay_app (xs ys : list Event) :
  replay (xs ++ ys) = fold_left observe ys (replay xs).
Proof. unfold replay. apply fold_left_app. Qed.

Lemma released_mark_false (b b' : Backend) (r : bool * bool) :
  released b' (mark b false r) = true -> released b' r = true.
Proof.
  destruct r as [r1 r2], b, b'; cbn [released mark fst snd]; intros H;
    try discriminate; exact H.
Qed.

(** The calls of the window procedure release nothing. *)
Lemma observe_quiet (evs : list Event) (r : bool * bool) :
  Forall (fun e => quiet e = true) evs ->
  exists r', fold_left observe evs (Some r) = Some r' /\
             forall b, released b r' = true -> released b r = true.
Proof.
  revert r. induction evs as [ | e evs IH]; intros r H.
  - exists r. split; [reflexivity | auto].
  - inversion H as [ | e' evs' He Hevs]; subst.
    destruct e; try discriminate He; cbn [fold_left observe];
      try (apply IH; exact Hevs).
    destruct (IH (mark b false r) Hevs) as [r' [E Hr']].
    exists r'. split; [exact E | ].
    intros b' Hb'. apply (released_mark_false b b' r). apply Hr'. exact Hb'.
Qed.

(** The calls of a frame never draw to a released swap chain, and leave
    the swap chain of the selected backend unreleased. *)
Lemma observe_frame (flag : bool) (s : Settings) (l : Loop) (i : TickInput)
    (r : bool * bool) :
  (Bool.eqb flag (d3d12 s) = true ->
   released (backend_of (d3d12 s)) r = false) ->
  exists r', fold_left observe (frame_calls flag s l i) (Some r) = Some r' /\
             released (backend_of (d3d12 s)) r' = false.
Proof.
  unfold frame_calls, switch_calls, wait_calls, pace_calls, finish_calls,
    render_call.
  destruct r as [r1 r2].
  destruct flag, (d3d12 s); cbn [Bool.eqb backend_of released fst snd];
    intros H; try rewrite (H eq_refl);
    destruct (lockFrameRate s);
    try destruct (pacing _ _);
    destruct (closing s _);
    cbn [app fold_left observe released mark fst snd backend_of];
    try rewrite (H eq_refl);
    eexists; split; reflexivity.
Qed.

Lemma frame_calls_shape (flag : bool) (s : Settings) (l : Loop)
    (i : TickInput) :
  exists mid post,
    frame_calls flag s l i
    = switch_calls flag s ++ mid
      ++ [render_call s (advance s l (count i))] ++ post /\
    Forall (fun e => touches_swap_chain e = false) (mid ++ post).
Proof.
  unfold frame_calls.
  exists ([E_ProcessInertia] ++ wait_calls s).
  exists (pace_calls s (advance s l (count i)) i
          ++ finish_calls s (advance s l (count i))).
  split.
  - rewrite <- !app_assoc. reflexivity.
  - unfold wait_calls, pace_calls, finish_calls.
    destruct (d3d12 s), (lockFrameRate s);
      try destruct (pacing _ _);
      destruct (closing s _); cbn [app]; repeat constructor.
Qed.

(** An iteration that meets no [WM_QUIT] ends in a state from which the
    next one can start. *)
Lemma tick_ready_step (l : Loop) (i : TickInput) (w : World)
    (l' : Loop) (r : option Z) (w' : World) :
  tick_ready w ->
  quit_free (msgs i) = true ->
  tick_post l i w l' r w' ->
  tick_ready w'.
Proof.
  intros [Hf [r0 [Hrep Hrel]]] Hfree Ht.
  pose proof (tick_post_flag_ok _ _ _ _ _ _ Ht) as Hf'.
  unfold tick_post in Ht. rewrite Hfree in Ht.
  destruct Ht as [w1 [_ [Hf1 [Hs1 [[evs [Hcalls Hquiet]] Hp]]]]].
  destruct Hp as [Hloc Hres Hset Hcs Hst Hsw Hkept Hpaced].
  assert (Hact : active w' = active w1)
    by (unfold active; rewrite Hset; reflexivity).
  split; [exact Hf' | ].
  destruct (observe_quiet evs r0 Hquiet) as [r1 [E1 Hle]].
  assert (Hcond : Bool.eqb (d3d12 (gSettings w)) (d3d12 (gSettings w1)) = true ->
                  released (backend_of (d3d12 (gSettings w1))) r1 = false).
  { intros Heq. apply Bool.eqb_prop in Heq.
    destruct (released (backend_of (d3d12 (gSettings w1))) r1) eqn:ER;
      [ | reflexivity].
    apply Hle in ER. rewrite <- Heq in ER. unfold active in Hrel.
    congruence. }
  destruct (observe_frame (d3d12 (gSettings w)) (gSettings w1) l i r1 Hcond)
    as [r2 [E2 Hr2]].
  exists r2. split.
  - rewrite Hcs, Hcalls, !replay_app, Hrep, E1. exact E2.
  - rewrite Hact. exact Hr2.
Qed.

(** Every state in which a run starts an iteration is ready for it, from
    any ready state on. *)
Lemma run_ready (ticks : list TickInput) :
  forall (l : Loop) (w : World),
    tick_ready w ->
    match run l ticks w with
    | Running _ w' => tick_ready w'
    | Returned _ _ => True
    | Undefined f => f = UndefinedConversion
    end.
Proof.
  induction ticks as [ | i ticks IH]; intros l w Hr.
  - exact Hr.
  - cbn [run]. pose proof (tick_wp l i w (proj1 Hr)) as Ht. unfold wp in Ht.
    destruct (tick l i w) as [[l' r] w' | f] eqn:ET; [ | exact Ht].
    cbn [fst snd] in Ht. destruct r as [code | ]; [exact I | ].
    destruct (quit_free (msgs i)) eqn:Hfree.
    + apply IH. exact (tick_ready_step l i w l' None w' Hr Hfree Ht).
    + unfold tick_post in Ht. rewrite Hfree in Ht.
      destruct Ht as [_ [[code Hc] _]]. discriminate Hc.
Qed.

(** The loop starts in a ready state: the start of [main] selects a
    constructed backend and releases nothing. *)
Lemma startup_ready (p : Startup) :
  match startup p with
  | inl code => code = -1
  | inr (Stuck f) => f = UndefinedConversion
  | inr (Ok _ w0) => tick_ready w0
  end.
Proof.
  pose proof (startup_spec p) as H.
  destruct (startup p) as [code | [a w0 | f]]; try exact H.
  destruct H as [Hf Hq]. split; [exact Hf | ].
  destruct (observe_quiet (calls w0) (false, false) Hq) as [r [E Hle]].
  exists r. split; [exact E | ].
  destruct (released (active w0) r) eqn:ER; [ | reflexivity].
  apply Hle in ER. destruct (active w0); discriminate ER.
Qed.

End SwitchFacts.

(** C4.  In an iteration of the loop that meets no [WM_QUIT], started with
    the flag on a constructed workload whose swap chain is not a released
    one: the window procedure's calls come first; when the flag after the
    message loop differs from its value before, the swap chain of the
    backend active before is released and then the swap chain of the newly
    active backend is (re)created at the render resolution of the settings,
    and only then, after calls that touch no swap chain, comes the single
    render call of the iteration, to the newly active backend.  Read from
    the start, the record of calls never shows a render call to a backend
    whose swap chain was released and not re-created, and the iteration
    ends in a state from which the next one can start. *)
Theorem backend_switch_before_render (l : Loop) (i : TickInput) (w : World) :
  tick_ready w ->
  quit_free (msgs i) = true ->
  match tick l i w with
  | Stuck f => f = UndefinedConversion
  | Ok (l', r) w' =>
      tick_ready w' /\
      exists drained mid post,
        calls w'
        = calls w ++ drained
          ++ (if Bool.eqb (d3d12 (gSettings w)) (d3d12 (gSettings w')) then []
              else [E_ReleaseSwapChain (active w);
                    E_ResizeSwapChain (active w')
                      (renderWidth (gSettings w'))
                      (renderHeight (gSettings w'))])
          ++ mid ++ [E_Render (active w') (F32.of_double (frameTime l'))]
          ++ post /\
        Forall (fun e => quiet e = true) drained /\
        Forall (fun e => touches_swap_chain e = false) (mid ++ post) /\
        (Bool.eqb (d3d12 (gSettings w)) (d3d12 (gSettings w')) = false ->
         gWorkload (active w) w' = Some Released /\
         gWorkload (active w') w'
         = Some (Live (renderWidth (gSettings w'))
                      (renderHeight (gSettings w'))))
  end.
Proof.
  intros Hr Hfree.
  pose proof (tick_wp l i w (proj1 Hr)) as Ht. unfold wp in Ht.
  destruct (tick l i w) as [[l' r] w' | f]; [ | exact Ht].
  cbn [fst snd] in Ht.
  split; [exact (tick_ready_step l i w l' r w' Hr Hfree Ht) | ].
  unfold tick_post in Ht. rewrite Hfree in Ht.
  destruct Ht as [w1 [_ [Hf1 [Hs1 [[evs [Hcalls Hquiet]] Hp]]]]].
  destruct Hp as [Hloc Hres Hset Hcs Hst Hsw Hkept Hpaced].
  assert (Hact : active w' = active w1)
    by (unfold active; rewrite Hset; reflexivity).
  destruct (frame_calls_shape (d3d12 (gSettings w)) (gSettings w1) l i)
    as [mid [post [Hshape Htouch]]].
  exists evs, mid, post. rewrite Hset, Hact.
  split; [ | split; [exact Hquiet | split; [exact Htouch | exact Hsw]]].
  rewrite Hcs, Hcalls, Hshape, <- Hloc. unfold switch_calls, render_call, active.
  rewrite <- !app_assoc. reflexivity.
Qed.

(** Key '1' pressed while D3D12 is active: D3D12's swap chain is released,
    D3D11's is created at 800 by 600, then the frame is rendered by
    D3D11. *)
Lemma backend_switch_before_render_witness :
  tick_ready scenario_world /\
  exists l' r w',
    tick (loop_init 1000 0) (mkTick [WM_KEYDOWN key_1 0] [] 16 16) scenario_world
    = Ok (l', r) w' /\
    tick_ready w' /\
    gWorkload D3D12 w' = Some Released /\
    gWorkload D3D11 w' = Some (Live 800 600).
Proof.
  assert (H : tick_ready scenario_world).
  { split; [split; intros _; discriminate | ].
    exists (false, false). split; reflexivity. }
  split; [exact H | ].
  pose proof (backend_switch_before_render (loop_init 1000 0)
                (mkTick [WM_KEYDOWN key_1 0] [] 16 16) scenario_world H eq_refl)
    as T.
  destruct (tick (loop_init 1000 0) (mkTick [WM_KEYDOWN key_1 0] [] 16 16)
              scenario_world) as [[l' r] w' | f] eqn:E.
  - exists l', r, w'. split; [reflexivity | ].
    destruct T as [T1 [drained [mid [post [_ [_ [_ T2]]]]]]].
    split; [exact T1 | ].
    assert (Ew : d3d12 (gSettings w') = false /\ active w' = D3D11 /\
                 renderWidth (gSettings w') = 800 /\
                 renderHeight (gSettings w') = 600).
    { vm_compute in E. inversion E. repeat split; reflexivity. }
    destruct Ew as [Ed [Ea [Ewd Eht]]]. rewrite Ea, Ed, Ewd, Eht in T2.
    exact (T2 eq_refl).
  - vm_compute in E. discriminate E.
Defined.

(* ================================================================== *)
(** * Time, smoothing, pacing and statistics *)
(* ================================================================== *)

Section AdvanceFacts.

Variables (s : Settings) (l : Loop) (c : Z).


Lemma advance_frameTime :
  frameTime (advance s l c) = smooth (counter_seconds (perfCounterFreq l) (lastPerfCount l) c)
      (frameTime l).
Proof.
  unfold advance, collect_stats, measure, set_currentFPS. loop_cbn.
  destruct (Fp.gtb (closeAfterSeconds s) (F64.of_Z 0)); [ | reflexivity].
  destruct (Fp.geb _ _); reflexivity.
Qed.


Lemma advance_perfCounterFreq :
  perfCounterFreq (advance s l c) = perfCounterFreq l.
Proof.
  unfold advance, collect_stats, measure, set_currentFPS. loop_cbn.
  destruct (Fp.gtb (closeAfterSeconds s) (F64.of_Z 0)); [ | reflexivity].
  destruct (Fp.geb _ _); reflexivity.
Qed.

Lemma advance_currentFPS :
  currentFPS (advance s l c)
  = update_fps (lockFrameRate s) (smooth (counter_seconds (perfCounterFreq l) (lastPerfCount l) c)
      (frameTime l)) (currentFPS l).
Proof.
  unfold advance, collect_stats, measure, set_currentFPS. loop_cbn.
  destruct (Fp.gtb (closeAfterSeconds s) (F64.of_Z 0)); [ | reflexivity].
  destruct (Fp.geb _ _); reflexivity.
Qed.

(** The statistics block, when no close-after duration is configured. *)
Lemma advance_idle :
  Fp.gtb (closeAfterSeconds s) (F64.of_Z 0) = false ->
  fpsHistoryVector (advance s l c) = fpsHistoryVector l /\
  timeInterval (advance s l c) = timeInterval l /\
  numFrames (advance s l c) = numFrames l /\
  sumFPS (advance s l c) = sumFPS l.
Proof.
  intros H. unfold advance, collect_stats, measure, set_currentFPS. loop_cbn.
  rewrite H. loop_cbn. repeat split.
Qed.

(** The time series, when one is. *)
Lemma advance_series :
  Fp.gtb (closeAfterSeconds s) (F64.of_Z 0) = true ->
  let acc := F64.add (timeInterval l) 
      (F64.mul (counter_seconds (perfCounterFreq l) (lastPerfCount l) c)
         ms_1000f) in
  if Fp.geb acc (F64.of_Z 1000) then
    fpsHistoryVector (advance s l c)
    = fpsHistoryVector l
      ++ [(elapsedTime (advance s l c),
           F64.mul (frameTime (advance s l c)) ms_1000f,
           F64.mul (counter_seconds (perfCounterFreq l) (lastPerfCount l) c)
             ms_1000f)] /\
    timeInterval (advance s l c) = F64.of_Z 0
  else
    fpsHistoryVector (advance s l c) = fpsHistoryVector l /\
    timeInterval (advance s l c) = acc.
Proof.
  intros H. unfold advance, collect_stats, measure, set_currentFPS. loop_cbn.
  rewrite H. cbv zeta.
  destruct (Fp.geb _ _); loop_cbn; split; reflexivity.
Qed.

End AdvanceFacts.

Section ConstantFacts.

Lemma alpha_value : alpha = S754_finite false 7205759511166976 (-55).
Proof. vm_compute. reflexivity. Qed.

Lemma one_minus_alpha_value :
  F64.sub (F64.of_float (F32.of_Z 1)) alpha
  = S754_finite false 7205759376949248 (-53).
Proof. vm_compute. reflexivity. Qed.

End ConstantFacts.

(** C7, as the code has it.  After an iteration with raw frame time [r]
    and previous smoothed frame time [s] the smoothed frame time is
    [a * r + b * s] evaluated in double, where [a] is the single-precision
    constant [0.2f] widened to double, exactly 13421773 / 2^26 (about
    0.2000000030), and [b = 1.0f - a] is exactly 53687091 / 2^26 (about
    0.7999999970): the weights are those of a float literal, not 1/5 and
    4/5. *)
Theorem frame_time_smoothing (l : Loop) (i : TickInput) (w : World) :
  flag_ok w ->
  quit_free (msgs i) = true ->
  match tick l i w with
  | Stuck f => f = UndefinedConversion
  | Ok (l', _) _ =>
      let r := counter_seconds (perfCounterFreq l) (lastPerfCount l) (count i) in
      let a := S754_finite false 7205759511166976 (-55) in
      let b := S754_finite false 7205759376949248 (-53) in
      frameTime l' = F64.add (F64.mul a r) (F64.mul b (frameTime l)) /\
      a = F64.of_float (F32.lit 2 10) /\
      b = F64.sub (F64.of_Z 1) a /\
      (exists q, exact_value a = Some q /\ same_fraction q (13421773, 67108864)) /\
      (exists q, exact_value b = Some q /\ same_fraction q (53687091, 67108864))
  end.
Proof.
  intros Hf Hfree.
  pose proof (tick_wp l i w Hf) as Ht. unfold wp in Ht.
  destruct (tick l i w) as [[l' r] w' | f]; [ | exact Ht].
  cbn [fst snd] in Ht. unfold tick_post in Ht. rewrite Hfree in Ht.
  destruct Ht as [w1 [_ [_ [_ [_ Hp]]]]].
  cbv zeta. split; [ | split; [ | split; [ | split]]].
  - rewrite (fp_locals _ _ _ _ _ _ _ Hp), advance_frameTime.
    unfold smooth. rewrite one_minus_alpha_value, alpha_value. reflexivity.
  - vm_compute. reflexivity.
  - vm_compute. reflexivity.
  - eexists. split; [reflexivity | ]. vm_compute. reflexivity.
  - eexists. split; [reflexivity | ]. vm_compute. reflexivity.
Qed.

Lemma frame_time_smoothing_witness :
  flag_ok scenario_world /\
  exists l' r w',
    tick (loop_init 1000 0) (mkTick [] [] 1000 1000) scenario_world
    = Ok (l', r) w' /\
    frameTime l'
    = F64.add (F64.mul (S754_finite false 7205759511166976 (-55))
                 (counter_seconds 1000 0 1000))
              (F64.mul (S754_finite false 7205759376949248 (-53)) (F64.of_Z 0)).
Proof.
  assert (H : flag_ok scenario_world) by (split; intros _; discriminate).
  split; [exact H | ].
  pose proof (frame_time_smoothing (loop_init 1000 0) (mkTick [] [] 1000 1000)
                scenario_world H eq_refl) as T.
  destruct (tick (loop_init 1000 0) (mkTick [] [] 1000 1000) scenario_world)
    as [[l' r] w' | f] eqn:E.
  - exists l', r, w'. split; [reflexivity | ]. exact (proj1 T).
  - vm_compute in E. discriminate E.
Defined.

(** C7, as the claim states it, fails: with raw frame time 1 and previous
    smoothed frame time 0 the result is 13421773 / 2^26, which is neither
    the double [0.2 * 1 + 0.8 * 0] nor the rational 1/5. *)
Lemma frame_time_not_one_fifth :
  counter_seconds 1000 0 1000 = F64.of_Z 1 /\
  frameTime (loop_init 1000 0) = F64.of_Z 0 /\
  exists l' r w',
    tick (loop_init 1000 0) (mkTick [] [] 1000 1000) scenario_world
    = Ok (l', r) w' /\
    frameTime l' <> spec_smooth (F64.of_Z 1) (F64.of_Z 0) /\
    exact_value (frameTime l') = Some (7205759511166976, 2 ^ 55) /\
    ~ same_fraction (7205759511166976, 2 ^ 55) (1, 5).
Proof.
  split; [vm_compute; reflexivity | ].
  split; [vm_compute; reflexivity | ].
  destruct (tick (loop_init 1000 0) (mkTick [] [] 1000 1000) scenario_world)
    as [[l' r] w' | f] eqn:E.
  - exists l', r, w'. split; [reflexivity | ].
    vm_compute in E. inversion E.
    split; [vm_compute; discriminate | ].
    split; [vm_compute; reflexivity | ].
    vm_compute. discriminate.
  - vm_compute in E. discriminate E.
Qed.

Section PacingFacts.

Lemma pace_calls_cases (s : Settings) (l : Loop) (i : TickInput) :
  let d := deltaMs (lockedFrameRate s)
             (counter_seconds (perfCounterFreq l) (count i) (afterRenderCount i)) in
  (lockFrameRate s = false -> pace_calls s l i = []) /\
  (lockFrameRate s = true -> Fp.gtb d (F64.of_Z 1) = false ->
   pace_calls s l i = []) /\
  (lockFrameRate s = true -> Fp.gtb d (F64.of_Z 1) = true ->
   forall ms, Fp.to_u32 d = Some ms -> pace_calls s l i = [E_Sleep ms]).
Proof.
  cbv zeta. unfold pace_calls, pacing.
  split; [ | split].
  - intros H. rewrite H. reflexivity.
  - intros H1 H2. rewrite H1, H2. reflexivity.
  - intros H1 H2 ms H3. rewrite H1, H2, H3. reflexivity.
Qed.

Lemma to_u32_trunc (x : double) (z : Z) :
  Fp.to_u32 x = Some z -> Fp.trunc x = Some z /\ 0 <= z < 2 ^ 32.
Proof.
  unfold Fp.to_u32. destruct (Fp.trunc x) as [t | ]; [ | discriminate].
  destruct ((0 <=? t) && (t <? 2 ^ 32)) eqn:E; [ | discriminate].
  intros H. inversion H; subst. split; [reflexivity | ].
  apply andb_prop in E. destruct E as [E1 E2].
  apply Z.leb_le in E1. apply Z.ltb_lt in E2. split; assumption.
Qed.

End PacingFacts.

(** C8, as the code has it.  In an iteration whose render call was made
    with the frame-rate lock engaged, the loop computes
    [deltaMs = (1 / targetFPS - renderTime) * 1000], [renderTime] being the
    seconds from the counter reading taken before the render call to the
    reading taken after it.  When [deltaMs > 1] it calls [Sleep] once,
    right after the render call, with [deltaMs] truncated toward zero to a
    whole number of milliseconds (a [DWORD]); otherwise, and whenever the
    lock is off, it makes no [Sleep] call. *)
Theorem frame_rate_lock_pacing (l : Loop) (i : TickInput) (w : World) :
  flag_ok w ->
  quit_free (msgs i) = true ->
  match tick l i w with
  | Stuck f => f = UndefinedConversion
  | Ok (l', _) w' =>
      let renderTime :=
        counter_seconds (perfCounterFreq l) (count i) (afterRenderCount i) in
      let d :=
        F64.mul (F64.sub (F64.div (F64.of_Z 1)
                            (F64.of_Z (lockedFrameRate (gSettings w'))))
                         renderTime)
                (F64.of_Z 1000) in
      exists before sleeps after,
        calls w'
        = calls w ++ before
          ++ [E_Render (active w') (F32.of_double (frameTime l'))]
          ++ sleeps ++ after /\
        Forall (fun e => is_sleep e = false) (before ++ after) /\
        (lockFrameRate (gSettings w') = false -> sleeps = []) /\
        (lockFrameRate (gSettings w') = true ->
         Fp.gtb d (F64.of_Z 1) = false -> sleeps = []) /\
        (lockFrameRate (gSettings w') = true ->
         Fp.gtb d (F64.of_Z 1) = true ->
         exists ms, Fp.trunc d = Some ms /\ 0 <= ms < 2 ^ 32 /\
                    sleeps = [E_Sleep ms])
  end.
Proof.
  intros Hf Hfree.
  pose proof (tick_wp l i w Hf) as Ht. unfold wp in Ht.
  destruct (tick l i w) as [[l' r] w' | f]; [ | exact Ht].
  cbn [fst snd] in Ht. unfold tick_post in Ht. rewrite Hfree in Ht.
  destruct Ht as [w1 [_ [_ [_ [[evs [Hcalls Hquiet]] Hp]]]]].
  destruct Hp as [Hloc Hres Hset Hcs Hst Hsw Hkept Hpaced].
  cbv zeta. rewrite Hset.
  set (s1 := gSettings w1) in *.
  exists (evs ++ switch_calls (d3d12 (gSettings w)) s1
          ++ [E_ProcessInertia] ++ wait_calls s1).
  exists (pace_calls s1 l' i), (finish_calls s1 l').
  assert (Hfreq : perfCounterFreq l' = perfCounterFreq l)
    by (rewrite Hloc; apply advance_perfCounterFreq).
  destruct (pace_calls_cases s1 l' i) as [P1 [P2 P3]].
  unfold deltaMs in P2, P3. rewrite Hfreq in P2, P3.
  split; [ | split; [ | split; [exact P1 | split; [exact P2 | ]]]].
  - rewrite Hcs, Hcalls. unfold frame_calls, render_call, active.
    rewrite Hset, <- Hloc. fold s1. rewrite <- !app_assoc. reflexivity.
  - rewrite <- !app_assoc. apply Forall_app. split.
    + revert Hquiet. apply Forall_impl. intros e He.
      destruct e; try discriminate He; reflexivity.
    + unfold switch_calls, wait_calls, finish_calls.
      destruct (Bool.eqb _ _), (d3d12 s1), (closing s1 l');
        cbn [app]; repeat constructor.
  - intros HL HD.
    specialize (Hpaced HL). unfold pacing, deltaMs in Hpaced.
    rewrite Hfreq, HD in Hpaced.
    destruct (Fp.to_u32 _) as [ms | ] eqn:EU; [ | congruence].
    destruct (to_u32_trunc _ _ EU) as [T1 T2].
    exists ms. split; [exact T1 | split; [exact T2 | ]].
    apply P3; [assumption | assumption | reflexivity].
Qed.

(** Locked at 60 frames per second with a render that took no measurable
    time: one [Sleep] of 16 ms. *)
Lemma frame_rate_lock_pacing_witness :
  flag_ok locked_world /\
  exists l' r w' before after,
    tick (loop_init 1000 0) (mkTick [] [] 16 16) locked_world = Ok (l', r) w' /\
    calls w'
    = calls locked_world ++ before
      ++ [E_Render D3D12 (F32.of_double (frameTime l'))]
      ++ [E_Sleep 16] ++ after.
Proof.
  assert (H : flag_ok locked_world) by (split; intros _; discriminate).
  split; [exact H | ].
  pose proof (frame_rate_lock_pacing (loop_init 1000 0) (mkTick [] [] 16 16)
                locked_world H eq_refl) as T.
  destruct (tick (loop_init 1000 0) (mkTick [] [] 16 16) locked_world)
    as [[l' r] w' | f] eqn:E.
  - cbv zeta in T.
    destruct T as [before [sleeps [after [T1 [_ [_ [_ T2]]]]]]].
    assert (Ew : lockFrameRate (gSettings w') = true /\
                 lockedFrameRate (gSettings w') = 60 /\ active w' = D3D12).
    { vm_compute in E. inversion E. repeat split; reflexivity. }
    destruct Ew as [EL [ER EA]].
    rewrite ER in T2. rewrite EA in T1.
    destruct (T2 EL) as [ms [Tr [_ Es]]]; [vm_compute; reflexivity | ].
    vm_compute in Tr. inversion Tr; subst ms. subst sleeps.
    exists l', r, w', before, after. split; [reflexivity | exact T1].
  - vm_compute in E. discriminate E.
Defined.

(** C8, as the claim states it, fails: locked at 60 frames per second with
    a render time of zero, [deltaMs] is 16.67 (exactly
    4691249611844267 / 2^48) and is above 1, yet the thread is blocked for
    16 milliseconds, not for [deltaMs] milliseconds. *)
Lemma pacing_sleep_is_truncated :
  counter_seconds 1000 16 16 = F64.of_Z 0 /\
  deltaMs 60 (F64.of_Z 0) = S754_finite false 4691249611844267 (-48) /\
  Fp.gtb (deltaMs 60 (F64.of_Z 0)) (F64.of_Z 1) = true /\
  F64.of_Z 16 <> deltaMs 60 (F64.of_Z 0) /\
  exists l' r w',
    tick (loop_init 1000 0) (mkTick [] [] 16 16) locked_world = Ok (l', r) w' /\
    filter is_sleep (calls w') = [E_Sleep 16].
Proof.
  split; [vm_compute; reflexivity | ].
  split; [vm_compute; reflexivity | ].
  split; [vm_compute; reflexivity | ].
  split; [vm_compute; discriminate | ].
  destruct (tick (loop_init 1000 0) (mkTick [] [] 16 16) locked_world)
    as [[l' r] w' | f] eqn:E.
  - exists l', r, w'. split; [reflexivity | ].
    vm_compute in E. inversion E. vm_compute. reflexivity.
  - vm_compute in E. discriminate E.
Qed.

Section SeriesFacts.

Lemma sum_ms_snoc (pending : list double) (raw : double) :
  sum_ms (pending ++ [raw]) = F64.add (sum_ms pending) (F64.mul raw ms_1000f).
Proof. unfold sum_ms. rewrite fold_left_app. reflexivity. Qed.

End SeriesFacts.

(** C6.  With [pending] the raw frame times of the iterations since the
    last sample was appended (or since the start), so that the loop's
    [timeInterval] is their sum in milliseconds: an iteration appends a
    sample exactly when a positive close-after duration is configured and
    the sum, this frame included, is at least 1000 ms.  The sample is
    (elapsed time, smoothed frame time in ms, raw frame time in ms) of this
    frame, it is the only one appended, and the accumulation starts again
    from nothing; otherwise no sample is appended and, under a positive
    close-after duration, this frame joins the pending ones. *)
Theorem time_series_sampling (l : Loop) (i : TickInput) (w : World)
    (pending : list double) :
  flag_ok w ->
  quit_free (msgs i) = true ->
  timeInterval l = sum_ms pending ->
  match tick l i w with
  | Stuck f => f = UndefinedConversion
  | Ok (l', _) _ =>
      let raw := counter_seconds (perfCounterFreq l) (lastPerfCount l) (count i) in
      let positive := Fp.gtb (closeAfterSeconds (gSettings w)) (F64.of_Z 0) in
      if positive && Fp.geb (sum_ms (pending ++ [raw])) (F64.of_Z 1000)
      then
        fpsHistoryVector l'
        = fpsHistoryVector l
          ++ [(elapsedTime l', F64.mul (frameTime l') ms_1000f,
               F64.mul raw ms_1000f)] /\
        timeInterval l' = sum_ms []
      else
        fpsHistoryVector l' = fpsHistoryVector l /\
        timeInterval l' = if positive then sum_ms (pending ++ [raw])
                          else timeInterval l
  end.
Proof.
  intros Hf Hfree Hacc.
  pose proof (tick_wp l i w Hf) as Ht. unfold wp in Ht.
  destruct (tick l i w) as [[l' r] w' | f]; [ | exact Ht].
  cbn [fst snd] in Ht. unfold tick_post in Ht. rewrite Hfree in Ht.
  destruct Ht as [w1 [_ [_ [Hs1 [_ Hp]]]]].
  cbv zeta. rewrite <- (st_close _ _ Hs1), sum_ms_snoc, <- Hacc.
  rewrite (fp_locals _ _ _ _ _ _ _ Hp).
  destruct (Fp.gtb (closeAfterSeconds (gSettings w1)) (F64.of_Z 0)) eqn:ED;
    cbn [andb].
  - pose proof (advance_series (gSettings w1) l (count i) ED) as H.
    cbv zeta in H. destruct (Fp.geb _ _); exact H.
  - destruct (advance_idle (gSettings w1) l (count i) ED) as [H1 [H2 _]].
    split; assumption.
Qed.

(** A frame of one second under a close-after duration of one second. *)
Lemma time_series_sampling_witness :
  flag_ok scenario_world /\
  timeInterval (loop_init 1000 0) = sum_ms [] /\
  exists l' r w',
    tick (loop_init 1000 0) (mkTick [] [] 1000 1000) scenario_world
    = Ok (l', r) w' /\
    fpsHistoryVector l'
    = [(elapsedTime l', F64.mul (frameTime l') ms_1000f, F64.of_Z 1000)] /\
    timeInterval l' = F64.of_Z 0.
Proof.
  assert (H : flag_ok scenario_world) by (split; intros _; discriminate).
  assert (H0 : timeInterval (loop_init 1000 0) = sum_ms []) by reflexivity.
  split; [exact H | split; [exact H0 | ]].
  pose proof (time_series_sampling (loop_init 1000 0) (mkTick [] [] 1000 1000)
                scenario_world [] H eq_refl H0) as T.
  destruct (tick (loop_init 1000 0) (mkTick [] [] 1000 1000) scenario_world)
    as [[l' r] w' | f] eqn:E.
  - exists l', r, w'. split; [reflexivity | ].
    cbv zeta in T.
    assert (EC : Fp.gtb (closeAfterSeconds (gSettings scenario_world)) (F64.of_Z 0)
                 && Fp.geb (sum_ms ([] ++ [counter_seconds
                      (perfCounterFreq (loop_init 1000 0))
                      (lastPerfCount (loop_init 1000 0))
                      (count (mkTick [] [] 1000 1000))])) (F64.of_Z 1000) = true)
      by (vm_compute; reflexivity).
    rewrite EC in T. destruct T as [T1 T2].
    split; [ | exact T2].
    rewrite T1. reflexivity.
  - vm_compute in E. discriminate E.
Defined.

Section StatisticsFacts.

Lemma frame_calls_files (flag : bool) (s : Settings) (l : Loop)
    (i : TickInput) :
  exists pre,
    frame_calls flag s l i = pre ++ finish_calls s (advance s l (count i)) /\
    Forall (fun e => is_file e = false) pre.
Proof.
  unfold frame_calls.
  exists (switch_calls flag s ++ [E_ProcessInertia] ++ wait_calls s
          ++ [render_call s (advance s l (count i))]
          ++ pace_calls s (advance s l (count i)) i).
  split.
  - rewrite <- !app_assoc. reflexivity.
  - unfold switch_calls, wait_calls, pace_calls, render_call.
    destruct (Bool.eqb flag (d3d12 s)), (d3d12 s), (lockFrameRate s);
      try destruct (pacing _ _); cbn [app]; repeat constructor.
Qed.

Lemma quiet_not_file (evs : list Event) :
  Forall (fun e => quiet e = true) evs ->
  Forall (fun e => is_file e = false) evs.
Proof.
  apply Forall_impl. intros e He. destruct e; try discriminate He; reflexivity.
Qed.

End StatisticsFacts.

(** C5.  The code on a run that closes within its first hundred frames.
    Under a close-after duration of one second, on a counter of 1000 ticks
    per second read at 0 before the loop, with the frame-rate lock off, a
    first frame that takes two seconds ends the run: [main] returns 0 and
    the two files are written once.  One frame was counted and its FPS,
    the inverse of the smoothed frame time, is about 2.5; no frame has an
    index above 100 and nothing was added to [sumFPS].  The divisor
    [numFrames - 100], taken in [std::uint64_t], wraps to [2 ^ 64 - 99], so
    the average handed to the summary file is [0 / (2 ^ 64 - 99) = 0].  The
    mean of the samples after the first hundred is the mean of no sample,
    [0 / 0], not a number: the code computes a mean only when more than a
    hundred frames were counted. *)
Theorem average_of_short_run_is_not_a_mean :
  Fp.gtb (closeAfterSeconds (gSettings scenario_world)) (F64.of_Z 0) = true /\
  lockFrameRate (gSettings scenario_world) = false /\
  exists l' w',
    tick (loop_init 1000 0) (mkTick [] [] 2000 2000) scenario_world
    = Ok (l', Some 0) w' /\
    run (loop_init 1000 0) [mkTick [] [] 2000 2000] scenario_world
    = Returned 0 w' /\
    numFrames l' = 1 /\
    currentFPS l' = F64.div (F64.of_float (F32.of_Z 1)) (frameTime l') /\
    currentFPS l' = S754_finite false 5629499450327041 (-51) /\
    sumFPS l' = F64.of_Z 0 /\
    u64 (numFrames l' - 100) = 2 ^ 64 - 99 /\
    averageFPS l' = S754_zero false /\
    filter is_file (calls w')
    = [E_SummaryFile "summary.csv" (minFPS l') (maxFPS l') (averageFPS l');
       E_SeriesFile "stats.csv" (fpsHistoryVector l')] /\
    mean (skipn 100 [currentFPS l']) = S754_nan /\
    averageFPS l' <> mean (skipn 100 [currentFPS l']).
Proof.
  split; [vm_compute; reflexivity | ].
  split; [reflexivity | ].
  do 2 eexists.
  split; [vm_compute; reflexivity | ].
  split; [vm_compute; reflexivity | ].
  split; [reflexivity | ].
  split; [vm_compute; reflexivity | ].
  split; [vm_compute; reflexivity | ].
  split; [vm_compute; reflexivity | ].
  split; [vm_compute; reflexivity | ].
  split; [vm_compute; reflexivity | ].
  split; [vm_compute; reflexivity | ].
  split; [vm_compute; reflexivity | ].
  vm_compute. discriminate.
Qed.

(* ================================================================== *)
(** * The scenarios of the design document *)
(* ================================================================== *)

(** Radius 50 between 10 and 100, halved five times: 25, 12.5, then 10 and
    no lower. *)
Example zoom_scenario :
  map (fun n => mRadius (zoom_half n scenario_camera)) [1; 2; 3; 4; 5]%nat
  = [F32.of_Z 25; F32.lit 125 10; F32.of_Z 10; F32.of_Z 10; F32.of_Z 10].
Proof. vm_compute. reflexivity. Qed.

(** A resize to 800 by 600 under a render scale of one half: the render
    resolution becomes 400 by 300, the projection is given the aspect
    400/300 and, the aspect being above 1, the field of view divided by it,
    and the swap chain of the active backend is resized to 400 by 300. *)
Example resize_scenario :
  exists w',
    WindowProc (WM_SIZE (600 * 65536 + 800)) half_scale_world = Ok tt w' /\
    (windowWidth (gSettings w'), windowHeight (gSettings w')) = (800, 600) /\
    (renderWidth (gSettings w'), renderHeight (gSettings w')) = (400, 300) /\
    mProjection (gCamera w')
    = Some (mkPerspective
              (F32.div resize_fov (F32.div (F32.of_Z 400) (F32.of_Z 300)))
              (F32.div (F32.of_Z 400) (F32.of_Z 300))
              (F32.of_Z 10000) (F32.lit 1 10)) /\
    gWorkloadD3D12 w' = Some (Live 400 300) /\
    calls w' = [E_ResizeSwapChain D3D12 400 300].
Proof.
  eexists. split; [vm_compute; reflexivity | ].
  repeat split; vm_compute; reflexivity.
Qed.

(* ================================================================== *)
(** * The camera stays in range *)
(* ================================================================== *)

Section CameraRange.

Lemma limits_ordered : Fp.leb Camera.limit (F32.sub XM_PI Camera.limit) = true.
Proof. vm_compute. reflexivity. Qed.

Lemma callback_fields (c : OrbitCamera) (d : Camera.ManipulationDelta) :
  let c' := Camera.InteractionOutputCallback c d in
  mMinRadius c' = mMinRadius c /\
  mMaxRadius c' = mMaxRadius c /\
  mProjection c' = mProjection c /\
  mLongAngle c'
  = F32.add (mLongAngle c)
      (F32.mul (Camera.translationX d) (F32.lit 7 10000)) /\
  mLatAngle c'
  = Fp.max Camera.limit
      (Fp.min (F32.sub XM_PI Camera.limit)
         (F32.add (mLatAngle c)
            (F32.mul (F32.opp (Camera.translationY d)) (F32.lit 7 10000)))) /\
  mRadius c'
  = Fp.max (mMinRadius c)
      (Fp.min (mMaxRadius c)
         (F32.mul (mRadius c) (F32.div (F32.of_Z 1) (Camera.scale d)))).
Proof.
  unfold Camera.InteractionOutputCallback, Camera.ZoomRadiusScale,
    Camera.OrbitY, Camera.OrbitX.
  cbn [mRadius mMinRadius mMaxRadius mLongAngle mLatAngle mProjection].
  repeat split; reflexivity.
Qed.

Lemma callback_in_range (c : OrbitCamera) (d : Camera.ManipulationDelta) :
  Fp.leb (mMinRadius c) (mMaxRadius c) = true ->
  in_range (Camera.InteractionOutputCallback c d) /\
  same_bounds c (Camera.InteractionOutputCallback c d).
Proof.
  intros Hb.
  destruct (callback_fields c d) as (Emin & Emax & _ & _ & Elat & Er).
  unfold in_range, same_bounds. rewrite Emin, Emax, Elat, Er.
  destruct (clamp_between (mMinRadius c) (mMaxRadius c)
              (F32.mul (mRadius c) (F32.div (F32.of_Z 1) (Camera.scale d))) Hb)
    as [R1 R2].
  destruct (clamp_between Camera.limit (F32.sub XM_PI Camera.limit)
              (F32.add (mLatAngle c)
                 (F32.mul (F32.opp (Camera.translationY d)) (F32.lit 7 10000)))
              limits_ordered) as [L1 L2].
  repeat split; assumption.
Qed.

Lemma ZoomRadius_in_range (c : OrbitCamera) (delta : float) :
  in_range c ->
  in_range (Camera.ZoomRadius c delta) /\
  same_bounds c (Camera.ZoomRadius c delta).
Proof.
  intros (Hb & _ & _ & L1 & L2).
  unfold in_range, same_bounds, Camera.ZoomRadius.
  cbn [mRadius mMinRadius mMaxRadius mLongAngle mLatAngle mProjection].
  destruct (clamp_between (mMinRadius c) (mMaxRadius c)
              (F32.add (mRadius c) delta) Hb) as [R1 R2].
  repeat split; assumption.
Qed.

Lemma Projection_in_range (c : OrbitCamera) (fov aspect : float) :
  in_range c ->
  in_range (Camera.Projection c fov aspect) /\
  same_bounds c (Camera.Projection c fov aspect).
Proof.
  intros H. unfold in_range, same_bounds, Camera.Projection in *.
  cbn [mRadius mMinRadius mMaxRadius mLongAngle mLatAngle mProjection].
  repeat split; apply H.
Qed.

End CameraRange.

(** Every operation of the monad but [modify_camera] leaves the camera
    alone; a property of the camera kept by the three mutators the window
    procedure and the loop reach is kept by every message and every
    iteration. *)
Section Keeps.

Variable P : OrbitCamera -> Prop.

Lemma keeps_ret {A} (a : A) : keeps P (ret a).
Proof. intros w H. exact H. Qed.

Lemma keeps_bind {A B} (m : M A) (k : A -> M B) :
  keeps P m -> (forall a, keeps P (k a)) -> keeps P (bind m k).
Proof.
  intros Hm Hk w H. unfold bind. specialize (Hm w H).
  destruct (m w) as [a w' | f]; [apply Hk; exact Hm | exact I].
Qed.

Lemma keeps_get : keeps P get.
Proof. intros w H. exact H. Qed.

Lemma keeps_settings : keeps P settings.
Proof. intros w H. exact H. Qed.

Lemma keeps_modify_settings (f : Settings -> Settings) :
  keeps P (modify_settings f).
Proof. intros w H. exact H. Qed.

Lemma keeps_emit (e : Event) : keeps P (emit e).
Proof. intros w H. exact H. Qed.

Lemma keeps_stuck {A} (f : Fault) : keeps P (@stuck A f).
Proof. intros w H. exact I. Qed.

Lemma keeps_defined {A} (o : option A) : keeps P (defined o).
Proof. destruct o; [apply keeps_ret | apply keeps_stuck]. Qed.

Lemma keeps_deref (b : Backend) : keeps P (deref b).
Proof.
  intros w H. unfold deref. destruct (gWorkload b w); [exact H | exact I].
Qed.

Lemma keeps_set_swapchain (b : Backend) (sc : SwapChain) :
  keeps P (set_swapchain b sc).
Proof. intros w H. destruct b; exact H. Qed.

Lemma keeps_modify_camera (f : OrbitCamera -> OrbitCamera) :
  (forall c, P c -> P (f c)) -> keeps P (modify_camera f).
Proof. intros Hf w H. apply Hf. exact H. Qed.

Lemma keeps_if {A} (b : bool) (m1 m2 : M A) :
  keeps P m1 -> keeps P m2 -> keeps P (if b then m1 else m2).
Proof. destruct b; auto. Qed.

#[local] Hint Resolve keeps_ret keeps_get keeps_settings
  keeps_modify_settings keeps_emit keeps_stuck keeps_defined keeps_deref
  keeps_set_swapchain keeps_modify_camera keeps_if : keeps.
#[local] Hint Extern 2 (keeps _ (bind _ _)) =>
  apply keeps_bind; [ | intro ] : keeps.

Lemma keeps_ResizeSwapChain (b : Backend) (width height : Z) :
  keeps P (ResizeSwapChain b width height).
Proof. unfold ResizeSwapChain. auto 6 with keeps. Qed.

Lemma keeps_ReleaseSwapChain (b : Backend) : keeps P (ReleaseSwapChain b).
Proof. unfold ReleaseSwapChain. auto 6 with keeps. Qed.

Lemma keeps_WaitForReadyToRender : keeps P WaitForReadyToRender.
Proof. unfold WaitForReadyToRender. auto 6 with keeps. Qed.

Lemma keeps_Render (b : Backend) (ft : float) : keeps P (Render b ft).
Proof. unfold Render. auto 6 with keeps. Qed.

#[local] Hint Resolve keeps_ResizeSwapChain keeps_ReleaseSwapChain
  keeps_WaitForReadyToRender keeps_Render : keeps.

Hypothesis P_Projection :
  forall c fov aspect, P c -> P (Camera.Projection c fov aspect).
Hypothesis P_ZoomRadius :
  forall c delta, P c -> P (Camera.ZoomRadius c delta).
Hypothesis P_callback :
  forall c d, P c -> P (Camera.InteractionOutputCallback c d).

Lemma keeps_deliver (os : list InteractionOutput) : keeps P (deliver os).
Proof.
  induction os as [ | o os IH]; cbn [deliver]; [apply keeps_ret | ].
  apply keeps_bind; [ | intros _; exact IH].
  destruct o; cbn [StaticInteractionOutputCallback]; auto with keeps.
Qed.

#[local] Hint Resolve keeps_deliver : keeps.

Lemma keeps_select_d3d11 : keeps P select_d3d11.
Proof. unfold select_d3d11. auto 6 with keeps. Qed.

Lemma keeps_select_d3d12 : keeps P select_d3d12.
Proof. unfold select_d3d12. auto 6 with keeps. Qed.

#[local] Hint Resolve keeps_select_d3d11 keeps_select_d3d12 : keeps.

Lemma keeps_WindowProc (m : Msg) : keeps P (WindowProc m).
Proof.
  destruct m; cbn [WindowProc]; auto with keeps.
  - unfold on_WM_SIZE. apply keeps_if; [apply keeps_ret | ].
    auto 20 with keeps.
  - unfold on_WM_KEYDOWN. auto 20 with keeps.
  - unfold on_WM_SYSKEYDOWN. auto 20 with keeps.
  - unfold on_WM_MOUSEWHEEL. auto with keeps.
  - unfold on_pointer. apply keeps_if; [ | apply keeps_ret].
    apply keeps_bind; [ | intros _; auto 10 with keeps].
    destruct (HitTest p) as [[ | | ] | ]; cbn; auto with keeps.
  - unfold on_pointer. auto 12 with keeps.
  - unfold on_pointer. auto 12 with keeps.
Qed.

Lemma keeps_drain (ms : list Msg) : keeps P (drain ms).
Proof.
  induction ms as [ | m ms IH]; cbn [drain]; [apply keeps_ret | ].
  destruct m;
    try (apply keeps_bind; [apply keeps_WindowProc | intros _; exact IH]).
  auto with keeps.
Qed.

Lemma keeps_dispatch (ms : list Msg) : keeps P (dispatch ms).
Proof.
  induction ms as [ | m ms IH]; cbn [dispatch]; [apply keeps_ret | ].
  apply keeps_bind; [apply keeps_WindowProc | intros _; exact IH].
Qed.

Lemma keeps_frame (flag : bool) (l : Loop) (i : TickInput) :
  keeps P (frame flag l i).
Proof.
  unfold frame, switch_backend, pace, finish.
  repeat first
    [ apply keeps_bind; [ | intro ]
    | apply keeps_if
    | match goal with
      | |- keeps _ (match ?x with _ => _ end) => destruct x
      end
    | solve [auto with keeps] ].
Qed.

Lemma keeps_tick (l : Loop) (i : TickInput) : keeps P (tick l i).
Proof.
  unfold tick.
  apply keeps_bind; [apply keeps_settings | intros s].
  apply keeps_bind; [apply keeps_drain | intros [code | ]].
  - apply keeps_ret.
  - apply keeps_frame.
Qed.

Lemma keeps_run (ticks : list TickInput) :
  forall (l : Loop) (w : World),
    P (gCamera w) ->
    match run l ticks w with
    | Running _ w' | Returned _ w' => P (gCamera w')
    | Undefined _ => True
    end.
Proof.
  induction ticks as [ | i rest IH]; intros l w H; cbn [run]; [exact H | ].
  pose proof (keeps_tick l i w H) as Ht.
  destruct (tick l i w) as [[l' [code | ]] w' | f]; [exact Ht | | exact I].
  apply IH. exact Ht.
Qed.

End Keeps.

Section RangedFacts.

Variable c0 : OrbitCamera.

Lemma ranged_Projection (c : OrbitCamera) (fov aspect : float) :
  ranged c0 c -> ranged c0 (Camera.Projection c fov aspect).
Proof.
  intros [Hr [B1 B2]].
  destruct (Projection_in_range c fov aspect Hr) as [Hr' [B1' B2']].
  split; [exact Hr' | split; congruence].
Qed.

Lemma ranged_ZoomRadius (c : OrbitCamera) (delta : float) :
  ranged c0 c -> ranged c0 (Camera.ZoomRadius c delta).
Proof.
  intros [Hr [B1 B2]].
  destruct (ZoomRadius_in_range c delta Hr) as [Hr' [B1' B2']].
  split; [exact Hr' | split; congruence].
Qed.

Lemma ranged_callback (c : OrbitCamera) (d : Camera.ManipulationDelta) :
  ranged c0 c -> ranged c0 (Camera.InteractionOutputCallback c d).
Proof.
  intros [Hr [B1 B2]].
  destruct (callback_in_range c d (proj1 Hr)) as [Hr' [B1' B2']].
  split; [exact Hr' | split; congruence].
Qed.

End RangedFacts.

(** X1.  One manipulation output of the interaction context
    ([OrbitCamera::InteractionOutputCallback]: [OrbitX], then [OrbitY], then
    [ZoomRadiusScale(1.0f / scale)]) leaves the camera in range whatever
    the translations and the scale are, a scale of zero and NaNs included,
    as soon as the bounds of the radius are ordered: the radius ends
    between the bounds, the latitude between the two limits, and the
    bounds and the projection are not touched. *)
Theorem gesture_keeps_camera_in_range (c : OrbitCamera)
    (d : Camera.ManipulationDelta) :
  Fp.leb (mMinRadius c) (mMaxRadius c) = true ->
  in_range (Camera.InteractionOutputCallback c d) /\
  same_bounds c (Camera.InteractionOutputCallback c d) /\
  mProjection (Camera.InteractionOutputCallback c d) = mProjection c /\
  mLongAngle (Camera.InteractionOutputCallback c d)
  = F32.add (mLongAngle c) (F32.mul (Camera.translationX d) (F32.lit 7 10000)).
Proof.
  intros Hb.
  destruct (callback_in_range c d Hb) as [Hr Hs].
  destruct (callback_fields c d) as (_ & _ & Ep & El & _).
  repeat split; try assumption; apply Hr || apply Hs.
Qed.

(** A pinch reported with scale zero: the division by zero gives an
    infinite factor and the radius stops at the upper bound. *)
Lemma gesture_keeps_camera_in_range_witness :
  Fp.leb (mMinRadius scenario_camera) (mMaxRadius scenario_camera) = true /\
  in_range (Camera.InteractionOutputCallback scenario_camera
              (Camera.mkDelta (F32.of_Z 3) (F32.of_Z 100000) (F32.of_Z 0))) /\
  mRadius (Camera.InteractionOutputCallback scenario_camera
             (Camera.mkDelta (F32.of_Z 3) (F32.of_Z 100000) (F32.of_Z 0)))
  = mMaxRadius scenario_camera.
Proof.
  split; [vm_compute; reflexivity | split].
  - apply (gesture_keeps_camera_in_range scenario_camera
             (Camera.mkDelta (F32.of_Z 3) (F32.of_Z 100000) (F32.of_Z 0))).
    vm_compute; reflexivity.
  - vm_compute; reflexivity.
Defined.

(** X2.  Once the camera is in range it stays in range, with the bounds it
    has, through every message the window procedure handles to its end
    (mouse wheel, pointer messages, resize) and through every iteration the
    loop completes (inertia included): no input moves the radius outside
    its bounds or the latitude outside the limits, and nothing but
    [OrbitCamera::View] changes the bounds.  Nothing is said of a message
    or a run that stops on undefined behaviour. *)
Theorem camera_stays_in_range :
  (forall (m : Msg) (w : World),
      in_range (gCamera w) ->
      match WindowProc m w with
      | Ok _ w' =>
          in_range (gCamera w') /\ same_bounds (gCamera w) (gCamera w')
      | Stuck _ => True
      end) /\
  (forall (ticks : list TickInput) (l : Loop) (w : World),
      in_range (gCamera w) ->
      match run l ticks w with
      | Running _ w' | Returned _ w' =>
          in_range (gCamera w') /\ same_bounds (gCamera w) (gCamera w')
      | Undefined _ => True
      end).
Proof.
  split.
  - intros m w H.
    apply (keeps_WindowProc (ranged (gCamera w))
             (ranged_Projection _) (ranged_ZoomRadius _) (ranged_callback _)
             m w).
    split; [exact H | split; reflexivity].
  - intros ticks l w H.
    apply (keeps_run (ranged (gCamera w))
             (ranged_Projection _) (ranged_ZoomRadius _)
             (ranged_callback _) ticks l w
             (conj H (conj eq_refl eq_refl))).
Qed.

(** A wheel turn of ten notches forward and an inertia output in one
    iteration of the scenario: the iteration completes and the camera is
    in range after it. *)
Lemma camera_stays_in_range_witness :
  in_range (gCamera scenario_world) /\
  exists l' w',
    run (loop_init 1000 0)
      [mkTick [WM_MOUSEWHEEL (1200 * 65536)]
              [INTERACTION_ID_MANIPULATION
                 (Camera.mkDelta (F32.of_Z 3) (F32.of_Z 100000)
                                 (F32.of_Z 0))]
              16 16]
      scenario_world = Running l' w' /\
    in_range (gCamera w') /\
    same_bounds (gCamera scenario_world) (gCamera w').
Proof.
  assert (Hr : in_range (gCamera scenario_world))
    by (repeat split; vm_compute; reflexivity).
  split; [exact Hr | ].
  pose proof (proj2 camera_stays_in_range
                [mkTick [WM_MOUSEWHEEL (1200 * 65536)]
                        [INTERACTION_ID_MANIPULATION
                           (Camera.mkDelta (F32.of_Z 3) (F32.of_Z 100000)
                                           (F32.of_Z 0))]
                        16 16]
                (loop_init 1000 0) scenario_world Hr) as T.
  destruct (run (loop_init 1000 0) _ scenario_world) as [l' w' | code w' | f]
    eqn:E.
  - exists l', w'. split; [reflexivity | exact T].
  - vm_compute in E. discriminate E.
  - vm_compute in E. discriminate E.
Defined.

(* ================================================================== *)
(** * Signs of rounded results *)
(* ================================================================== *)

Section Signs.

Lemma shr_1_nonneg (mrs : shr_record) :
  0 <= shr_m mrs -> 0 <= shr_m (shr_1 mrs).
Proof.
  destruct mrs as [m r s]. cbn [shr_m]. intros H.
  destruct m as [ | p | p]; [ | destruct p | lia]; cbn; lia.
Qed.

Lemma iter_shr_1_nonneg (p : positive) :
  forall mrs, 0 <= shr_m mrs -> 0 <= shr_m (iter_pos shr_1 p mrs).
Proof.
  induction p as [p IH | p IH | ]; intros mrs H; cbn [iter_pos].
  - apply IH, IH, shr_1_nonneg, H.
  - apply IH, IH, H.
  - apply shr_1_nonneg, H.
Qed.

Lemma shr_fexp_nonneg (prec emax m e : Z) (l : location) :
  0 <= m -> 0 <= shr_m (fst (shr_fexp prec emax m e l)).
Proof.
  intros H. unfold shr_fexp, shr.
  assert (H0 : 0 <= shr_m (shr_record_of_loc m l))
    by (destruct l as [ | [ | | ]]; exact H).
  destruct (fexp prec emax (Zdigits2 m + e) - e); cbn [fst];
    auto using iter_shr_1_nonneg.
Qed.

Lemma round_nearest_even_nonneg (m : Z) (l : location) :
  0 <= m -> 0 <= round_nearest_even m l.
Proof.
  intros H. destruct l as [ | [ | | ]]; cbn [round_nearest_even]; try lia.
  destruct (IntDef.Z.even m); lia.
Qed.

(** Rounding a mantissa that is not negative, with the sign bit clear,
    gives a zero, a finite number or an infinity with the sign bit clear. *)
Lemma binary_round_aux_nonneg (prec emax m e : Z) (l : location) :
  0 <= m -> nonneg (binary_round_aux prec emax false m e l) = true.
Proof.
  intros H. unfold binary_round_aux.
  pose proof (shr_fexp_nonneg prec emax m e l H) as H1.
  destruct (shr_fexp prec emax m e l) as [mrs' e']. cbn [fst] in H1.
  pose proof (shr_fexp_nonneg prec emax _ e' loc_Exact
                (round_nearest_even_nonneg _ (loc_of_shr_record mrs') H1)) as H2.
  destruct (shr_fexp prec emax _ e' loc_Exact) as [mrs'' e''].
  cbn [fst] in H2.
  destruct (shr_m mrs'') as [ | q | q]; [reflexivity | | lia].
  destruct (e'' <=? emax - prec); reflexivity.
Qed.

Lemma binary_round_nonneg (prec emax : Z) (m : positive) (e : Z) :
  nonneg (binary_round prec emax false m e) = true.
Proof.
  unfold binary_round. destruct (shl_align m e _) as [mz ez].
  apply binary_round_aux_nonneg. lia.
Qed.

Lemma binary_normalize_nonneg (prec emax z e : Z) :
  0 <= z -> nonneg (binary_normalize prec emax z e false) = true.
Proof.
  intros H. destruct z as [ | p | p]; cbn [binary_normalize];
    [reflexivity | apply binary_round_nonneg | lia].
Qed.

Lemma SFadd_nonneg (prec emax : Z) (x y : spec_float) :
  nonneg x = true -> nonneg y = true -> nonneg (SFadd prec emax x y) = true.
Proof.
  destruct x as [[ | ] | [ | ] | | [ | ] mx ex],
           y as [[ | ] | [ | ] | | [ | ] my ey];
    cbn [nonneg negb]; intros Hx Hy; try discriminate; try reflexivity.
  cbv beta iota delta [SFadd]. apply binary_normalize_nonneg.
  cbn [cond_Zopp]. lia.
Qed.

Lemma SFmul_nonneg (prec emax : Z) (m : positive) (e : Z) (y : spec_float) :
  nonneg y = true ->
  nonneg (SFmul prec emax (S754_finite false m e) y) = true.
Proof.
  destruct y as [[ | ] | [ | ] | | [ | ] my ey];
    cbn [nonneg negb]; intros Hy; try discriminate; try reflexivity.
  cbv beta iota delta [SFmul]. cbn [xorb].
  apply binary_round_aux_nonneg. lia.
Qed.

Lemma SFdiv_nonneg (prec emax : Z) (x : spec_float) (m : positive) (e : Z) :
  nonneg x = true ->
  nonneg (SFdiv prec emax x (S754_finite false m e)) = true.
Proof.
  destruct x as [[ | ] | [ | ] | | [ | ] mx ex];
    cbn [nonneg negb]; intros Hx; try discriminate; try reflexivity.
  cbv beta iota delta [SFdiv]. cbn [xorb].
  unfold SFdiv_core_binary.
  set (s := ex - e - _).
  set (m' := match s with 0 => Z.pos mx | Z.pos _ => _ | Z.neg _ => 0 end).
  assert (Hm : 0 <= m').
  { subst m'. destruct s as [ | q | q]; [lia | | lia].
    change (IntDef.Z.shiftl (Z.pos mx) (Z.pos q))
      with (Z.shiftl (Z.pos mx) (Z.pos q)).
    apply Z.shiftl_nonneg. lia. }
  change (IntDef.Z.div_eucl m' (Z.pos m)) with (Z.div_eucl m' (Z.pos m)).
  pose proof (Z_div_mod m' (Z.pos m) ltac:(lia)) as Hd.
  destruct (Z.div_eucl m' (Z.pos m)) as [q r].
  apply binary_round_aux_nonneg. nia.
Qed.

Lemma digits2_pos_lower (m : positive) :
  2 ^ (Z.pos (digits2_pos m) - 1) <= Z.pos m.
Proof.
  induction m as [m IH | m IH | ]; cbn [digits2_pos];
    [ | | cbn; lia ].
  - replace (Z.pos (Pos.succ (digits2_pos m)) - 1)
      with (Z.succ (Z.pos (digits2_pos m) - 1)) by lia.
    rewrite Z.pow_succ_r by lia. lia.
  - replace (Z.pos (Pos.succ (digits2_pos m)) - 1)
      with (Z.succ (Z.pos (digits2_pos m) - 1)) by lia.
    rewrite Z.pow_succ_r by lia. lia.
Qed.

(** An integer below [2 ^ 53] is a finite double. *)
Lemma of_Z_finite (z : Z) :
  0 < z < 2 ^ 53 ->
  exists m e, F64.of_Z z = S754_finite false m e.
Proof.
  intros [H0 H1]. destruct z as [ | m | m]; try lia.
  pose proof (digits2_pos_lower m) as Hl.
  set (d := digits2_pos m) in *.
  assert (Hd : Z.pos d <= 53).
  { destruct (Z_le_gt_dec (Z.pos d) 53) as [Hle | Hgt]; [exact Hle | ].
    exfalso. assert (2 ^ 53 <= 2 ^ (Z.pos d - 1))
      by (apply Z.pow_le_mono_r; lia). lia. }
  unfold F64.of_Z, binary_normalize, binary_round, shl_align, fexp, emin,
    F64.prec, F64.emax. fold d.
  destruct (53 - Z.pos d) as [ | p | p] eqn:Ep; try lia.
  - replace (Z.max (Z.pos d + 0 - 53) (3 - 1024 - 53) - 0) with 0 by lia.
    unfold binary_round_aux, shr_fexp, fexp, emin, Zdigits2, shr_record_of_loc.
    fold d.
    replace (Z.max (Z.pos d + 0 - 53) (3 - 1024 - 53) - 0) with 0 by lia.
    cbn [shr shr_m loc_of_shr_record round_nearest_even Zdigits2].
    fold d.
    replace (Z.max (Z.pos d + 0 - 53) (3 - 1024 - 53) - 0) with 0 by lia.
    cbn [shr shr_m].
    eexists. eexists. reflexivity.
  - replace (Z.max (Z.pos d + 0 - 53) (3 - 1024 - 53) - 0) with (Z.neg p) by lia.
    unfold binary_round_aux, shr_fexp, fexp, emin, Zdigits2, shr_record_of_loc.
    rewrite digits2_pos_iter_xO. fold d.
    replace (Z.max (Z.pos (d + p) + Z.max (Z.pos d + 0 - 53) (3 - 1024 - 53) - 53)
               (3 - 1024 - 53) - Z.max (Z.pos d + 0 - 53) (3 - 1024 - 53))
      with 0 by lia.
    cbn [shr shr_m loc_of_shr_record round_nearest_even Zdigits2].
    rewrite digits2_pos_iter_xO. fold d.
    replace (Z.max (Z.pos (d + p) + Z.max (Z.pos d + 0 - 53) (3 - 1024 - 53) - 53)
               (3 - 1024 - 53) - Z.max (Z.pos d + 0 - 53) (3 - 1024 - 53))
      with 0 by lia.
    cbn [shr shr_m].
    replace (Z.max (Z.pos d + 0 - 53) (3 - 1024 - 53) <=? 1024 - 53) with true
      by (symmetry; apply Z.leb_le; lia).
    eexists. eexists. reflexivity.
Qed.

Lemma nonneg_leb (x : spec_float) : Fp.leb (S754_zero false) x = nonneg x.
Proof. destruct x as [[ | ] | [ | ] | | [ | ] m e]; reflexivity. Qed.

Lemma nonneg_leb64 (x : double) : Fp.leb (F64.of_Z 0) x = nonneg x.
Proof. exact (nonneg_leb x). Qed.

Lemma nonneg_leb32 (x : float) : Fp.leb (F32.of_Z 0) x = nonneg x.
Proof. exact (nonneg_leb x). Qed.

Lemma of_double_nonneg (x : double) :
  nonneg x = true -> nonneg (F32.of_double x) = true.
Proof.
  destruct x as [s | s | | [ | ] m e]; cbn [nonneg negb F32.of_double];
    intros H; try discriminate; try exact H.
  apply binary_round_nonneg.
Qed.

(** The raw frame time is never negative, whatever the two counter
    readings, on a counter frequency below [2 ^ 53]. *)
Lemma counter_seconds_nonneg (freq from to : Z) :
  0 < freq < 2 ^ 53 -> nonneg (counter_seconds freq from to) = true.
Proof.
  intros Hf. unfold counter_seconds.
  destruct (of_Z_finite freq Hf) as [m [e E]]. rewrite E.
  apply SFdiv_nonneg. apply binary_normalize_nonneg.
  unfold u64. apply Z.mod_pos_bound. lia.
Qed.

Lemma smooth_nonneg (raw ft : double) :
  nonneg raw = true -> nonneg ft = true -> nonneg (smooth raw ft) = true.
Proof.
  intros Hr Hf. unfold smooth.
  rewrite one_minus_alpha_value, alpha_value.
  apply SFadd_nonneg; apply SFmul_nonneg; assumption.
Qed.

End Signs.

(* ================================================================== *)
(** * The loop, iteration by iteration *)
(* ================================================================== *)

Section LoopFacts.

Lemma advance_elapsedTime (s : Settings) (l : Loop) (c : Z) :
  elapsedTime (advance s l c)
  = F64.add (elapsedTime l)
      (counter_seconds (perfCounterFreq l) (lastPerfCount l) c) /\
  lastPerfCount (advance s l c) = c.
Proof.
  unfold advance, collect_stats, measure, set_currentFPS. loop_cbn.
  destruct (Fp.gtb (closeAfterSeconds s) (F64.of_Z 0));
    [ | split; reflexivity].
  destruct (Fp.geb _ _); split; reflexivity.
Qed.

Lemma advance_idle_extremes (s : Settings) (l : Loop) (c : Z) :
  Fp.gtb (closeAfterSeconds s) (F64.of_Z 0) = false ->
  minFPS (advance s l c) = minFPS l /\ maxFPS (advance s l c) = maxFPS l.
Proof.
  intros H. unfold advance, collect_stats, measure, set_currentFPS. loop_cbn.
  rewrite H. loop_cbn. split; reflexivity.
Qed.

Lemma quit_split (ms : list Msg) :
  quit_free ms = false ->
  exists pre wParam post,
    ms = pre ++ WM_QUIT wParam :: post /\ quit_free pre = true.
Proof.
  induction ms as [ | m ms IH]; [discriminate | ].
  change (quit_free (m :: ms)) with (negb (is_quit m) && quit_free ms).
  destruct (is_quit m) eqn:E; cbn [negb andb].
  - intros _. destruct m; try discriminate E.
    exists [], wParam, ms. split; reflexivity.
  - intros H. destruct (IH H) as (pre & c & post & E1 & E2).
    exists (m :: pre), c, post. subst ms. split; [reflexivity | ].
    change (quit_free (m :: pre)) with (negb (is_quit m) && quit_free pre).
    rewrite E, E2. reflexivity.
Qed.

(** The message loop up to a [WM_QUIT]: the messages before it are
    dispatched, the workloads are deleted, and the messages after it are
    never looked at. *)
Lemma drain_quit (pre post : list Msg) (wParam : Z) (w : World) :
  quit_free pre = true ->
  drain (pre ++ WM_QUIT wParam :: post) w
  = (dispatch pre ;;; emit E_Cleanup ;;; ret (Some (to_int wParam))) w.
Proof.
  revert w. induction pre as [ | m pre IH]; intros w H; [reflexivity | ].
  change (quit_free (m :: pre)) with (negb (is_quit m) && quit_free pre) in H.
  apply andb_prop in H. destruct H as [Hm H].
  assert (E : drain ((m :: pre) ++ WM_QUIT wParam :: post)
              = (WindowProc m ;;; drain (pre ++ WM_QUIT wParam :: post)))
    by (destruct m; try discriminate Hm; reflexivity).
  rewrite E. cbn [dispatch]. unfold bind.
  destruct (WindowProc m w) as [[] w1 | f]; [ | reflexivity].
  rewrite (IH w1 H). reflexivity.
Qed.

Lemma tick_quit (l : Loop) (pre post : list Msg) (wParam : Z)
    (os : list InteractionOutput) (c c' : Z) (w : World) :
  quit_free pre = true ->
  tick l (mkTick (pre ++ WM_QUIT wParam :: post) os c c') w
  = match dispatch pre w with
    | Ok _ w1 =>
        Ok (l, Some (to_int wParam))
           (mkWorld (gSettings w1) (gCamera w1) (gWorkloadD3D11 w1)
                    (gWorkloadD3D12 w1) (calls w1 ++ [E_Cleanup]))
    | Stuck f => Stuck f
    end.
Proof.
  intros H. unfold tick. cbn [msgs]. unfold bind at 1, settings.
  unfold bind at 1. rewrite (drain_quit pre post wParam w H).
  unfold bind, emit, ret.
  destruct (dispatch pre w) as [[] w1 | f]; reflexivity.
Qed.

(** What one iteration does, whether or not it meets a [WM_QUIT]. *)
Lemma tick_shape (l : Loop) (i : TickInput) (w : World) :
  flag_ok w ->
  match tick l i w with
  | Stuck f => f = UndefinedConversion
  | Ok (l', r) w' =>
      flag_ok w' /\ stable w w' /\
      ((quit_free (msgs i) = true /\
        exists w1, stable w w1 /\ quiet_ext w w1 /\
                   frame_post (d3d12 (gSettings w)) l i w1 l' r w') \/
       (quit_free (msgs i) = false /\ l' = l /\
        exists code evs,
          r = Some code /\
          calls w' = calls w ++ evs ++ [E_Cleanup] /\
          Forall (fun e => quiet e = true) evs))
  end.
Proof.
  intros Hf. destruct (quit_free (msgs i)) eqn:Q.
  - pose proof (tick_wp l i w Hf) as H. unfold wp in H.
    destruct (tick l i w) as [[l' r] w' | f]; [ | exact H].
    pose proof (tick_post_flag_ok _ _ _ _ _ _ H) as Hf'.
    cbn [fst snd] in H. unfold tick_post in H. rewrite Q in H.
    destruct H as (w1 & _ & _ & Hs & Hq & Hp).
    split; [exact Hf' | split].
    + exact (stable_trans _ _ _ Hs (fp_stable _ _ _ _ _ _ _ Hp)).
    + left. split; [reflexivity | ]. exists w1. auto.
  - destruct (quit_split _ Q) as (pre & c & post & E & Hpre).
    destruct i as [ms os cnt cnt']. cbn [msgs] in *. subst ms.
    rewrite (tick_quit l pre post c os cnt cnt' w Hpre).
    pose proof (dispatch_wp pre w Hf) as H. unfold wp in H.
    destruct (dispatch pre w) as [[] w1 | f]; [ | exact H].
    destruct H as (Hf1 & Hs & evs & Hc & Hq).
    split; [exact Hf1 | split].
    + destruct Hs. constructor; assumption.
    + right. split; [reflexivity | split; [reflexivity | ]].
      exists (to_int c), evs. split; [reflexivity | ].
      cbn [calls]. rewrite Hc, <- app_assoc. split; [reflexivity | exact Hq].
Qed.

End LoopFacts.

(** A property of the locals and the globals kept by every iteration is
    kept by a run. *)
Section RunInvariant.

Variable Inv : Loop -> World -> Prop.
Variable Ret : Z -> World -> Prop.

Hypothesis step :
  forall l i w, flag_ok w -> Inv l w ->
    match tick l i w with
    | Ok (l', None) w' => Inv l' w'
    | Ok (_, Some code) w' => Ret code w'
    | Stuck _ => True
    end.

Lemma run_invariant (ticks : list TickInput) :
  forall l w, flag_ok w -> Inv l w ->
    match run l ticks w with
    | Running l' w' => Inv l' w'
    | Returned code w' => Ret code w'
    | Undefined f => f = UndefinedConversion
    end.
Proof.
  induction ticks as [ | i rest IH]; intros l w Hf Hi; cbn [run];
    [exact Hi | ].
  pose proof (step l i w Hf Hi) as Hs.
  pose proof (tick_shape l i w Hf) as Ht.
  destruct (tick l i w) as [[l' [code | ]] w' | f]; [exact Hs | | exact Ht].
  apply IH; [exact (proj1 Ht) | exact Hs].
Qed.

End RunInvariant.

(* ================================================================== *)
(** * Leaving the loop, the clock and the statistics *)
(* ================================================================== *)

Section ExitFacts.

Lemma to_int_range (z : Z) : - 2 ^ 31 <= to_int z < 2 ^ 31.
Proof.
  unfold to_int. pose proof (Z.mod_pos_bound z (2 ^ 32) ltac:(lia)) as H.
  destruct (z mod 2 ^ 32 <? 2 ^ 31) eqn:E;
    [apply Z.ltb_lt in E | apply Z.ltb_ge in E]; lia.
Qed.

Lemma to_int_low_bits (z : Z) : to_int z mod 2 ^ 32 = z mod 2 ^ 32.
Proof.
  unfold to_int. destruct (z mod 2 ^ 32 <? 2 ^ 31).
  - apply Z.mod_mod. lia.
  - replace (z mod 2 ^ 32 - 2 ^ 32) with (z mod 2 ^ 32 + (-1) * 2 ^ 32) by lia.
    rewrite Z_mod_plus_full. apply Z.mod_mod. lia.
Qed.

Lemma quiet_render_nonneg (evs : list Event) :
  Forall (fun e => quiet e = true) evs ->
  Forall (fun e => render_nonneg e = true) evs.
Proof.
  apply Forall_impl. intros e H. destruct e; try discriminate H; reflexivity.
Qed.

Lemma frame_calls_render_nonneg (flag : bool) (s : Settings) (l : Loop)
    (i : TickInput) :
  nonneg (frameTime (advance s l (count i))) = true ->
  Forall (fun e => render_nonneg e = true) (frame_calls flag s l i).
Proof.
  intros H.
  assert (Hr : render_nonneg (render_call s (advance s l (count i))) = true).
  { unfold render_call, render_nonneg. rewrite nonneg_leb32.
    apply of_double_nonneg. exact H. }
  unfold frame_calls. cbv zeta. rewrite !Forall_app.
  unfold switch_calls, wait_calls, pace_calls, finish_calls.
  repeat split.
  - destruct (Bool.eqb flag (d3d12 s)); repeat constructor.
  - repeat constructor.
  - destruct (d3d12 s); repeat constructor.
  - constructor; [exact Hr | constructor].
  - destruct (lockFrameRate s); [ | constructor].
    destruct (pacing _ _); repeat constructor.
  - destruct (closing s _); repeat constructor.
Qed.

End ExitFacts.

(** X3.  A [WM_QUIT] ends the run at once: in the iteration that meets it,
    the messages before it are dispatched, the workloads are deleted, and
    [main] returns [(int) msg.wParam], the low 32 bits of [wParam] read as
    a signed number.  The messages after it, the inertia, the counter
    readings, the locals and the iterations that would follow play no part;
    nothing is rendered, nothing sleeps and no file is written. *)
Theorem quit_message_ends_run (l : Loop) (pre post : list Msg) (wParam : Z)
    (os : list InteractionOutput) (c c' : Z) (rest : list TickInput)
    (w : World) :
  flag_ok w ->
  quit_free pre = true ->
  - 2 ^ 31 <= to_int wParam < 2 ^ 31 /\
  to_int wParam mod 2 ^ 32 = wParam mod 2 ^ 32 /\
  match dispatch pre w with
  | Ok _ w1 =>
      quiet_ext w w1 /\
      run l (mkTick (pre ++ WM_QUIT wParam :: post) os c c' :: rest) w
      = Returned (to_int wParam)
          (mkWorld (gSettings w1) (gCamera w1) (gWorkloadD3D11 w1)
                   (gWorkloadD3D12 w1) (calls w1 ++ [E_Cleanup]))
  | Stuck f =>
      f = UndefinedConversion /\
      run l (mkTick (pre ++ WM_QUIT wParam :: post) os c c' :: rest) w
      = Undefined f
  end.
Proof.
  intros Hf Hpre.
  split; [apply to_int_range | split; [apply to_int_low_bits | ]].
  cbn [run]. rewrite (tick_quit l pre post wParam os c c' w Hpre).
  pose proof (dispatch_wp pre w Hf) as H. unfold wp in H.
  destruct (dispatch pre w) as [[] w1 | f].
  - split; [apply H | reflexivity].
  - split; [exact H | reflexivity].
Qed.

(** Escape is pressed, the window is destroyed, and the quit message
    carries the code 0 of [PostQuitMessage(0)]; a resize queued behind it is
    never handled. *)
Lemma quit_message_ends_run_witness :
  flag_ok scenario_world /\
  quit_free [WM_KEYDOWN VK_ESCAPE 0; WM_DESTROY] = true /\
  run (loop_init 1000 0)
      [mkTick ([WM_KEYDOWN VK_ESCAPE 0; WM_DESTROY]
                 ++ WM_QUIT 0 :: [WM_SIZE (300 * 65536 + 400)]) [] 16 16;
       mkTick [] [] 32 32]
      scenario_world
  = Returned 0
      (mkWorld scenario_settings scenario_camera
               (Some NotCreated) (Some (Live 800 600))
               [E_ResizeSwapChain D3D12 800 600; E_SendClose;
                E_PostQuitMessage 0; E_Cleanup]).
Proof.
  assert (Hf : flag_ok scenario_world) by (split; intros; discriminate).
  split; [exact Hf | split; [reflexivity | ]].
  pose proof (quit_message_ends_run (loop_init 1000 0)
                [WM_KEYDOWN VK_ESCAPE 0; WM_DESTROY]
                [WM_SIZE (300 * 65536 + 400)] 0 [] 16 16
                [mkTick [] [] 32 32] scenario_world Hf eq_refl) as H.
  destruct H as (_ & _ & H).
  change (dispatch [WM_KEYDOWN VK_ESCAPE 0; WM_DESTROY] scenario_world)
    with (Ok tt (mkWorld scenario_settings scenario_camera
                   (Some NotCreated) (Some (Live 800 600))
                   [E_ResizeSwapChain D3D12 800 600; E_SendClose;
                    E_PostQuitMessage 0])) in H.
  exact (proj2 H).
Defined.

(** X4.  Without a positive close-after duration (zero, negative or NaN)
    the loop keeps no statistics and never ends by itself: the frame count,
    the FPS sum, minimum and maximum, the sampling interval and the time
    series stay as they are, no file is ever written, and the run can only
    return through a [WM_QUIT], its last call being the cleanup. *)
Theorem no_statistics_without_close_after (ticks : list TickInput)
    (l : Loop) (w : World) :
  flag_ok w ->
  Fp.gtb (closeAfterSeconds (gSettings w)) (F64.of_Z 0) = false ->
  match run l ticks w with
  | Running l' w' =>
      numFrames l' = numFrames l /\ sumFPS l' = sumFPS l /\
      minFPS l' = minFPS l /\ maxFPS l' = maxFPS l /\
      timeInterval l' = timeInterval l /\
      fpsHistoryVector l' = fpsHistoryVector l /\
      exists evs, calls w' = calls w ++ evs /\
                  Forall (fun e => is_file e = false) evs
  | Returned code w' =>
      exists evs, calls w' = calls w ++ evs ++ [E_Cleanup] /\
                  Forall (fun e => is_file e = false) evs
  | Undefined f => f = UndefinedConversion
  end.
Proof.
  intros Hf HD.
  set (Inv := fun (l' : Loop) (w' : World) =>
    closeAfterSeconds (gSettings w') = closeAfterSeconds (gSettings w) /\
    numFrames l' = numFrames l /\ sumFPS l' = sumFPS l /\
    minFPS l' = minFPS l /\ maxFPS l' = maxFPS l /\
    timeInterval l' = timeInterval l /\
    fpsHistoryVector l' = fpsHistoryVector l /\
    exists evs, calls w' = calls w ++ evs /\
                Forall (fun e => is_file e = false) evs).
  set (Ret := fun (code : Z) (w' : World) =>
    exists evs, calls w' = calls w ++ evs ++ [E_Cleanup] /\
                Forall (fun e => is_file e = false) evs).
  assert (Hrun : match run l ticks w with
                 | Running l' w' => Inv l' w'
                 | Returned code w' => Ret code w'
                 | Undefined f => f = UndefinedConversion
                 end).
  { apply run_invariant; [ | exact Hf | ].
    - clear ticks. intros l1 i w1 Hf1 (HC & I1 & I2 & I3 & I4 & I5 & I6 & evs0 & Hc0 & Hq0).
      pose proof (tick_shape l1 i w1 Hf1) as Ht.
      destruct (tick l1 i w1) as [[l' r] w' | f]; [ | exact I].
      destruct Ht as (_ & Hs & [(_ & w2 & Hs2 & (evs & Hc & Hq) & Hp)
                              | (_ & El & code & evs & Er & Hc & Hq)]).
      + pose proof (fp_locals _ _ _ _ _ _ _ Hp) as EL.
        pose proof (fp_result _ _ _ _ _ _ _ Hp) as ER.
        pose proof (fp_calls _ _ _ _ _ _ _ Hp) as EC.
        assert (HD2 : Fp.gtb (closeAfterSeconds (gSettings w2)) (F64.of_Z 0)
                      = false)
          by (rewrite (st_close _ _ Hs2), HC; exact HD).
        assert (Hcl : closing (gSettings w2) l' = false)
          by (unfold closing; rewrite HD2; reflexivity).
        rewrite Hcl in ER. subst r.
        destruct (advance_idle (gSettings w2) l1 (count i) HD2)
          as (A1 & A2 & A3 & A4).
        destruct (advance_idle_extremes (gSettings w2) l1 (count i) HD2)
          as (A5 & A6).
        rewrite <- EL in A1, A2, A3, A4, A5, A6.
        destruct (frame_calls_files (d3d12 (gSettings w1)) (gSettings w2)
                    l1 i) as (pre & Efc & Hpre).
        rewrite <- EL in Efc. unfold finish_calls in Efc.
        rewrite Hcl, app_nil_r in Efc.
        unfold Inv. rewrite (st_close _ _ Hs), HC.
        repeat split; try congruence.
        exists (evs0 ++ evs ++ pre). split.
        * rewrite EC, Efc, Hc, Hc0. rewrite <- !app_assoc. reflexivity.
        * rewrite !Forall_app.
          repeat split; auto using quiet_not_file.
      + subst r. unfold Ret. exists (evs0 ++ evs). split.
        * rewrite Hc, Hc0. rewrite <- !app_assoc. reflexivity.
        * apply Forall_app; split; auto using quiet_not_file.
    - unfold Inv. repeat split.
      exists []. split; [rewrite app_nil_r; reflexivity | constructor]. }
  destruct (run l ticks w) as [l' w' | code w' | f];
    [ | exact Hrun | exact Hrun].
  apply Hrun.
Qed.

(** Two frames of the half-scale world, whose close-after duration is
    zero. *)
Lemma no_statistics_without_close_after_witness :
  flag_ok half_scale_world /\
  Fp.gtb (closeAfterSeconds (gSettings half_scale_world)) (F64.of_Z 0)
  = false /\
  match run (loop_init 1000 0)
          [mkTick [WM_SIZE (600 * 65536 + 800)] [] 5000 5000;
           mkTick [] [] 10000 10000]
          half_scale_world with
  | Running l' w' =>
      numFrames l' = 0 /\ fpsHistoryVector l' = [] /\
      exists evs, calls w' = calls half_scale_world ++ evs /\
                  Forall (fun e => is_file e = false) evs
  | _ => False
  end.
Proof.
  assert (Hf : flag_ok half_scale_world) by (split; intros; discriminate).
  assert (HD : Fp.gtb (closeAfterSeconds (gSettings half_scale_world))
                 (F64.of_Z 0) = false) by (vm_compute; reflexivity).
  split; [exact Hf | split; [exact HD | ]].
  pose proof (no_statistics_without_close_after
                [mkTick [WM_SIZE (600 * 65536 + 800)] [] 5000 5000;
                 mkTick [] [] 10000 10000]
                (loop_init 1000 0) half_scale_world Hf HD) as H.
  destruct (run (loop_init 1000 0) _ half_scale_world) as [l' w' | code w' | f]
    eqn:E.
  - destruct H as (H1 & _ & _ & _ & _ & H6 & H7).
    split; [exact H1 | split; [exact H6 | exact H7]].
  - vm_compute in E. discriminate E.
  - vm_compute in E. discriminate E.
Defined.

(** X5.  The clock of an iteration that renders: the elapsed time grows by
    the raw, unsmoothed time between the two counter readings, the reading
    is kept for the next iteration, and the FPS value the statistics use is
    [1 / frameTime] of the smoothed frame time, except that it keeps its
    previous value while the frame-rate lock is engaged and when the
    smoothed frame time is zero. *)
Theorem frame_clock_and_fps (l : Loop) (i : TickInput) (w : World) :
  flag_ok w ->
  quit_free (msgs i) = true ->
  match tick l i w with
  | Stuck f => f = UndefinedConversion
  | Ok (l', _) w' =>
      let raw :=
        counter_seconds (perfCounterFreq l) (lastPerfCount l) (count i) in
      lastPerfCount l' = count i /\
      perfCounterFreq l' = perfCounterFreq l /\
      elapsedTime l' = F64.add (elapsedTime l) raw /\
      currentFPS l'
      = (if lockFrameRate (gSettings w') then currentFPS l
         else if Fp.neqb (frameTime l') (F64.of_Z 0)
              then F64.div (F64.of_Z 1) (frameTime l')
              else currentFPS l)
  end.
Proof.
  intros Hf Hq.
  pose proof (tick_shape l i w Hf) as Ht.
  destruct (tick l i w) as [[l' r] w' | f]; [ | exact Ht].
  destruct Ht as (_ & _ & [(_ & w1 & _ & _ & Hp) | (Hq' & _)]);
    [ | congruence].
  pose proof (fp_locals _ _ _ _ _ _ _ Hp) as EL.
  pose proof (fp_settings _ _ _ _ _ _ _ Hp) as ES.
  cbv zeta. rewrite ES.
  destruct (advance_elapsedTime (gSettings w1) l (count i)) as [E1 E2].
  pose proof (advance_perfCounterFreq (gSettings w1) l (count i)) as E3.
  pose proof (advance_currentFPS (gSettings w1) l (count i)) as E4.
  pose proof (advance_frameTime (gSettings w1) l (count i)) as E5.
  rewrite <- EL in E1, E2, E3, E4, E5.
  split; [exact E2 | split; [exact E3 | split; [exact E1 | ]]].
  rewrite E4, <- E5. unfold update_fps. rewrite <- one_promoted. reflexivity.
Qed.

(** Two readings 16 ms apart with the lock engaged: the FPS value stays at
    its initial zero. *)
Lemma frame_clock_and_fps_witness :
  flag_ok locked_world /\
  exists l' r w',
    tick (loop_init 1000 0) (mkTick [] [] 16 16) locked_world = Ok (l', r) w' /\
    lastPerfCount l' = 16 /\
    elapsedTime l' = F64.add (F64.of_Z 0) (counter_seconds 1000 0 16) /\
    currentFPS l' = F64.of_Z 0.
Proof.
  assert (Hf : flag_ok locked_world) by (split; intros; discriminate).
  split; [exact Hf | ].
  pose proof (frame_clock_and_fps (loop_init 1000 0) (mkTick [] [] 16 16)
                locked_world Hf eq_refl) as H.
  destruct (tick (loop_init 1000 0) (mkTick [] [] 16 16) locked_world)
    as [[l' r] w' | f] eqn:E; [ | vm_compute in E; discriminate E].
  exists l', r, w'. split; [reflexivity | ].
  destruct H as (H1 & _ & H3 & H4).
  split; [exact H1 | split; [exact H3 | ]].
  rewrite H4.
  assert (EL : lockFrameRate (gSettings w') = true).
  { vm_compute in E. injection E as _ _ E. subst w'. reflexivity. }
  rewrite EL. reflexivity.
Defined.

(** X6.  On a performance counter whose frequency is below [2 ^ 53] ticks
    per second the frame time never becomes negative or NaN: from locals
    with [0.0 <= frameTime] and [0.0 <= elapsedTime], whatever the counter
    readings are (a reading lower than the last one wraps around in
    [UINT64]), every iteration leaves both so, and every frame time handed
    to a backend's [Render] satisfies [0.0f <= frameTime]. *)
Theorem frame_time_never_negative (ticks : list TickInput) (l : Loop)
    (w : World) :
  flag_ok w ->
  0 < perfCounterFreq l < 2 ^ 53 ->
  Fp.leb (F64.of_Z 0) (frameTime l) = true ->
  Fp.leb (F64.of_Z 0) (elapsedTime l) = true ->
  match run l ticks w with
  | Running l' w' =>
      Fp.leb (F64.of_Z 0) (frameTime l') = true /\
      Fp.leb (F64.of_Z 0) (elapsedTime l') = true /\
      exists evs, calls w' = calls w ++ evs /\
                  Forall (fun e => render_nonneg e = true) evs
  | Returned _ w' =>
      exists evs, calls w' = calls w ++ evs /\
                  Forall (fun e => render_nonneg e = true) evs
  | Undefined f => f = UndefinedConversion
  end.
Proof.
  intros Hf Hfreq H1 H2. rewrite nonneg_leb64 in H1, H2.
  set (Inv := fun (l' : Loop) (w' : World) =>
    perfCounterFreq l' = perfCounterFreq l /\
    nonneg (frameTime l') = true /\ nonneg (elapsedTime l') = true /\
    exists evs, calls w' = calls w ++ evs /\
                Forall (fun e => render_nonneg e = true) evs).
  set (Ret := fun (code : Z) (w' : World) =>
    exists evs, calls w' = calls w ++ evs /\
                Forall (fun e => render_nonneg e = true) evs).
  assert (Hrun : match run l ticks w with
                 | Running l' w' => Inv l' w'
                 | Returned code w' => Ret code w'
                 | Undefined f => f = UndefinedConversion
                 end).
  { apply run_invariant; [ | exact Hf | ].
    - clear ticks. intros l1 i w1 Hf1 (I0 & I1 & I2 & evs0 & Hc0 & Hq0).
      pose proof (tick_shape l1 i w1 Hf1) as Ht.
      destruct (tick l1 i w1) as [[l' r] w' | f]; [ | exact I].
      destruct Ht as (_ & _ & [(_ & w2 & _ & (evs & Hc & Hq) & Hp)
                              | (_ & El & code & evs & Er & Hc & Hq)]).
      + pose proof (fp_locals _ _ _ _ _ _ _ Hp) as EL.
        pose proof (fp_calls _ _ _ _ _ _ _ Hp) as EC.
        assert (Hraw : nonneg (counter_seconds (perfCounterFreq l1)
                                 (lastPerfCount l1) (count i)) = true)
          by (apply counter_seconds_nonneg; rewrite I0; exact Hfreq).
        assert (F1 : nonneg (frameTime l') = true).
        { rewrite EL, advance_frameTime. apply smooth_nonneg; assumption. }
        assert (F2 : nonneg (elapsedTime l') = true).
        { rewrite EL, (proj1 (advance_elapsedTime _ _ _)).
          apply SFadd_nonneg; assumption. }
        assert (F3 : perfCounterFreq l' = perfCounterFreq l)
          by (rewrite EL, advance_perfCounterFreq; exact I0).
        assert (F4 : exists evs', calls w' = calls w ++ evs' /\
                       Forall (fun e => render_nonneg e = true) evs').
        { exists (evs0 ++ evs ++ frame_calls (d3d12 (gSettings w1))
                                  (gSettings w2) l1 i). split.
          - rewrite EC, Hc, Hc0. rewrite <- !app_assoc. reflexivity.
          - rewrite !Forall_app.
            split; [exact Hq0 | split; [apply quiet_render_nonneg, Hq | ]].
            apply frame_calls_render_nonneg. rewrite <- EL. exact F1. }
        destruct r as [code | ]; [exact F4 | ].
        unfold Inv. auto.
      + subst r. unfold Ret. exists (evs0 ++ evs ++ [E_Cleanup]). split.
        * rewrite Hc, Hc0. rewrite <- !app_assoc. reflexivity.
        * rewrite !Forall_app.
          split; [exact Hq0 | split; [apply quiet_render_nonneg, Hq | ]].
          constructor; [reflexivity | constructor].
    - unfold Inv. repeat split; try assumption.
      exists []. split; [rewrite app_nil_r; reflexivity | constructor]. }
  destruct (run l ticks w) as [l' w' | code w' | f];
    [ | exact Hrun | exact Hrun].
  destruct Hrun as (_ & F1 & F2 & F4). rewrite !nonneg_leb64. auto.
Qed.

(** A counter that runs backwards between two iterations: the second
    reading is lower than the first. *)
Lemma frame_time_never_negative_witness :
  flag_ok half_scale_world /\
  0 < perfCounterFreq (loop_init 1000 0) < 2 ^ 53 /\
  match run (loop_init 1000 0)
          [mkTick [] [] 5000 5000; mkTick [] [] 4000 4000]
          half_scale_world with
  | Running l' w' =>
      Fp.leb (F64.of_Z 0) (frameTime l') = true /\
      exists evs, calls w' = calls half_scale_world ++ evs /\
                  Forall (fun e => render_nonneg e = true) evs
  | _ => False
  end.
Proof.
  assert (Hf : flag_ok half_scale_world) by (split; intros; discriminate).
  assert (Hq : 0 < perfCounterFreq (loop_init 1000 0) < 2 ^ 53)
    by (cbn [perfCounterFreq loop_init]; lia).
  split; [exact Hf | split; [exact Hq | ]].
  pose proof (frame_time_never_negative
                [mkTick [] [] 5000 5000; mkTick [] [] 4000 4000]
                (loop_init 1000 0) half_scale_world Hf Hq eq_refl eq_refl) as H.
  destruct (run (loop_init 1000 0) _ half_scale_world) as [l' w' | code w' | f]
    eqn:E.
  - destruct H as (H1 & _ & H3). split; [exact H1 | exact H3].
  - vm_compute in E. discriminate E.
  - vm_compute in E. discriminate E.
Defined.

(* ================================================================== *)
(** * What a message can and cannot change *)
(* ================================================================== *)

Section FootprintFacts.

Lemma fold_apply_output_fields (os : list InteractionOutput) :
  forall c,
    mMinRadius (fold_left apply_output os c) = mMinRadius c /\
    mMaxRadius (fold_left apply_output os c) = mMaxRadius c /\
    mProjection (fold_left apply_output os c) = mProjection c.
Proof.
  induction os as [ | o os IH]; intros c; cbn [fold_left];
    [repeat split | ].
  destruct (IH (apply_output c o)) as (E1 & E2 & E3).
  rewrite E1, E2, E3.
  destruct o as [d | ]; cbn [apply_output]; [ | repeat split].
  destruct (callback_fields c d) as (F1 & F2 & F3 & _).
  repeat split; assumption.
Qed.

(** The three pointer cases in closed form, when [GetPointerInfo]
    succeeds. *)
Lemma on_pointer_eq (down up : bool) (p : PointerInput) (w : World) :
  GetPointerInfo p = true ->
  on_pointer down up p w
  = Ok tt
      (mkWorld
         (if down then
            match HitTest p with
            | Some FPSControl =>
                set_lockFrameRate (negb (lockFrameRate (gSettings w)))
                                  (gSettings w)
            | Some D3D11Control =>
                set_d3d12 (match gWorkloadD3D12 w with
                           | None => false | Some _ => true end)
                          (gSettings w)
            | Some D3D12Control =>
                set_d3d12 (match gWorkloadD3D11 w with
                           | None => true | Some _ => false end)
                          (gSettings w)
            | None => gSettings w
            end
          else gSettings w)
         (fold_left apply_output (frameOutputs p) (gCamera w))
         (gWorkloadD3D11 w) (gWorkloadD3D12 w)
         (calls w
          ++ (if down then match HitTest p with
                           | None => [E_AddPointer (pointerId p)]
                           | Some _ => []
                           end
              else [])
          ++ [E_ProcessPointerFrames (pointerId p)]
          ++ (if up then [E_RemovePointer (pointerId p)] else []))).
Proof.
  intros Hi. unfold on_pointer. rewrite Hi.
  destruct w as [s c w11 w12 cs].
  destruct down; [destruct (HitTest p) as [[ | | ] | ] | ];
    unfold select_d3d11, select_d3d12; msimp; rewrite deliver_eq; msimp;
    destruct up; msimp; rewrite <- ?app_assoc, ?app_nil_r;
    reflexivity.
Qed.

End FootprintFacts.

(** X8.  What a message that the window procedure handles to its end can
    change.  Only [WM_SIZE] touches the window size, the render size, the
    projection or a swap chain; only the messages that choose a backend
    change the flag [gSettings.d3d12]; only the mouse wheel and the pointer
    messages move the camera; and no message changes the render scale, the
    WARP flag or the bounds of the camera's radius, or creates or deletes a
    workload.  Nothing is said of a message whose handling stops on
    undefined behaviour. *)
Theorem message_footprint (m : Msg) (w : World) :
  match WindowProc m w with
  | Stuck _ => True
  | Ok _ w' =>
      (is_size m = false ->
       windowWidth (gSettings w') = windowWidth (gSettings w) /\
       windowHeight (gSettings w') = windowHeight (gSettings w) /\
       renderWidth (gSettings w') = renderWidth (gSettings w) /\
       renderHeight (gSettings w') = renderHeight (gSettings w) /\
       mProjection (gCamera w') = mProjection (gCamera w) /\
       gWorkloadD3D11 w' = gWorkloadD3D11 w /\
       gWorkloadD3D12 w' = gWorkloadD3D12 w /\
       exists evs, calls w' = calls w ++ evs /\
                   Forall (fun e => touches_swap_chain e = false) evs) /\
      (selects_backend m = false ->
       d3d12 (gSettings w') = d3d12 (gSettings w)) /\
      (moves_camera m = false ->
       mRadius (gCamera w') = mRadius (gCamera w) /\
       mLongAngle (gCamera w') = mLongAngle (gCamera w) /\
       mLatAngle (gCamera w') = mLatAngle (gCamera w)) /\
      renderScale (gSettings w') = renderScale (gSettings w) /\
      warp (gSettings w') = warp (gSettings w) /\
      same_bounds (gCamera w) (gCamera w') /\
      (forall b, gWorkload b w' = None <-> gWorkload b w = None)
  end.
Proof.
  assert (Hnil : forall w0 : World,
            exists evs, calls w0 = calls w0 ++ evs /\
                        Forall (fun e => touches_swap_chain e = false) evs)
    by (intros w0; exists []; split;
        [rewrite app_nil_r; reflexivity | constructor]).
  assert (Hone : forall (cs : list Event) (e : Event),
            touches_swap_chain e = false ->
            exists evs, cs ++ [e] = cs ++ evs /\
                        Forall (fun e => touches_swap_chain e = false) evs)
    by (intros cs e He; exists [e]; split;
        [reflexivity | constructor; [exact He | constructor]]).
  destruct m as [ | lParam | wParam lParam | wParam lParam | wParam
                | p | p | p | wParam | ]; cbn [WindowProc].
  - (* WM_DESTROY *)
    msimp. unfold same_bounds.
    repeat split; auto; try (intros; assumption).
  - (* WM_SIZE *)
    unfold on_WM_SIZE, ResizeSwapChain.
    destruct ((LOWORD lParam =? 0) || (HIWORD lParam =? 0)); msimp.
    + unfold same_bounds. repeat split; auto; try discriminate;
        try (intros; assumption).
    + destruct (Fp.to_u32 _) as [rw | ]; [ | exact I]. msimp.
      destruct (Fp.to_u32 _) as [rh | ]; [ | exact I]. msimp.
      destruct (d3d12 (gSettings w)) eqn:E; msimp.
      * destruct (gWorkloadD3D12 w) eqn:E12; [ | exact I]. msimp.
        unfold same_bounds, Camera.Projection.
        cbn [mRadius mMinRadius mMaxRadius mLongAngle mLatAngle].
        repeat split; auto; try discriminate;
          destruct b; cbn [gWorkload gWorkloadD3D11 gWorkloadD3D12];
          congruence.
      * destruct (gWorkloadD3D11 w) eqn:E11; [ | exact I]. msimp.
        unfold same_bounds, Camera.Projection.
        cbn [mRadius mMinRadius mMaxRadius mLongAngle mLatAngle].
        repeat split; auto; try discriminate;
          destruct b; cbn [gWorkload gWorkloadD3D11 gWorkloadD3D12];
          congruence.
  - (* WM_KEYDOWN *)
    unfold on_WM_KEYDOWN, select_d3d11, select_d3d12, selects_backend.
    destruct (Z.testbit lParam 30); cbn [negb andb];
      repeat match goal with
             | |- context [if ?c then _ else _] => destruct c
             end;
      msimp; unfold same_bounds; cbn [orb];
      repeat split; auto; try discriminate; try (intros; assumption).
  - (* WM_SYSKEYDOWN *)
    unfold on_WM_SYSKEYDOWN.
    destruct (Z.testbit lParam 30); [ | destruct (wParam =? VK_RETURN)];
      msimp; unfold same_bounds;
      repeat split; auto; try (intros; assumption).
  - (* WM_MOUSEWHEEL *)
    unfold on_WM_MOUSEWHEEL. msimp. unfold same_bounds, Camera.ZoomRadius.
    cbn [mRadius mMinRadius mMaxRadius mLongAngle mLatAngle mProjection].
    repeat split; auto; try discriminate; try (intros; assumption).
  - (* WM_POINTERDOWN *)
    destruct (GetPointerInfo p) eqn:Hi.
    + rewrite (on_pointer_eq true false p w Hi).
      destruct (fold_apply_output_fields (frameOutputs p) (gCamera w))
        as (F1 & F2 & F3).
      cbn [selects_backend]. rewrite Hi. world_cbn. unfold same_bounds.
      destruct (HitTest p) as [[ | | ] | ]; world_cbn; cbn [andb];
        repeat split; auto; try discriminate; try (intros; assumption);
        eexists; (split; [reflexivity | repeat constructor]).
    + unfold on_pointer. rewrite Hi. msimp. unfold same_bounds.
      repeat split; auto; try (intros; assumption).
  - (* WM_POINTERUPDATE *)
    destruct (GetPointerInfo p) eqn:Hi.
    + rewrite (on_pointer_eq false false p w Hi).
      destruct (fold_apply_output_fields (frameOutputs p) (gCamera w))
        as (F1 & F2 & F3).
      world_cbn. unfold same_bounds.
      repeat split; auto; try discriminate; try (intros; assumption).
      eexists; (split; [reflexivity | repeat constructor]).
    + unfold on_pointer. rewrite Hi. msimp. unfold same_bounds.
      repeat split; auto; try (intros; assumption).
  - (* WM_POINTERUP *)
    destruct (GetPointerInfo p) eqn:Hi.
    + rewrite (on_pointer_eq false true p w Hi).
      destruct (fold_apply_output_fields (frameOutputs p) (gCamera w))
        as (F1 & F2 & F3).
      world_cbn. unfold same_bounds.
      repeat split; auto; try discriminate; try (intros; assumption).
      eexists; (split; [reflexivity | repeat constructor]).
    + unfold on_pointer. rewrite Hi. msimp. unfold same_bounds.
      repeat split; auto; try (intros; assumption).
  - (* WM_QUIT, never dispatched *)
    msimp. unfold same_bounds.
    repeat split; auto; try (intros; assumption).
  - msimp. unfold same_bounds.
    repeat split; auto; try (intros; assumption).
Qed.

(** A first press of Space in the scenario: the flag, the sizes, the swap
    chains and the camera are as before. *)
Lemma message_footprint_witness :
  is_size (WM_KEYDOWN VK_SPACE 0) = false /\
  selects_backend (WM_KEYDOWN VK_SPACE 0) = false /\
  moves_camera (WM_KEYDOWN VK_SPACE 0) = false /\
  exists w',
    WindowProc (WM_KEYDOWN VK_SPACE 0) scenario_world = Ok tt w' /\
    d3d12 (gSettings w') = d3d12 (gSettings scenario_world) /\
    gWorkloadD3D12 w' = gWorkloadD3D12 scenario_world /\
    mRadius (gCamera w') = mRadius (gCamera scenario_world).
Proof.
  split; [reflexivity | split; [reflexivity | split; [reflexivity | ]]].
  pose proof (message_footprint (WM_KEYDOWN VK_SPACE 0) scenario_world) as H.
  destruct (WindowProc (WM_KEYDOWN VK_SPACE 0) scenario_world)
    as [[] w' | f] eqn:E; [ | vm_compute in E; discriminate E].
  exists w'. split; [reflexivity | ].
  destruct H as (H1 & H2 & H3 & _).
  split; [exact (H2 eq_refl) | split].
  - apply (H1 eq_refl).
  - apply (H3 eq_refl).
Defined.

(** X9.  The pointer messages and the interaction context.  When
    [GetPointerInfo] fails the message changes nothing.  Otherwise a
    pointer-update and a pointer-up are handled to their end; each of
    them, and a pointer-down that is handled to its end, has its frame
    processed exactly once and hands the camera the outputs delivered
    meanwhile, in order; such a pointer-down registers the pointer only
    when it hits no GUI control, and a pointer-up removes the pointer after
    its frame was processed, whether or not it had been registered. *)
Theorem pointer_registration (p : PointerInput) (w : World) :
  if GetPointerInfo p then
    (forall w',
        WindowProc (WM_POINTERDOWN p) w = Ok tt w' ->
        gCamera w' = fold_left apply_output (frameOutputs p) (gCamera w) /\
        calls w'
        = calls w
          ++ match HitTest p with
             | None => [E_AddPointer (pointerId p)]
             | Some _ => []
             end
          ++ [E_ProcessPointerFrames (pointerId p)]) /\
    (exists w',
        WindowProc (WM_POINTERUPDATE p) w = Ok tt w' /\
        gCamera w' = fold_left apply_output (frameOutputs p) (gCamera w) /\
        gSettings w' = gSettings w /\
        calls w' = calls w ++ [E_ProcessPointerFrames (pointerId p)]) /\
    (exists w',
        WindowProc (WM_POINTERUP p) w = Ok tt w' /\
        gCamera w' = fold_left apply_output (frameOutputs p) (gCamera w) /\
        gSettings w' = gSettings w /\
        calls w'
        = calls w ++ [E_ProcessPointerFrames (pointerId p);
                      E_RemovePointer (pointerId p)])
  else
    WindowProc (WM_POINTERDOWN p) w = Ok tt w /\
    WindowProc (WM_POINTERUPDATE p) w = Ok tt w /\
    WindowProc (WM_POINTERUP p) w = Ok tt w.
Proof.
  destruct (GetPointerInfo p) eqn:Hi; cbn [WindowProc].
  - rewrite (on_pointer_eq true false p w Hi),
            (on_pointer_eq false false p w Hi),
            (on_pointer_eq false true p w Hi).
    split; [ | split].
    + intros w' E. injection E as E. subst w'. world_cbn.
      rewrite ?app_nil_r. split; reflexivity.
    + eexists. split; [reflexivity | ]. world_cbn.
      rewrite ?app_nil_r. repeat split; reflexivity.
    + eexists. split; [reflexivity | ]. world_cbn.
      rewrite ?app_nil_r. repeat split; reflexivity.
  - unfold on_pointer. rewrite Hi. repeat split.
Qed.

(** A pointer that goes down on no GUI control in the scenario, with one
    manipulation output delivered while its frame is processed: the
    pointer is registered, then its frame is processed. *)
Lemma pointer_registration_witness :
  exists w',
    WindowProc
      (WM_POINTERDOWN
         (mkPointer 7 true None
            [INTERACTION_ID_MANIPULATION
               (Camera.mkDelta (F32.of_Z 3) (F32.of_Z 4) (F32.of_Z 0))]))
      scenario_world = Ok tt w' /\
    calls w'
    = calls scenario_world ++ [E_AddPointer 7; E_ProcessPointerFrames 7].
Proof.
  pose proof (pointer_registration
                (mkPointer 7 true None
                   [INTERACTION_ID_MANIPULATION
                      (Camera.mkDelta (F32.of_Z 3) (F32.of_Z 4) (F32.of_Z 0))])
                scenario_world) as T.
  cbn [GetPointerInfo] in T. destruct T as [T _].
  destruct (WindowProc _ scenario_world) as [[] w' | f] eqn:E;
    [ | vm_compute in E; discriminate E].
  exists w'. split; [reflexivity | ].
  destruct (T w' eq_refl) as [_ Tc]. exact Tc.
Defined.

(** X10.  A resize to a size with no zero component stores the window
    size, recomputes the render size by truncating the product with the
    render scale, gives the camera the aspect ratio of the render size, and
    resizes the swap chain of the active backend, and of that one only, to
    exactly the render size now in the settings; the other backend's swap
    chain is left as it is.  The message fails, on an undefined conversion,
    exactly when a scaled size does not fit a [UINT]. *)
Theorem resize_reaches_active_backend (lParam : Z) (w : World) :
  flag_ok w ->
  LOWORD lParam <> 0 ->
  HIWORD lParam <> 0 ->
  match Fp.to_u32 (F64.mul (F64.of_Z (LOWORD lParam)) (renderScale (gSettings w))),
        Fp.to_u32 (F64.mul (F64.of_Z (HIWORD lParam)) (renderScale (gSettings w)))
  with
  | Some rw, Some rh =>
      exists w',
        WindowProc (WM_SIZE lParam) w = Ok tt w' /\
        windowWidth (gSettings w') = LOWORD lParam /\
        windowHeight (gSettings w') = HIWORD lParam /\
        renderWidth (gSettings w') = rw /\
        renderHeight (gSettings w') = rh /\
        d3d12 (gSettings w') = d3d12 (gSettings w) /\
        mProjection (gCamera w')
        = Some (mkPerspective
                  (Camera.fovY resize_fov (F32.div (F32.of_Z rw) (F32.of_Z rh)))
                  (F32.div (F32.of_Z rw) (F32.of_Z rh))
                  (F32.of_Z 10000) (F32.lit 1 10)) /\
        gWorkload (active w) w' = Some (Live rw rh) /\
        gWorkload (other (active w)) w' = gWorkload (other (active w)) w /\
        calls w' = calls w ++ [E_ResizeSwapChain (active w) rw rh]
  | _, _ => WindowProc (WM_SIZE lParam) w = Stuck UndefinedConversion
  end.
Proof.
  intros [H12 H11] Hw Hh. cbn [WindowProc]. unfold on_WM_SIZE, ResizeSwapChain.
  apply Z.eqb_neq in Hw, Hh. rewrite Hw, Hh. cbn [orb]. msimp.
  destruct (Fp.to_u32 (F64.mul (F64.of_Z (LOWORD lParam)) _)) as [rw | ];
    [ | reflexivity].
  msimp.
  destruct (Fp.to_u32 (F64.mul (F64.of_Z (HIWORD lParam)) _)) as [rh | ];
    [ | reflexivity].
  msimp. unfold active.
  destruct (d3d12 (gSettings w)) eqn:E; msimp.
  - destruct (gWorkloadD3D12 w) as [sc | ] eqn:E12;
      [ | exfalso; apply H12; reflexivity].
    msimp. eexists. split; [reflexivity | ]. world_cbn.
    cbn [other gWorkload gWorkloadD3D11 gWorkloadD3D12].
    repeat split; rewrite ?E; reflexivity.
  - destruct (gWorkloadD3D11 w) as [sc | ] eqn:E11;
      [ | exfalso; apply H11; reflexivity].
    msimp. eexists. split; [reflexivity | ]. world_cbn.
    cbn [other gWorkload gWorkloadD3D11 gWorkloadD3D12].
    repeat split; rewrite ?E; reflexivity.
Qed.

(** A resize to 800 by 600 at a render scale of one half. *)
Lemma resize_reaches_active_backend_witness :
  flag_ok half_scale_world /\
  LOWORD (600 * 65536 + 800) <> 0 /\
  HIWORD (600 * 65536 + 800) <> 0 /\
  exists w',
    WindowProc (WM_SIZE (600 * 65536 + 800)) half_scale_world = Ok tt w' /\
    renderWidth (gSettings w') = 400 /\
    renderHeight (gSettings w') = 300 /\
    gWorkload D3D12 w' = Some (Live 400 300) /\
    gWorkload D3D11 w' = Some NotCreated.
Proof.
  assert (Hf : flag_ok half_scale_world) by (split; intros; discriminate).
  assert (Hw : LOWORD (600 * 65536 + 800) <> 0) by (vm_compute; discriminate).
  assert (Hh : HIWORD (600 * 65536 + 800) <> 0) by (vm_compute; discriminate).
  split; [exact Hf | split; [exact Hw | split; [exact Hh | ]]].
  pose proof (resize_reaches_active_backend (600 * 65536 + 800)
                half_scale_world Hf Hw Hh) as H.
  replace (Fp.to_u32 (F64.mul (F64.of_Z (LOWORD (600 * 65536 + 800)))
                        (renderScale (gSettings half_scale_world))))
    with (Some 400) in H by (vm_compute; reflexivity).
  replace (Fp.to_u32 (F64.mul (F64.of_Z (HIWORD (600 * 65536 + 800)))
                        (renderScale (gSettings half_scale_world))))
    with (Some 300) in H by (vm_compute; reflexivity).
  destruct H as (w' & E & _ & _ & Hrw & Hrh & _ & _ & Ha & Ho & _).
  exists w'. split; [exact E | ].
  split; [exact Hrw | split; [exact Hrh | split; [exact Ha | exact Ho]]].
Defined.

(** X11.  The five toggle keys (Space, V, M, I, S): a first press changes
    the settings, a second first press restores the state exactly, and an
    auto-repeated key-down (bit 30 of [lParam] set) of any key, with or
    without Alt, changes nothing at all. *)
Theorem toggle_key_twice (k lParam1 lParam2 : Z) (w : World) :
  Z.testbit lParam1 30 = false ->
  Z.testbit lParam2 30 = false ->
  toggle_key k = true ->
  (exists w1,
      WindowProc (WM_KEYDOWN k lParam1) w = Ok tt w1 /\
      gSettings w1 <> gSettings w /\
      WindowProc (WM_KEYDOWN k lParam2) w1 = Ok tt w) /\
  (forall key lParam,
      Z.testbit lParam 30 = true ->
      WindowProc (WM_KEYDOWN key lParam) w = Ok tt w /\
      WindowProc (WM_SYSKEYDOWN key lParam) w = Ok tt w).
Proof.
  intros H1 H2 Hk. split.
  - unfold toggle_key in Hk. cbn [WindowProc]. unfold on_WM_KEYDOWN.
    rewrite H1, H2.
    destruct w as [s c w11 w12 cs].
    destruct s as [f1 f2 f3 f4 f5 f6 an vs mt ei sr f12 f13 f14 f15 f16 f17].
    destruct (k =? VK_SPACE) eqn:E1;
      [ | destruct (k =? key_V) eqn:E2;
          [ | destruct (k =? key_M) eqn:E3;
              [ | destruct (k =? key_I) eqn:E4;
                  [ | destruct (k =? key_S) eqn:E5;
                      [ | discriminate Hk]]]]];
      msimp;
      (eexists; split;
       [ reflexivity
       | split;
         [ intros E; injection E; intros;
           match goal with
           | H : negb ?b = ?b |- _ => destruct b; discriminate H
           end
         | msimp; rewrite negb_involutive; reflexivity ] ]).
  - intros key lParam Hb. cbn [WindowProc].
    unfold on_WM_KEYDOWN, on_WM_SYSKEYDOWN. rewrite Hb. split; reflexivity.
Qed.

(** Space pressed twice in the scenario. *)
Lemma toggle_key_twice_witness :
  Z.testbit 0 30 = false /\
  toggle_key VK_SPACE = true /\
  exists w1,
    WindowProc (WM_KEYDOWN VK_SPACE 0) scenario_world = Ok tt w1 /\
    animate (gSettings w1) = false /\
    WindowProc (WM_KEYDOWN VK_SPACE 0) w1 = Ok tt scenario_world.
Proof.
  split; [reflexivity | split; [reflexivity | ]].
  destruct (toggle_key_twice VK_SPACE 0 0 scenario_world
              eq_refl eq_refl eq_refl) as [(w1 & E1 & _ & E2) _].
  exists w1. split; [exact E1 | split; [ | exact E2]].
  vm_compute in E1. injection E1 as E1. subst w1. reflexivity.
Defined.

(* ================================================================== *)
(** * The command line *)
(* ================================================================== *)

Section CommandLineFacts.

Variable atof : string -> double.
Variable atoi : string -> Z.

(** One turn of the argument loop: an argument that is no option, or an
    option short of its values, ends [main]; otherwise the option's branch
    is taken and the loop goes on behind its values. *)
Lemma parse_args_step (a : string) (rest : list string) (c : CommandLine) :
  parse_args atof atoi (a :: rest) c
  = if is_option a then
      match arity a, rest with
      | O, _ =>
          parse_args atof atoi rest (apply_option atof atoi (lowercase a) [] c)
      | S O, v :: rest' =>
          parse_args atof atoi rest'
            (apply_option atof atoi (lowercase a) [v] c)
      | S (S _), v1 :: v2 :: rest' =>
          parse_args atof atoi rest'
            (apply_option atof atoi (lowercase a) [v1; v2] c)
      | _, _ => None
      end
    else None.
Proof.
  cbn [parse_args].
  unfold is_option, arity, option_names, apply_option, stricmp_eq.
  cbn [existsb].
  repeat match goal with
         | |- context [lowercase (String ?ch ?s)] =>
             let v := eval vm_compute in (lowercase (String ch s)) in
             change (lowercase (String ch s)) with v
         end.
  generalize (lowercase a). intros la.
  repeat match goal with
         | |- context [String.eqb la ?n] =>
             let E := fresh "E" in
             destruct (String.eqb la n) eqn:E;
             [ apply String.eqb_eq in E; subst la;
               destruct rest as [ | v1 [ | v2 rest']]; reflexivity
             | ]
         end.
  reflexivity.
Qed.

Lemma arity_le_2 (a : string) : (arity a <= 2)%nat.
Proof.
  unfold arity. destruct (stricmp_eq a "-window"); [lia | ].
  destruct (existsb _ _); lia.
Qed.

(** The argument loop reads a command line to its end exactly when it is
    well formed, and then it has taken the branches of its options in
    order. *)
Lemma parse_args_options (n : nat) :
  forall (args : list string) (c : CommandLine),
    (List.length args <= n)%nat ->
    parse_args atof atoi args c
    = if well_formed args
      then Some (apply_options atof atoi (options_of args) c)
      else None.
Proof.
  induction n as [ | n IH]; intros args c Hn.
  - destruct args; [reflexivity | cbn [List.length] in Hn; lia].
  - destruct args as [ | a rest]; [reflexivity | ].
    rewrite parse_args_step. cbn [well_formed options_of List.length] in *.
    destruct (is_option a); [ | reflexivity].
    destruct (arity a) as [ | [ | k]].
    + rewrite IH by lia. reflexivity.
    + destruct rest as [ | v rest']; [reflexivity | ].
      cbn [List.length] in Hn. rewrite IH by lia. reflexivity.
    + destruct rest as [ | v1 [ | v2 rest']]; try reflexivity.
      cbn [List.length] in Hn. rewrite IH by lia. reflexivity.
Qed.

Lemma well_formed_app (n : nat) :
  forall (pre more : list string),
    (List.length pre <= n)%nat ->
    well_formed pre = true ->
    well_formed (pre ++ more) = well_formed more /\
    options_of (pre ++ more) = options_of pre ++ options_of more.
Proof.
  induction n as [ | n IH]; intros pre more Hn Hw.
  - destruct pre; [split; reflexivity | cbn [List.length] in Hn; lia].
  - destruct pre as [ | a rest]; [split; reflexivity | ].
    cbn [well_formed options_of List.length app] in *.
    destruct (is_option a); [ | discriminate Hw].
    destruct (arity a) as [ | [ | k]].
    + destruct (IH rest more ltac:(lia) Hw) as [E1 E2].
      rewrite E1, E2. split; reflexivity.
    + destruct rest as [ | v rest']; [discriminate Hw | ].
      cbn [List.length app] in *.
      destruct (IH rest' more ltac:(lia) Hw) as [E1 E2].
      rewrite E1, E2. split; reflexivity.
    + destruct rest as [ | v1 [ | v2 rest']]; try discriminate Hw.
      cbn [List.length app] in *.
      destruct (IH rest' more ltac:(lia) Hw) as [E1 E2].
      rewrite E1, E2. split; reflexivity.
Qed.

Lemma apply_options_app (xs ys : list (string * list string))
    (c : CommandLine) :
  apply_options atof atoi (xs ++ ys) c
  = apply_options atof atoi ys (apply_options atof atoi xs c).
Proof. unfold apply_options. apply fold_left_app. Qed.

(** What the branches of the options of a command line leave behind. *)
Lemma apply_options_result (opts : list (string * list string)) :
  forall c, options_result atof atoi opts c (apply_options atof atoi opts c).
Proof.
  induction opts as [ | [name vs] opts IH]; intros c.
  - unfold options_result, last_value, last_second, given.
    cbn [apply_options fold_left last_values existsb].
    rewrite ?andb_true_r, ?orb_false_r. repeat split; reflexivity.
  - change (apply_options atof atoi ((name, vs) :: opts) c)
      with (apply_options atof atoi opts (apply_option atof atoi name vs c)).
    specialize (IH (apply_option atof atoi name vs c)). revert IH.
    unfold options_result, last_value, last_second, given, apply_option.
    cbn [last_values existsb fst snd].
    destruct c as [s wd a11 a12].
    repeat match goal with
           | |- context [String.eqb name ?n] =>
               let E := fresh "E" in
               destruct (String.eqb name n) eqn:E;
               [ apply String.eqb_eq in E; subst name | ]
           end.
    all: cbn [with_settings cl_settings cl_windowed cl_d3d11Available
              cl_d3d12Available set_closeAfterSeconds set_warp
              set_executeIndirect set_window set_renderScale
              set_lockedFrameRate set_statsCsvFileName
              set_statsSummaryCsvFileName
              d3d12 windowWidth windowHeight renderWidth renderHeight
              renderScale animate vsync multithreadedRendering
              executeIndirect submitRendering lockFrameRate lockedFrameRate
              closeAfterSeconds statsCsvFileName statsSummaryCsvFileName warp
              nth orb andb negb].
    all: repeat match goal with
         | |- context [String.eqb (String ?a ?x) (String ?b ?y)] =>
             let v := eval vm_compute in
                        (String.eqb (String a x) (String b y)) in
             change (String.eqb (String a x) (String b y)) with v
         end.
    all: cbn [orb andb negb].
    all: intros IH; decompose [and] IH; clear IH; repeat split.
    all: try assumption.
    all: try (rewrite ?andb_false_r, ?orb_true_r; assumption).
    all: try (match goal with
              | H : ?l = _ |- ?l = _ => rewrite H
              end;
              repeat match goal with
                     | |- context [last_values ?n ?o] =>
                         destruct (last_values n o)
                     end;
              rewrite ?andb_false_r, ?orb_true_r; reflexivity).
Qed.

(** The start of [main] behind the argument loop: when it returns early,
    and what the first iteration of the loop finds otherwise. *)
Lemma startup_result (p : Startup) :
  match startup p with
  | inl code =>
      code = -1 /\
      ((d3d11Available p = false /\ d3d12Available p = false) \/
       (d3d12Available p = true /\ warp (settings0 p) = true /\
        warpAdapter p = false))
  | inr (Stuck f) => f = UndefinedConversion
  | inr (Ok _ w) =>
      (d3d11Available p = true \/ d3d12Available p = true) /\
      d3d12Available p && warp (settings0 p) && negb (warpAdapter p) = false /\
      flag_ok w /\
      (gWorkloadD3D11 w <> None <-> d3d11Available p = true) /\
      (gWorkloadD3D12 w <> None <-> d3d12Available p = true) /\
      closeAfterSeconds (gSettings w) = closeAfterSeconds (settings0 p) /\
      lockedFrameRate (gSettings w) = lockedFrameRate (settings0 p) /\
      statsCsvFileName (gSettings w)
      = default_name (statsCsvFileName (settings0 p))
                     "asteroid_summary_stats.csv" /\
      statsSummaryCsvFileName (gSettings w)
      = default_name (statsSummaryCsvFileName (settings0 p))
                     "asteroid_stats.csv"
  end.
Proof.
  unfold startup.
  destruct (negb (d3d11Available p) && negb (d3d12Available p)) eqn:E1.
  { split; [reflexivity | left].
    destruct (d3d11Available p), (d3d12Available p); try discriminate E1.
    split; reflexivity. }
  destruct (d3d12Available p && warp (settings0 p) && negb (warpAdapter p))
    eqn:E2.
  { split; [reflexivity | right].
    destruct (d3d12Available p), (warp (settings0 p)), (warpAdapter p);
      try discriminate E2.
    repeat split. }
  set (w0 := mkWorld _ _ _ _ _).
  assert (Hsel : wp select_d3d12
                   (fun _ w' => flag_ok w' /\ stable w0 w') w0).
  { unfold select_d3d12, flag_ok, w0. msimp. split; [ | stable_tac].
    destruct (d3d11Available p), (d3d12Available p);
      try discriminate; split; intros; congruence. }
  assert (H : wp (select_d3d12 ;;; dispatch (creationMsgs p))
                 (fun _ w' => flag_ok w' /\ stable w0 w') w0).
  { apply wp_bind. revert Hsel. apply wp_mono. intros _ w1 [Hf1 Hs1].
    generalize (dispatch_wp (creationMsgs p) w1 Hf1).
    apply wp_mono. intros _ w2 [Hf2 [Hs2 _]].
    split; [exact Hf2 | exact (stable_trans _ _ _ Hs1 Hs2)]. }
  unfold wp, bind in H. unfold bind.
  destruct (select_d3d12 w0) as [[] w1 | f]; [ | exact H].
  destruct (dispatch (creationMsgs p) w1) as [[] w2 | f]; [ | exact H].
  destruct H as [Hf2 Hs2]. msimp.
  pose proof (st_null _ _ Hs2 D3D11) as N11.
  pose proof (st_null _ _ Hs2 D3D12) as N12.
  unfold w0 in N11, N12. cbn [gWorkload gWorkloadD3D11 gWorkloadD3D12] in *.
  pose proof (st_close _ _ Hs2) as C.
  pose proof (st_rate _ _ Hs2) as R.
  pose proof (st_csv _ _ Hs2) as F1.
  pose proof (st_summary _ _ Hs2) as F2.
  unfold w0 in C, R, F1, F2. cbn [gSettings] in *.
  split; [ | split; [reflexivity | split; [exact Hf2 | ]]].
  { destruct (d3d11Available p), (d3d12Available p); try discriminate E1;
      auto. }
  rewrite F1, F2.
  repeat split; try assumption.
  - intros Hn. destruct (d3d11Available p); [reflexivity | ].
    exfalso. apply Hn. apply N11. reflexivity.
  - intros Ha Hn. apply N11 in Hn. rewrite Ha in Hn. discriminate Hn.
  - intros Hn. destruct (d3d12Available p); [reflexivity | ].
    exfalso. apply Hn. apply N12. reflexivity.
  - intros Ha Hn. apply N12 in Hn. rewrite Ha in Hn. discriminate Hn.
Qed.

End CommandLineFacts.

(** X12.  The argument loop of [main] accepts exactly the well-formed
    command lines: sequences of the eleven options, matched without regard
    to letter case, each followed by the values it reads (two for
    [-window], one for the five other valued options).  On any other
    command line [main] returns -1: in particular when, behind a well-formed
    part, an argument is no option or an option is short of its values.
    Neither the initial settings nor the conversions matter, and a
    well-formed command line read in two parts gives what reading the
    second part from the result of the first gives. *)
Theorem argument_loop_accepts (atof : string -> double) (atoi : string -> Z)
    (args : list string) (c : CommandLine) :
  (parse_args atof atoi args c = None <-> well_formed args = false) /\
  (forall pre a more,
      args = pre ++ a :: more ->
      well_formed pre = true ->
      is_option a = false \/ (List.length more < arity a)%nat ->
      parse_args atof atoi args c = None) /\
  (forall pre more c1,
      args = pre ++ more ->
      parse_args atof atoi pre c = Some c1 ->
      parse_args atof atoi args c = parse_args atof atoi more c1).
Proof.
  pose proof (parse_args_options atof atoi (List.length args) args c
                (Nat.le_refl _)) as E.
  split; [ | split].
  - rewrite E. destruct (well_formed args); split; intros H;
      try discriminate H; reflexivity.
  - intros pre a more Ea Hpre Hbad. rewrite E.
    destruct (well_formed_app (List.length pre) pre (a :: more)
                (Nat.le_refl _) Hpre) as [Ew _].
    rewrite Ea, Ew. cbn [well_formed].
    destruct (is_option a); [ | reflexivity].
    destruct Hbad as [Hbad | Hbad]; [discriminate Hbad | ].
    pose proof (arity_le_2 a) as H2.
    destruct (arity a) as [ | [ | k]]; [lia | | ].
    + destruct more; [reflexivity | cbn [List.length] in Hbad; lia].
    + destruct more as [ | v1 [ | v2 more]]; try reflexivity.
      cbn [List.length] in Hbad. lia.
  - intros pre more c1 Ea Hpre.
    rewrite (parse_args_options atof atoi (List.length pre) pre c
               (Nat.le_refl _)) in Hpre.
    destruct (well_formed pre) eqn:Hw; [ | discriminate Hpre].
    injection Hpre as Hc1.
    destruct (well_formed_app (List.length pre) pre more
                (Nat.le_refl _) Hw) as [Ew Eo].
    rewrite E, Ea, Ew, Eo, apply_options_app, Hc1.
    rewrite (parse_args_options atof atoi (List.length more) more c1
               (Nat.le_refl _)).
    reflexivity.
Qed.

(** A [-window] option with one value only behind a well-formed part. *)
Lemma argument_loop_accepts_witness :
  well_formed ["-NoD3D11"%string] = true /\
  (List.length ["800"%string] < arity "-window")%nat /\
  parse_args (fun _ => F64.of_Z 0) (fun _ => 0)
    ["-NoD3D11"; "-window"; "800"]%string
    (mkCommandLine scenario_settings true true true) = None.
Proof.
  split; [reflexivity | split; [vm_compute; lia | ]].
  apply (proj1 (proj2 (argument_loop_accepts (fun _ => F64.of_Z 0) (fun _ => 0)
                         ["-NoD3D11"; "-window"; "800"]%string
                         (mkCommandLine scenario_settings true true true)))
           ["-NoD3D11"%string] "-window"%string ["800"%string]).
  - reflexivity.
  - reflexivity.
  - right. vm_compute. lia.
Defined.

(** X13.  What a command line read to its end leaves in the settings and
    the two availability flags.  [-nod3d11], [-nod3d12] and [-fullscreen]
    can only switch a flag off and [-warp] and [-indirect] only on, however
    often and wherever they are given; of [-close_after], [-render_scale],
    [-locked_fps], [-window] and the two file-name options the last
    occurrence counts, its values converted by [atof] and [atoi]; every
    other setting of the window procedure and the loop is as before. *)
Theorem argument_loop_result (atof : string -> double) (atoi : string -> Z)
    (args : list string) (c c' : CommandLine) :
  parse_args atof atoi args c = Some c' ->
  options_result atof atoi (options_of args) c c'.
Proof.
  intros H.
  rewrite (parse_args_options atof atoi (List.length args) args c
             (Nat.le_refl _)) in H.
  destruct (well_formed args); [ | discriminate H].
  injection H as H. subst c'. apply apply_options_result.
Qed.

(** [-close_after] given twice and [-nod3d11] given twice, in mixed case,
    with the length of the text standing in for [atof]: the second duration
    counts and D3D11 is off. *)
Lemma argument_loop_result_witness :
  exists c',
    parse_args (fun v => F64.of_Z (Z.of_nat (String.length v))) (fun _ => 0)
      ["-Close_After"; "5"; "-nod3d11"; "-close_after"; "700"; "-NOD3D11"]%string
      (mkCommandLine scenario_settings true true true) = Some c' /\
    closeAfterSeconds (cl_settings c') = F64.of_Z 3 /\
    cl_d3d11Available c' = false /\
    cl_d3d12Available c' = true.
Proof.
  eexists. split; [vm_compute; reflexivity | ].
  pose proof (argument_loop_result
                (fun v => F64.of_Z (Z.of_nat (String.length v))) (fun _ => 0)
                ["-Close_After"; "5"; "-nod3d11"; "-close_after"; "700";
                 "-NOD3D11"]%string
                (mkCommandLine scenario_settings true true true) _ eq_refl)
    as H.
  destruct H as (H1 & H2 & _ & _ & _ & H6 & _).
  split; [exact H6 | split; [exact H1 | exact H2]].
Defined.

(** X14.  [main] before the loop.  It returns early only with -1, and
    exactly when the command line is not well formed, or no backend is left
    (a backend is left when its DLL loads and its [-nod3d1x] option is not
    given), or D3D12 is left and WARP is asked for but cannot be
    enumerated.  Otherwise a workload is constructed for each backend left
    and for no other, the flag selects a constructed one, the close-after
    duration is the one of the last [-close_after] option, and the two file
    names are those of the last options or, when empty, the defaults
    [asteroid_summary_stats.csv] for the time series and
    [asteroid_stats.csv] for the summary. *)
Theorem main_start_outcome (atof : string -> double) (atoi : string -> Z)
    (pf : Platform) (s0 : Settings) (windowed0 : bool) (argv : list string) :
  let opts := options_of (tl argv) in
  let d3d11 := CheckDll_d3d11 pf && negb (given "-nod3d11" opts) in
  let d3d12 := CheckDll_d3d12 pf && negb (given "-nod3d12" opts) in
  let warp' := warp s0 || given "-warp" opts in
  match main_start atof atoi pf s0 windowed0 argv with
  | inl code =>
      code = -1 /\
      (well_formed (tl argv) = false \/
       (d3d11 = false /\ d3d12 = false) \/
       (d3d12 = true /\ warp' = true /\ EnumWarpAdapter pf = false))
  | inr (Stuck f) => f = UndefinedConversion
  | inr (Ok _ w) =>
      well_formed (tl argv) = true /\
      (d3d11 = true \/ d3d12 = true) /\
      d3d12 && warp' && negb (EnumWarpAdapter pf) = false /\
      (gWorkloadD3D11 w <> None <-> d3d11 = true) /\
      (gWorkloadD3D12 w <> None <-> d3d12 = true) /\
      flag_ok w /\
      closeAfterSeconds (gSettings w)
      = last_value atof "-close_after" opts (closeAfterSeconds s0) /\
      statsCsvFileName (gSettings w)
      = default_name
          (last_value (fun v => v) "-stats_csv_file_name" opts
             (statsCsvFileName s0))
          "asteroid_summary_stats.csv" /\
      statsSummaryCsvFileName (gSettings w)
      = default_name
          (last_value (fun v => v) "-stats_summary_csv_file_name" opts
             (statsSummaryCsvFileName s0))
          "asteroid_stats.csv"
  end.
Proof.
  cbv zeta. unfold main_start, command_line.
  set (c0 := mkCommandLine _ _ _ _).
  rewrite (parse_args_options atof atoi (List.length (tl argv)) (tl argv) c0
             (Nat.le_refl _)).
  destruct (well_formed (tl argv)) eqn:W;
    [ | split; [reflexivity | left; reflexivity]].
  pose proof (apply_options_result atof atoi (options_of (tl argv)) c0) as R.
  set (c' := apply_options atof atoi (options_of (tl argv)) c0) in *.
  unfold options_result in R. cbv zeta in R.
  destruct R as (R1 & R2 & _ & R4 & _ & R6 & _ & _ & _ & _ & R11 & R12 & _).
  unfold c0 in R1, R2, R4, R6, R11, R12.
  cbn [cl_settings cl_d3d11Available cl_d3d12Available dpi_settings
       set_window set_renderScale warp closeAfterSeconds statsCsvFileName
       statsSummaryCsvFileName] in R1, R2, R4, R6, R11, R12.
  pose proof (startup_result
                (mkStartup (cl_settings c') (cl_d3d11Available c')
                   (cl_d3d12Available c') (EnumWarpAdapter pf)
                   (simOrbitRadius pf) (simDiscRadius pf)
                   (windowCreation pf))) as S.
  cbn [settings0 d3d11Available d3d12Available warpAdapter] in S.
  destruct (startup _) as [code | [[] w | f]]; cbv beta iota in S |- *;
    rewrite ?R1, ?R2, ?R4, ?R6, ?R11, ?R12 in S.
  - destruct S as [S1 S2]. split; [exact S1 | right; exact S2].
  - destruct S as (S1 & S0 & S2 & S3 & S4 & S5 & _ & S7 & S8).
    split; [reflexivity | ].
    split; [exact S1 | split; [exact S0 | ]].
    split; [exact S3 | split; [exact S4 | ]].
    split; [exact S2 | split; [exact S5 | split; [exact S7 | exact S8]]].
  - exact S.
Qed.

(* ================================================================== *)
(** * The calls of a frame, the DPI and the window style *)
(* ================================================================== *)

Section FrameCallFacts.

Lemma filter_quiet_frame_calls (evs : list Event) :
  Forall (fun e => quiet e = true) evs -> filter is_frame_call evs = [].
Proof.
  induction 1 as [ | e evs He _ IH]; [reflexivity | ].
  cbn [filter]. rewrite IH.
  destruct e; try discriminate He; reflexivity.
Qed.

Lemma filter_frame_calls (flag : bool) (s : Settings) (l : Loop)
    (i : TickInput) :
  filter is_frame_call (frame_calls flag s l i)
  = [E_ProcessInertia]
    ++ (if d3d12 s then [E_WaitForReadyToRender] else [])
    ++ [render_call s (advance s l (count i))].
Proof.
  unfold frame_calls. cbv zeta. rewrite !filter_app.
  assert (E1 : filter is_frame_call (switch_calls flag s) = [])
    by (unfold switch_calls; destruct (Bool.eqb flag (d3d12 s)); reflexivity).
  assert (E2 : filter is_frame_call (wait_calls s) = wait_calls s)
    by (unfold wait_calls; destruct (d3d12 s); reflexivity).
  assert (E3 : filter is_frame_call
                 (pace_calls s (advance s l (count i)) i) = []).
  { unfold pace_calls. destruct (lockFrameRate s); [ | reflexivity].
    destruct (pacing _ _); reflexivity. }
  assert (E4 : filter is_frame_call
                 (finish_calls s (advance s l (count i))) = [])
    by (unfold finish_calls; destruct (closing s _); reflexivity).
  rewrite E1, E2, E3, E4. unfold wait_calls, render_call.
  cbn [filter is_frame_call app]. rewrite ?app_nil_r. reflexivity.
Qed.

End FrameCallFacts.

(** X15.  Every iteration that meets no [WM_QUIT] processes the inertia of
    the camera once, then waits for the backend exactly when the active
    backend is D3D12, then renders exactly once, in this order, on the
    backend selected when the message loop has ended and with the smoothed
    frame time converted to [float]; the messages handled before make none
    of these calls. *)
Theorem frame_call_sequence (l : Loop) (i : TickInput) (w : World) :
  flag_ok w ->
  quit_free (msgs i) = true ->
  match tick l i w with
  | Stuck f => f = UndefinedConversion
  | Ok (l', _) w' =>
      exists evs,
        calls w' = calls w ++ evs /\
        filter is_frame_call evs
        = [E_ProcessInertia]
          ++ (if d3d12 (gSettings w') then [E_WaitForReadyToRender] else [])
          ++ [E_Render (active w') (F32.of_double (frameTime l'))]
  end.
Proof.
  intros Hf Hq.
  pose proof (tick_shape l i w Hf) as Ht.
  destruct (tick l i w) as [[l' r] w' | f]; [ | exact Ht].
  destruct Ht as (_ & _ & [(_ & w1 & _ & (evs & Hc & Hquiet) & Hp)
                          | (Hq' & _)]); [ | congruence].
  pose proof (fp_locals _ _ _ _ _ _ _ Hp) as EL.
  pose proof (fp_settings _ _ _ _ _ _ _ Hp) as ES.
  pose proof (fp_calls _ _ _ _ _ _ _ Hp) as EC.
  exists (evs ++ frame_calls (d3d12 (gSettings w)) (gSettings w1) l i).
  split.
  - rewrite EC, Hc, <- app_assoc. reflexivity.
  - rewrite filter_app, (filter_quiet_frame_calls evs Hquiet),
      filter_frame_calls.
    unfold render_call, active. rewrite ES, EL. reflexivity.
Qed.

(** A key press, then a frame on D3D12. *)
Lemma frame_call_sequence_witness :
  flag_ok scenario_world /\
  exists l' r w' evs,
    tick (loop_init 1000 0) (mkTick [WM_KEYDOWN key_V 0] [] 16 16)
         scenario_world = Ok (l', r) w' /\
    calls w' = calls scenario_world ++ evs /\
    filter is_frame_call evs
    = [E_ProcessInertia; E_WaitForReadyToRender;
       E_Render D3D12 (F32.of_double (frameTime l'))].
Proof.
  assert (Hf : flag_ok scenario_world) by (split; intros; discriminate).
  split; [exact Hf | ].
  pose proof (frame_call_sequence (loop_init 1000 0)
                (mkTick [WM_KEYDOWN key_V 0] [] 16 16) scenario_world
                Hf eq_refl) as H.
  destruct (tick (loop_init 1000 0) (mkTick [WM_KEYDOWN key_V 0] [] 16 16)
              scenario_world) as [[l' r] w' | f] eqn:E;
    [ | vm_compute in E; discriminate E].
  destruct H as (evs & Hc & Hfilter).
  exists l', r, w', evs. split; [reflexivity | split; [exact Hc | ]].
  rewrite Hfilter.
  assert (Ew : d3d12 (gSettings w') = true).
  { vm_compute in E. injection E as _ _ E. subst w'. reflexivity. }
  unfold active. rewrite Ew. reflexivity.
Defined.

(** X16.  The DPI scaling at the start of [main].  The render scale becomes
    [96.0 / dpi]; the default window size is multiplied by the integer
    quotient [dpi / 96], so the fraction of the scale factor is dropped: at
    every DPI from 96 up to 191 (125 %, 150 % and 175 % included) the window
    keeps its size while the render scale shrinks, and below 96 the window
    size becomes zero.  Nothing else in the settings changes. *)
Theorem dpi_scaling (dpi : Z) (s : Settings) :
  0 <= dpi < 2 ^ 32 ->
  0 <= windowWidth s -> windowWidth s * (dpi / 96) < 2 ^ 31 ->
  0 <= windowHeight s -> windowHeight s * (dpi / 96) < 2 ^ 31 ->
  windowWidth (dpi_settings dpi s) = windowWidth s * (dpi / 96) /\
  windowHeight (dpi_settings dpi s) = windowHeight s * (dpi / 96) /\
  renderScale (dpi_settings dpi s) = F64.div (F64.of_Z 96) (F64.of_Z dpi) /\
  (96 <= dpi < 192 ->
   windowWidth (dpi_settings dpi s) = windowWidth s /\
   windowHeight (dpi_settings dpi s) = windowHeight s) /\
  (dpi < 96 ->
   windowWidth (dpi_settings dpi s) = 0 /\
   windowHeight (dpi_settings dpi s) = 0) /\
  set_renderScale (renderScale s)
    (set_window (windowWidth s) (windowHeight s) (dpi_settings dpi s)) = s.
Proof.
  intros Hd Hw0 Hw1 Hh0 Hh1.
  assert (Hq : 0 <= dpi / 96) by (apply Z.div_pos; lia).
  assert (Hs : forall x, 0 <= x -> x * (dpi / 96) < 2 ^ 31 ->
                 scale_by_dpi dpi x = x * (dpi / 96)).
  { intros x Hx0 Hx1. unfold scale_by_dpi, u32, to_int.
    assert (Hp : 0 <= x * (dpi / 96)) by (apply Z.mul_nonneg_nonneg; lia).
    destruct (Z.eq_dec (dpi / 96) 0) as [E0 | E0].
    - rewrite E0, !Z.mul_0_r. reflexivity.
    - assert (Hx : x < 2 ^ 32) by nia.
      rewrite (Z.mod_small x) by lia.
      rewrite (Z.mod_small (x * (dpi / 96))) by lia.
      rewrite (Z.mod_small (x * (dpi / 96))) by lia.
      replace (x * (dpi / 96) <? 2 ^ 31) with true
        by (symmetry; apply Z.ltb_lt; lia).
      reflexivity. }
  unfold dpi_settings.
  cbn [windowWidth windowHeight renderScale set_window set_renderScale].
  rewrite (Hs _ Hw0 Hw1), (Hs _ Hh0 Hh1).
  split; [reflexivity | split; [reflexivity | split; [reflexivity | ]]].
  split; [ | split].
  - intros Hr. assert (E : dpi / 96 = 1)
      by (symmetry; apply (Z.div_unique dpi 96 1 (dpi - 96)); lia).
    rewrite E. lia.
  - intros Hr. rewrite (Z.div_small dpi 96) by lia. lia.
  - destruct s; reflexivity.
Qed.

(** A monitor at 144 DPI (150 %): the window of 800 by 600 keeps its size
    and the render scale is two thirds. *)
Lemma dpi_scaling_witness :
  0 <= 144 < 2 ^ 32 /\
  windowWidth (dpi_settings 144 scenario_settings) = 800 /\
  windowHeight (dpi_settings 144 scenario_settings) = 600 /\
  renderScale (dpi_settings 144 scenario_settings) = F64.lit 2 3.
Proof.
  assert (Hd : 0 <= 144 < 2 ^ 32) by lia.
  destruct (dpi_scaling 144 scenario_settings Hd
              ltac:(cbn; lia) ltac:(vm_compute; reflexivity)
              ltac:(cbn; lia) ltac:(vm_compute; reflexivity))
    as (_ & _ & Hr & Hk & _).
  destruct (Hk ltac:(lia)) as [Hw Hh].
  split; [exact Hd | split; [exact Hw | split; [exact Hh | ]]].
  rewrite Hr. vm_compute. reflexivity.
Defined.

(** X17.  [ToggleFullscreen] there and back.  From a window that has every
    bit of the windowed style, a call whose two queries succeed saves the
    placement, sets the fullscreen style and covers the monitor; the next
    call on a window whose style lacks a bit of the windowed style, as the
    fullscreen style does, sets the windowed style again and restores
    exactly the placement saved on the way in.  A call whose queries fail
    makes no call on the window. *)
Theorem fullscreen_round_trip (prev : Win32.WINDOWPLACEMENT) (q1 q2 : WindowQuery)
    (mi : Win32.RECT) :
  Z.land (u32 (GetWindowLongPtr_STYLE q1)) windowedStyle = windowedStyle ->
  Z.land (u32 (GetWindowLongPtr_STYLE q2)) windowedStyle <> windowedStyle ->
  GetMonitorInfo q1 = Some mi ->
  Z.land fullscreenStyle windowedStyle <> windowedStyle /\
  (GetWindowPlacement q1 = true ->
   snd (ToggleFullscreen prev q1)
   = [SetWindowLong_STYLE fullscreenStyle;
      SetWindowPos_rect (Win32.left mi) (Win32.top mi)
        (Win32.right mi - Win32.left mi) (Win32.bottom mi - Win32.top mi)] /\
   snd (ToggleFullscreen (fst (ToggleFullscreen prev q1)) q2)
   = [SetWindowLong_STYLE windowedStyle;
      SetWindowPlacement (placementWritten q1);
      SetWindowPos_FRAMECHANGED] /\
   fst (ToggleFullscreen (fst (ToggleFullscreen prev q1)) q2)
   = placementWritten q1) /\
  (GetWindowPlacement q1 = false -> snd (ToggleFullscreen prev q1) = []).
Proof.
  intros H1 H2 Hm.
  apply Z.eqb_eq in H1. apply Z.eqb_neq in H2.
  split; [vm_compute; discriminate | split].
  - intros Hp. unfold ToggleFullscreen. rewrite H1, Hp, Hm.
    cbn [fst snd]. rewrite H2. cbn [fst snd]. repeat split.
  - intros Hp. unfold ToggleFullscreen. rewrite H1, Hp. reflexivity.
Qed.

(** Alt+Enter twice on the window [main] creates. *)
Lemma fullscreen_round_trip_witness :
  exists saved,
    snd (ToggleFullscreen
           (fst (ToggleFullscreen
                   initialPlacement
                   (mkWindowQuery windowedStyle true saved
                      (Some (Win32.mkRECT 0 0 1920 1080)))))
           (mkWindowQuery fullscreenStyle false saved None))
    = [SetWindowLong_STYLE windowedStyle;
       SetWindowPlacement saved;
       SetWindowPos_FRAMECHANGED] /\
    saved = normalPlacement.
Proof.
  exists normalPlacement.
  split; [ | reflexivity].
  apply (fullscreen_round_trip
           initialPlacement
           (mkWindowQuery windowedStyle true
              normalPlacement
              (Some (Win32.mkRECT 0 0 1920 1080)))
           (mkWindowQuery fullscreenStyle false
              normalPlacement None)
           (Win32.mkRECT 0 0 1920 1080)).
  - vm_compute; reflexivity.
  - vm_compute; discriminate.
  - reflexivity.
  - reflexivity.
Defined.

(* ================================================================== *)
(** * Who writes the settings *)
(* ================================================================== *)

Section SettingsFacts.

Lemma drain_quit_free (ms : list Msg) (w : World) :
  quit_free ms = true ->
  drain ms w = (dispatch ms ;;; ret None) w.
Proof.
  revert w. induction ms as [ | m ms IH]; intros w H; [reflexivity | ].
  change (quit_free (m :: ms)) with (negb (is_quit m) && quit_free ms) in H.
  apply andb_prop in H. destruct H as [Hm H].
  assert (E : drain (m :: ms) = (WindowProc m ;;; drain ms))
    by (destruct m; try discriminate Hm; reflexivity).
  rewrite E. cbn [dispatch]. unfold bind.
  destruct (WindowProc m w) as [[] w1 | f]; [ | reflexivity].
  rewrite (IH w1 H). reflexivity.
Qed.

End SettingsFacts.

(** X18.  The settings are written by the window procedure only.  After an
    iteration that renders, [gSettings] is exactly what dispatching the
    iteration's messages left: switching the backend, processing inertia,
    rendering, pacing and the statistics write no setting.  And over a whole
    run, however it ends, the close-after duration, the locked frame rate
    and the two file names are those the run started with, and no workload
    pointer changes between null and non-null. *)
Theorem loop_leaves_settings_alone :
  (forall (l : Loop) (i : TickInput) (w : World),
      flag_ok w ->
      quit_free (msgs i) = true ->
      match tick l i w with
      | Stuck f => f = UndefinedConversion
      | Ok _ w' =>
          exists w1, dispatch (msgs i) w = Ok tt w1 /\
                     gSettings w' = gSettings w1
      end) /\
  (forall (ticks : list TickInput) (l : Loop) (w : World),
      flag_ok w ->
      match run l ticks w with
      | Running _ w' | Returned _ w' => stable w w'
      | Undefined f => f = UndefinedConversion
      end).
Proof.
  split.
  - intros l i w Hf Hq.
    pose proof (tick_wp l i w Hf) as H. unfold wp in H.
    destruct (tick l i w) as [[l' r] w' | f]; [ | exact H].
    cbn [fst snd] in H. unfold tick_post in H. rewrite Hq in H.
    destruct H as (w1 & Hd & _ & _ & _ & Hp).
    exists w1. split; [ | exact (fp_settings _ _ _ _ _ _ _ Hp)].
    rewrite (drain_quit_free (msgs i) w Hq) in Hd. unfold bind, ret in Hd.
    destruct (dispatch (msgs i) w) as [[] w2 | f]; [ | discriminate Hd].
    injection Hd as Hd. rewrite Hd. reflexivity.
  - intros ticks l w Hf.
    pose proof (run_invariant (fun _ w' => stable w w')
                  (fun _ w' => stable w w')) as R.
    assert (Hstep : forall l1 i w1, flag_ok w1 -> stable w w1 ->
              match tick l1 i w1 with
              | Ok (_, None) w' => stable w w'
              | Ok (_, Some _) w' => stable w w'
              | Stuck _ => True
              end).
    { intros l1 i w1 Hf1 Hs1.
      pose proof (tick_shape l1 i w1 Hf1) as Ht.
      destruct (tick l1 i w1) as [[l' r] w' | f]; [ | exact I].
      destruct Ht as (_ & Hs & _).
      destruct r; exact (stable_trans _ _ _ Hs1 Hs). }
    specialize (R Hstep ticks l w Hf (stable_refl w)).
    destruct (run l ticks w); exact R.
Qed.

(** A first press of Space and a frame: the settings after the iteration
    are those after the key press. *)
Lemma loop_leaves_settings_alone_witness :
  flag_ok scenario_world /\
  exists l' r w',
    tick (loop_init 1000 0) (mkTick [WM_KEYDOWN VK_SPACE 0] [] 16 16)
         scenario_world = Ok (l', r) w' /\
    gSettings w' = set_animate false scenario_settings.
Proof.
  assert (Hf : flag_ok scenario_world) by (split; intros; discriminate).
  split; [exact Hf | ].
  pose proof (proj1 loop_leaves_settings_alone (loop_init 1000 0)
                (mkTick [WM_KEYDOWN VK_SPACE 0] [] 16 16) scenario_world
                Hf eq_refl) as H.
  destruct (tick (loop_init 1000 0) (mkTick [WM_KEYDOWN VK_SPACE 0] [] 16 16)
              scenario_world) as [[l' r] w' | f] eqn:E;
    [ | vm_compute in E; discriminate E].
  destruct H as (w1 & Hd & Hs).
  exists l', r, w'. split; [reflexivity | ].
  rewrite Hs. vm_compute in Hd. injection Hd as Hd. subst w1. reflexivity.
Defined.
